(** * newspaper: the Article aggregate and its parse pipeline

    A shallow embedding of [newspaper/article.py] and of the parts of
    [newspaper/utils.py] it calls.  Python objects that are mutated in
    place (the Article itself, Configuration objects, lxml documents)
    live in explicit stores; methods are computations in a state and
    exception monad in which the state survives a raised exception, as
    it does in Python.  The classes the package imports from its other
    modules (parser, extractor, cleaner, formatter, video extractor) are
    an interface the development is parameterised over. *)

From Stdlib Require Import ZArith String Ascii List Lia.
From stdpp Require Import gmap strings list fin_maps sorting.

Open Scope string_scope.

(** ** Python values and exceptions *)

Inductive exn : Type :=
  | ArticleException
  | TypeError
  | AttributeError
  | IndexError
  | AssertionError
  | ValueError
  | UnicodeDecodeError
  | OSError (strerror : string)
  | PlainException          (* raise Exception("...") *)
  | Foreign (tag : string). (* raised inside an imported class *)

Inductive Res (A : Type) : Type :=
  | Ok (a : A)
  | Raise (e : exn).
Arguments Ok {A} a.
Arguments Raise {A} e.

#[global] Instance Res_ret : MRet Res := fun A a => Ok a.

#[global] Instance Res_bind : MBind Res := fun A B f r =>
  match r with Ok a => f a | Raise e => Raise e end.

(** Values a configuration attribute or a keyword argument can hold. *)
Inductive PyVal : Type :=
  | VNone
  | VBool (b : bool)
  | VInt (z : Z)
  | VStr (s : string).

#[global] Instance PyVal_eq_dec : EqDecision PyVal.
Proof. solve_decision. Defined.

(** The raw HTML handed to an Article: a str, bytes, or None. *)
Inductive Html : Type :=
  | HNone
  | HStr (s : string)
  | HBytes (b : list Byte.byte).

(** ** Python string and list primitives *)

Module Py.

Definition len (s : string) : Z := Z.of_nat (String.length s).

(** Truth value of a str: non-empty. *)
Definition truthy (s : string) : bool :=
  match s with EmptyString => false | String _ _ => true end.

(** Truth value of an attribute value. *)
Definition val_truthy (v : PyVal) : bool :=
  match v with
  | VNone => false
  | VBool b => b
  | VInt z => negb (z =? 0)%Z
  | VStr s => truthy s
  end.

(** Truth value of the raw HTML. *)
Definition html_truthy (h : Html) : bool :=
  match h with
  | HNone => false
  | HStr s => truthy s
  | HBytes b => match b with [] => false | _ :: _ => true end
  end.

Fixpoint str_take (n : nat) (s : string) : string :=
  match n, s with
  | S n', String c r => String c (str_take n' r)
  | _, _ => EmptyString
  end.

(** Number of leading items kept by [x[:stop]] on a sequence of
    length [n]: a negative stop counts from the end. *)
Definition slice_stop (n : nat) (stop : Z) : nat :=
  if (stop <? 0)%Z then Z.to_nat (Z.of_nat n + stop) else Z.to_nat stop.

(** An index in a slice: None, an int, or a bool (an int in Python). *)
Definition as_index (v : PyVal) : Res (option Z) :=
  match v with
  | VNone => Ok None
  | VInt z => Ok (Some z)
  | VBool b => Ok (Some (if b then 1 else 0)%Z)
  | VStr _ => Raise TypeError
  end.

(** [s[:v]] *)
Definition str_slice_to (s : string) (v : PyVal) : Res string :=
  match as_index v with
  | Ok None => Ok s
  | Ok (Some z) => Ok (str_take (slice_stop (String.length s) z) s)
  | Raise e => Raise e
  end.

(** [l[:v]] *)
Definition list_slice_to {A} (l : list A) (v : PyVal) : Res (list A) :=
  match as_index v with
  | Ok None => Ok l
  | Ok (Some z) => Ok (take (slice_stop (length l) z) l)
  | Raise e => Raise e
  end.

(** [s.split(sep)] for a one-character separator: never empty. *)
Fixpoint split (sep : ascii) (s : string) : list string :=
  match s with
  | EmptyString => [EmptyString]
  | String c r =>
      if Ascii.eqb c sep then EmptyString :: split sep r
      else match split sep r with
           | hd :: tl => String c hd :: tl
           | [] => [String c EmptyString]
           end
  end.

(** [str.isspace] on the 8-bit characters. *)
Definition is_space (c : ascii) : bool :=
  let n := nat_of_ascii c in
  (((9 <=? n) && (n <=? 13)) || ((28 <=? n) && (n <=? 32))
   || (n =? 133) || (n =? 160))%nat.

Fixpoint lstrip (s : string) : string :=
  match s with
  | EmptyString => EmptyString
  | String c r => if is_space c then lstrip r else s
  end.

Fixpoint rstrip (s : string) : string :=
  match s with
  | EmptyString => EmptyString
  | String c r =>
      match rstrip r with
      | EmptyString => if is_space c then EmptyString else String c EmptyString
      | r' => String c r'
      end
  end.

(** [s.strip()] *)
Definition strip (s : string) : string := rstrip (lstrip s).

(** [s.replace(old, new)]: the occurrences of [old] are replaced from
    the left, without overlap; with an empty [old], [new] is put
    before every character and at the end. *)
Fixpoint replace_empty (new s : string) : string :=
  match s with
  | EmptyString => new
  | String c r => new +:+ String c (replace_empty new r)
  end.

(** [skip] characters of the occurrence being replaced are still to
    be passed over. *)
Fixpoint replace_skip (old new : string) (skip : nat) (s : string) : string :=
  match s with
  | EmptyString => EmptyString
  | String c r =>
      match skip with
      | S k => replace_skip old new k r
      | O =>
          if String.prefix old s
          then new +:+ replace_skip old new (String.length old - 1) r
          else String c (replace_skip old new 0 r)
      end
  end.

Definition replace (s old new : string) : string :=
  match old with
  | EmptyString => replace_empty new s
  | String _ _ => replace_skip old new 0 s
  end.

(** [n < v] and [n > v] for an int [n]; comparing an int with None
    or with a str raises TypeError. *)
Definition as_int (v : PyVal) : Res Z :=
  match v with
  | VInt z => Ok z
  | VBool b => Ok (if b then 1 else 0)%Z
  | VNone | VStr _ => Raise TypeError
  end.

Definition int_lt (n : Z) (v : PyVal) : Res bool :=
  match as_int v with Ok z => Ok (n <? z)%Z | Raise e => Raise e end.

Definition int_gt (n : Z) (v : PyVal) : Res bool :=
  match as_int v with Ok z => Ok (z <? n)%Z | Raise e => Raise e end.

(** [os.path.join(a, b)] on POSIX paths. *)
Definition ends_with_slash (a : string) : bool :=
  match rev (list_ascii_of_string a) with
  | c :: _ => Ascii.eqb c "/"%char
  | [] => false
  end.

Definition path_join (a b : string) : string :=
  match b with
  | String "/"%char _ => b
  | _ => if negb (truthy a) || ends_with_slash a then a +:+ b
         else a +:+ "/" +:+ b
  end.

(** [sorted] order of str: by code point, lexicographic. *)
Definition str_le (a b : string) : Prop := String.leb a b.

#[global] Instance str_le_dec : RelDecision str_le.
Proof. intros a b. unfold str_le. apply _. Defined.

Definition sort (l : list string) : list string := merge_sort str_le l.

End Py.

(** ** Stores of mutable objects

    A reference is a number; every reference denotes an object, and a
    new object takes the next unused number. *)

Record Store (A : Type) : Type := mkStore { cell : nat -> A; next : nat }.
Arguments mkStore {A} cell next.
Arguments cell {A} s l.
Arguments next {A} s.

Definition write {A} (l : nat) (a : A) (s : Store A) : Store A :=
  mkStore (fun l' => if (l' =? l)%nat then a else cell s l') (next s).

Definition alloc {A} (a : A) (s : Store A) : nat * Store A :=
  (next s, mkStore (fun l' => if (l' =? next s)%nat then a else cell s l')
                   (S (next s))).

(** ** The file system, as far as the package touches it: a flat map
    from paths to entries.  What reading a file as text gives is the
    text, or the exception of the read: an OSError, or the
    UnicodeDecodeError of bytes that are no text.  Whether the
    operating system lets a directory be made on an unused path, or a
    file be removed (the parent is there, the permissions allow it),
    is not in the map: the calls are handed the error, if any. *)

Inductive FsEntry : Type :=
  | File (content : Res string)
  | Dir.

Module os.

(** A path with a NUL character names nothing: the calls that take it
    to the operating system refuse it with ValueError before the file
    system is asked, [os.path.exists] answers False, and no listing
    holds such a name. *)
Definition has_nul (p : string) : bool :=
  existsb (fun c => Ascii.eqb c "000"%char) (list_ascii_of_string p).

Definition path_exists (p : string) (fs : gmap string FsEntry) : bool :=
  negb (has_nul p) && bool_decide (is_Some (fs !! p)).

(** [os.mkdir(p)]; [error] is the strerror of the refusal. *)
Definition mkdir (error : option string) (p : string)
  (fs : gmap string FsEntry) : gmap string FsEntry * Res unit :=
  if has_nul p then (fs, Raise ValueError)
  else
    match fs !! p with
    | Some _ => (fs, Raise (OSError "File exists"))
    | None =>
        match error with
        | Some strerror => (fs, Raise (OSError strerror))
        | None => (<[p := Dir]> fs, Ok tt)
        end
    end.

(** [os.remove(p)]; [error] is the strerror of the refusal. *)
Definition remove (error : option string) (p : string)
  (fs : gmap string FsEntry) : gmap string FsEntry * Res unit :=
  if has_nul p then (fs, Raise ValueError)
  else
    match fs !! p with
    | Some (File _) =>
        match error with
        | Some strerror => (fs, Raise (OSError strerror))
        | None => (delete p fs, Ok tt)
        end
    | Some Dir => (fs, Raise (OSError "Is a directory"))
    | None => (fs, Raise (OSError "No such file or directory"))
    end.

(** [open(p, "r").read()] *)
Definition read (p : string) (fs : gmap string FsEntry) : Res string :=
  if has_nul p then Raise ValueError
  else
    match fs !! p with
    | Some (File content) => content
    | Some Dir => Raise (OSError "Is a directory")
    | None => Raise (OSError "No such file or directory")
    end.

(** [glob.has_magic(p)] *)
Definition has_magic (p : string) : bool :=
  existsb (fun c => Ascii.eqb c "*"%char || Ascii.eqb c "?"%char
                    || Ascii.eqb c "["%char)
          (list_ascii_of_string p).

(** [glob.glob(p)]: without pattern characters, the path itself when
    it exists; with them, the paths that are there and that the
    pattern matches, [fnmatch] telling which. *)
Definition glob (fnmatch : string -> string -> bool) (p : string)
  (fs : gmap string FsEntry) : list string :=
  if has_magic p
  then filter (fun q => fnmatch p q && path_exists q fs = true)
              (map_to_list fs).*1
  else if path_exists p fs then [p] else [].

End os.

(** ** utils.py *)

(** [hashlib.md5(b).hexdigest()] *)
Class Hashlib : Type := { md5_hexdigest : list Byte.byte -> string }.

Record ParsingCandidate : Type := mkParsingCandidate { pc_link_hash : string }.

Module RawHelper.
Section WithHashlib.
Context {hashlib : Hashlib}.

(** [now] is the text of [time.time()]. *)
Definition get_parsing_candidate (raw_html : Html) (now : string)
  : Res ParsingCandidate :=
  match raw_html with
  | HStr s =>
      let raw := list_byte_of_string s in    (* raw_html.encode('utf-8', 'replace') *)
      Ok (mkParsingCandidate (md5_hexdigest raw +:+ "." +:+ now))
  | HBytes raw => Ok (mkParsingCandidate (md5_hexdigest raw +:+ "." +:+ now))
  | HNone => Raise TypeError               (* hashlib.md5(None) *)
  end.

End WithHashlib.
End RawHelper.

Module URLHelper.

(** [final_url] is a str whenever [url_to_crawl] is one, and
    [hashlib.md5] refuses a str; for bytes and None the test
    ['#!' in url_to_crawl] already raises. *)
Definition get_parsing_candidate (url_to_crawl : Html) (now : string)
  : Res ParsingCandidate :=
  match url_to_crawl with
  | HStr _ => Raise TypeError
  | HBytes _ => Raise TypeError
  | HNone => Raise TypeError
  end.

End URLHelper.

(** A replacement, of a pattern that is a str; [replaceWith] may be
    None when the object is made directly. *)
Module StringReplacement.

Record t : Type := mk { pattern : string; replaceWith : option string }.

(** The argument may be None. *)
Definition replaceAll (self : t) (a_string : option string) : Res string :=
  match a_string with
  | None | Some EmptyString => Ok ""
  | Some s =>
      match replaceWith self with
      | Some new => Ok (Py.replace s (pattern self) new)
      | None => Raise TypeError
      end
  end.

End StringReplacement.

(** The object is the list [self.replacements]; [create] and [append]
    add to it in place and return the object. *)
Module ReplaceSequence.

Definition t : Type := list StringReplacement.t.

Definition empty : t := [].

Definition create (self : t) (firstPattern : string)
  (replaceWith : option string) : t :=
  (self ++ [StringReplacement.mk firstPattern
              (Some (default "" replaceWith))])%list.

Definition append (self : t) (pattern : string) (replaceWith : option string)
  : t := create self pattern replaceWith.

Definition replaceAll (self : t) (a_string : option string) : Res string :=
  match a_string with
  | None | Some EmptyString => Ok ""
  | Some s =>
      foldl (fun (mutatedString : Res string) rp =>
               m ← mutatedString; StringReplacement.replaceAll rp (Some m))
            (Ok s) self
  end.

End ReplaceSequence.

(** [stopword_files] is what [os.listdir(settings.STOPWORDS_DIR)]
    gives: the names, or the exception. *)
Definition get_available_languages (stopword_files : Res (list string))
  : Res (list string) :=
  stopword_files ← stopword_files;
  two_dig_codes ←
    mapM (fun f : string =>
            match Py.split "-" f with
            | _ :: second :: _ =>
                match Py.split "." second with
                | code :: _ => Ok code
                | [] => Raise IndexError
                end
            | _ => Raise IndexError
            end) stopword_files;
  if forallb (fun d => (String.length d =? 2)%nat) two_dig_codes
  then Ok (Py.sort two_dig_codes)
  else Raise AssertionError.

(** A Configuration object is the map of its instance attributes.  The
    class of the object is not among the sources: what it decides is
    a parameter.  For a name the class decides on, [hasattr] is what
    the class answers (True for a method, what the getter of a
    property makes of it) and assignment is what the class does (the
    setter of a property, the refusal of [__class__]): it may raise,
    and may write any attribute.  A name the class says nothing about
    is an attribute when the instance holds it, and assignment stores
    it there. *)
Abbreviation ConfigObj := (gmap string PyVal).

Class ConfigurationClass : Type := {
  class_hasattr : string -> option (ConfigObj -> Res bool);
  class_setattr : string -> option (ConfigObj -> PyVal -> ConfigObj * Res unit);
}.

Section Configuration.
Context {configuration_class : ConfigurationClass}.

Definition hasattr (config : ConfigObj) (key : string) : Res bool :=
  match class_hasattr key with
  | Some answer => answer config
  | None => Ok (bool_decide (is_Some (config !! key)))
  end.

Definition setattr (config : ConfigObj) (key : string) (val : PyVal)
  : ConfigObj * Res unit :=
  match class_setattr key with
  | Some assign => assign config val
  | None => (<[key := val]> config, Ok tt)
  end.

(** A name the class says nothing about: a plain attribute, when the
    instance holds it. *)
Definition plain (key : string) : Prop :=
  class_hasattr key = None /\ class_setattr key = None.

(** The loop of [extend_config] on the attributes of the object: it
    ends at the first exception, with what was assigned before. *)
Fixpoint extend_attrs (config : ConfigObj)
  (config_items : list (string * PyVal)) : ConfigObj * Res unit :=
  match config_items with
  | [] => (config, Ok tt)
  | (key, val) :: rest =>
      match hasattr config key with
      | Ok true =>
          match setattr config key val with
          | (config', Ok _) => extend_attrs config' rest
          | (config', Raise e) => (config', Raise e)
          end
      | Ok false => extend_attrs config rest
      | Raise e => (config, Raise e)
      end
  end.

(** [extend_config(config, config_items)]: the object at [config] is
    updated in place and the reference is returned. *)
Definition extend_config (config : nat) (config_items : list (string * PyVal))
  (configs : Store ConfigObj) : Store ConfigObj * Res nat :=
  let '(attrs, outcome) := extend_attrs (cell configs config) config_items in
  (write config attrs configs,
   match outcome with Ok _ => Ok config | Raise e => Raise e end).

End Configuration.

Definition getattr (config : ConfigObj) (name : string) : Res PyVal :=
  match config !! name with
  | Some v => Ok v
  | None => Raise AttributeError
  end.

(** The value the items give to [key]: that of its last occurrence. *)
Fixpoint last_binding (key : string) (config_items : list (string * PyVal))
  : option PyVal :=
  match config_items with
  | [] => None
  | (k, v) :: rest =>
      match last_binding key rest with
      | Some v' => Some v'
      | None => if decide (k = key) then Some v else None
      end
  end.

(** ** The imported classes *)

(** lxml documents.  An element is named by the document that owns it
    and by its place there; [copy.deepcopy] of an element builds a new
    document. *)
Class Lxml : Type := {
  Arena : Type;
  NodeId : Type;
  clone_subtree : Arena -> NodeId -> Arena * NodeId;
}.

Definition Ref `{Lxml} : Type := nat * NodeId.

(** An object in a list of videos: None, or an object with a [src]. *)
Record Video : Type := mkVideo { src : option string }.

(** A method of an imported class that is handed an element: it may
    change its own object and the document of the element. *)
Definition Method `{Lxml} (Obj A : Type) : Type :=
  Obj -> ConfigObj -> Arena -> NodeId -> Obj * Arena * Res A.

Class Collaborators `{Lxml} : Type := {
  (* settings *)
  TOP_DIRECTORY : string;
  (* configuration.Configuration() *)
  Configuration : ConfigObj;
  (* config.get_parser() *)
  fromstring : ConfigObj -> Html -> Res (option (Arena * NodeId));
  get_unicode_html : ConfigObj -> list Byte.byte -> Res string;
  (* extractors.ContentExtractor *)
  Extractor : Type;
  ContentExtractor : ConfigObj -> Extractor;
  update_language : Extractor -> ConfigObj -> string -> Extractor * Res unit;
  get_title : Method Extractor string;
  get_authors : Method Extractor (list string);
  get_meta_lang : Method Extractor string;
  get_meta_site_name : Method Extractor string;
  get_meta_description : Method Extractor string;
  extract_tags : Method Extractor (gset string);
  get_meta_keywords : Method Extractor string;
  get_meta_data : Method Extractor (gmap string string);
  get_meta_type : Method Extractor string;
  get_meta_type_of_None : Extractor -> ConfigObj -> Extractor * Res string;
  calculate_best_node : Method Extractor (option NodeId);
  post_cleanup : Method Extractor NodeId;
  (* cleaners.DocumentCleaner *)
  Cleaner : Type;
  DocumentCleaner : ConfigObj -> Cleaner;
  clean : Method Cleaner NodeId;
  (* outputformatters.OutputFormatter *)
  Formatter : Type;
  OutputFormatter : ConfigObj -> Formatter;
  formatter_update_language :
    Formatter -> ConfigObj -> string -> Formatter * Res unit;
  get_formatted : Method Formatter (string * string);
  (* videos.extractors.VideoExtractor(config, top_node).get_videos() *)
  get_videos : ConfigObj -> Arena -> NodeId -> Arena * Res (list (option Video));
}.

(** ** article.py *)

Section Article.
Context {hashlib : Hashlib} {configuration_class : ConfigurationClass}
  {lxml : Lxml} {lib : Collaborators}.

(** The attributes of an Article, in the order [__init__] creates
    them; the last two are created later. *)
#[projections(primitive)]
Record Article : Type := mkArticle {
  config : nat;  (* the Configuration object *)
  extractor : Extractor;
  title : option string;  (* a str, or None *)
  top_img : string;
  top_image : string;
  meta_img : string;
  imgs : list string;
  images : list string;
  movies : list string;
  text : string;
  keywords : list string;
  meta_keywords : list string;
  tags : gset string;
  authors : list string;
  publish_date : string;
  summary : string;
  html : Html;
  article_html : string;
  is_parsed : bool;
  meta_description : string;
  meta_lang : string;
  meta_favicon : string;
  meta_site_name : string;
  meta_data : gmap string string;
  canonical_link : string;
  top_node : option Ref;
  clean_top_node : option Ref;
  doc : option Ref;
  clean_doc : option Ref;
  additional_data : gmap string string;
  link_hash : option string;  (* absent until parse() sets it *)
  download_exception_msg : option string;  (* absent until _parse_scheme_file() sets it *)
}.

(** Assignment to one attribute: [self.x = v]. *)
Definition with_extractor (v : Extractor) (a : Article) : Article :=
  {| config := config a; extractor := v; title := title a;
     top_img := top_img a; top_image := top_image a;
     meta_img := meta_img a; imgs := imgs a; images := images a;
     movies := movies a; text := text a; keywords := keywords a;
     meta_keywords := meta_keywords a; tags := tags a;
     authors := authors a; publish_date := publish_date a;
     summary := summary a; html := html a; article_html := article_html a;
     is_parsed := is_parsed a; meta_description := meta_description a;
     meta_lang := meta_lang a; meta_favicon := meta_favicon a;
     meta_site_name := meta_site_name a; meta_data := meta_data a;
     canonical_link := canonical_link a; top_node := top_node a;
     clean_top_node := clean_top_node a; doc := doc a;
     clean_doc := clean_doc a; additional_data := additional_data a;
     link_hash := link_hash a;
     download_exception_msg := download_exception_msg a |}.

Definition with_title (v : option string) (a : Article) : Article :=
  {| config := config a; extractor := extractor a; title := v;
     top_img := top_img a; top_image := top_image a;
     meta_img := meta_img a; imgs := imgs a; images := images a;
     movies := movies a; text := text a; keywords := keywords a;
     meta_keywords := meta_keywords a; tags := tags a;
     authors := authors a; publish_date := publish_date a;
     summary := summary a; html := html a; article_html := article_html a;
     is_parsed := is_parsed a; meta_description := meta_description a;
     meta_lang := meta_lang a; meta_favicon := meta_favicon a;
     meta_site_name := meta_site_name a; meta_data := meta_data a;
     canonical_link := canonical_link a; top_node := top_node a;
     clean_top_node := clean_top_node a; doc := doc a;
     clean_doc := clean_doc a; additional_data := additional_data a;
     link_hash := link_hash a;
     download_exception_msg := download_exception_msg a |}.

Definition with_imgs (v : list string) (a : Article) : Article :=
  {| config := config a; extractor := extractor a; title := title a;
     top_img := top_img a; top_image := top_image a;
     meta_img := meta_img a; imgs := v; images := images a;
     movies := movies a; text := text a; keywords := keywords a;
     meta_keywords := meta_keywords a; tags := tags a;
     authors := authors a; publish_date := publish_date a;
     summary := summary a; html := html a; article_html := article_html a;
     is_parsed := is_parsed a; meta_description := meta_description a;
     meta_lang := meta_lang a; meta_favicon := meta_favicon a;
     meta_site_name := meta_site_name a; meta_data := meta_data a;
     canonical_link := canonical_link a; top_node := top_node a;
     clean_top_node := clean_top_node a; doc := doc a;
     clean_doc := clean_doc a; additional_data := additional_data a;
     link_hash := link_hash a;
     download_exception_msg := download_exception_msg a |}.

Definition with_images (v : list string) (a : Article) : Article :=
  {| config := config a; extractor := extractor a; title := title a;
     top_img := top_img a; top_image := top_image a;
     meta_img := meta_img a; imgs := imgs a; images := v;
     movies := movies a; text := text a; keywords := keywords a;
     meta_keywords := meta_keywords a; tags := tags a;
     authors := authors a; publish_date := publish_date a;
     summary := summary a; html := html a; article_html := article_html a;
     is_parsed := is_parsed a; meta_description := meta_description a;
     meta_lang := meta_lang a; meta_favicon := meta_favicon a;
     meta_site_name := meta_site_name a; meta_data := meta_data a;
     canonical_link := canonical_link a; top_node := top_node a;
     clean_top_node := clean_top_node a; doc := doc a;
     clean_doc := clean_doc a; additional_data := additional_data a;
     link_hash := link_hash a;
     download_exception_msg := download_exception_msg a |}.

Definition with_movies (v : list string) (a : Article) : Article :=
  {| config := config a; extractor := extractor a; title := title a;
     top_img := top_img a; top_image := top_image a;
     meta_img := meta_img a; imgs := imgs a; images := images a;
     movies := v; text := text a; keywords := keywords a;
     meta_keywords := meta_keywords a; tags := tags a;
     authors := authors a; publish_date := publish_date a;
     summary := summary a; html := html a; article_html := article_html a;
     is_parsed := is_parsed a; meta_description := meta_description a;
     meta_lang := meta_lang a; meta_favicon := meta_favicon a;
     meta_site_name := meta_site_name a; meta_data := meta_data a;
     canonical_link := canonical_link a; top_node := top_node a;
     clean_top_node := clean_top_node a; doc := doc a;
     clean_doc := clean_doc a; additional_data := additional_data a;
     link_hash := link_hash a;
     download_exception_msg := download_exception_msg a |}.

Definition with_text (v : string) (a : Article) : Article :=
  {| config := config a; extractor := extractor a; title := title a;
     top_img := top_img a; top_image := top_image a;
     meta_img := meta_img a; imgs := imgs a; images := images a;
     movies := movies a; text := v; keywords := keywords a;
     meta_keywords := meta_keywords a; tags := tags a;
     authors := authors a; publish_date := publish_date a;
     summary := summary a; html := html a; article_html := article_html a;
     is_parsed := is_parsed a; meta_description := meta_description a;
     meta_lang := meta_lang a; meta_favicon := meta_favicon a;
     meta_site_name := meta_site_name a; meta_data := meta_data a;
     canonical_link := canonical_link a; top_node := top_node a;
     clean_top_node := clean_top_node a; doc := doc a;
     clean_doc := clean_doc a; additional_data := additional_data a;
     link_hash := link_hash a;
     download_exception_msg := download_exception_msg a |}.

Definition with_keywords (v : list string) (a : Article) : Article :=
  {| config := config a; extractor := extractor a; title := title a;
     top_img := top_img a; top_image := top_image a;
     meta_img := meta_img a; imgs := imgs a; images := images a;
     movies := movies a; text := text a; keywords := v;
     meta_keywords := meta_keywords a; tags := tags a;
     authors := authors a; publish_date := publish_date a;
     summary := summary a; html := html a; article_html := article_html a;
     is_parsed := is_parsed a; meta_description := meta_description a;
     meta_lang := meta_lang a; meta_favicon := meta_favicon a;
     meta_site_name := meta_site_name a; meta_data := meta_data a;
     canonical_link := canonical_link a; top_node := top_node a;
     clean_top_node := clean_top_node a; doc := doc a;
     clean_doc := clean_doc a; additional_data := additional_data a;
     link_hash := link_hash a;
     download_exception_msg := download_exception_msg a |}.

Definition with_meta_keywords (v : list string) (a : Article) : Article :=
  {| config := config a; extractor := extractor a; title := title a;
     top_img := top_img a; top_image := top_image a;
     meta_img := meta_img a; imgs := imgs a; images := images a;
     movies := movies a; text := text a; keywords := keywords a;
     meta_keywords := v; tags := tags a; authors := authors a;
     publish_date := publish_date a; summary := summary a; html := html a;
     article_html := article_html a; is_parsed := is_parsed a;
     meta_description := meta_description a; meta_lang := meta_lang a;
     meta_favicon := meta_favicon a; meta_site_name := meta_site_name a;
     meta_data := meta_data a; canonical_link := canonical_link a;
     top_node := top_node a; clean_top_node := clean_top_node a;
     doc := doc a; clean_doc := clean_doc a;
     additional_data := additional_data a; link_hash := link_hash a;
     download_exception_msg := download_exception_msg a |}.

Definition with_tags (v : gset string) (a : Article) : Article :=
  {| config := config a; extractor := extractor a; title := title a;
     top_img := top_img a; top_image := top_image a;
     meta_img := meta_img a; imgs := imgs a; images := images a;
     movies := movies a; text := text a; keywords := keywords a;
     meta_keywords := meta_keywords a; tags := v; authors := authors a;
     publish_date := publish_date a; summary := summary a; html := html a;
     article_html := article_html a; is_parsed := is_parsed a;
     meta_description := meta_description a; meta_lang := meta_lang a;
     meta_favicon := meta_favicon a; meta_site_name := meta_site_name a;
     meta_data := meta_data a; canonical_link := canonical_link a;
     top_node := top_node a; clean_top_node := clean_top_node a;
     doc := doc a; clean_doc := clean_doc a;
     additional_data := additional_data a; link_hash := link_hash a;
     download_exception_msg := download_exception_msg a |}.

Definition with_authors (v : list string) (a : Article) : Article :=
  {| config := config a; extractor := extractor a; title := title a;
     top_img := top_img a; top_image := top_image a;
     meta_img := meta_img a; imgs := imgs a; images := images a;
     movies := movies a; text := text a; keywords := keywords a;
     meta_keywords := meta_keywords a; tags := tags a; authors := v;
     publish_date := publish_date a; summary := summary a; html := html a;
     article_html := article_html a; is_parsed := is_parsed a;
     meta_description := meta_description a; meta_lang := meta_lang a;
     meta_favicon := meta_favicon a; meta_site_name := meta_site_name a;
     meta_data := meta_data a; canonical_link := canonical_link a;
     top_node := top_node a; clean_top_node := clean_top_node a;
     doc := doc a; clean_doc := clean_doc a;
     additional_data := additional_data a; link_hash := link_hash a;
     download_exception_msg := download_exception_msg a |}.

Definition with_summary (v : string) (a : Article) : Article :=
  {| config := config a; extractor := extractor a; title := title a;
     top_img := top_img a; top_image := top_image a;
     meta_img := meta_img a; imgs := imgs a; images := images a;
     movies := movies a; text := text a; keywords := keywords a;
     meta_keywords := meta_keywords a; tags := tags a;
     authors := authors a; publish_date := publish_date a; summary := v;
     html := html a; article_html := article_html a;
     is_parsed := is_parsed a; meta_description := meta_description a;
     meta_lang := meta_lang a; meta_favicon := meta_favicon a;
     meta_site_name := meta_site_name a; meta_data := meta_data a;
     canonical_link := canonical_link a; top_node := top_node a;
     clean_top_node := clean_top_node a; doc := doc a;
     clean_doc := clean_doc a; additional_data := additional_data a;
     link_hash := link_hash a;
     download_exception_msg := download_exception_msg a |}.

Definition with_html (v : Html) (a : Article) : Article :=
  {| config := config a; extractor := extractor a; title := title a;
     top_img := top_img a; top_image := top_image a;
     meta_img := meta_img a; imgs := imgs a; images := images a;
     movies := movies a; text := text a; keywords := keywords a;
     meta_keywords := meta_keywords a; tags := tags a;
     authors := authors a; publish_date := publish_date a;
     summary := summary a; html := v; article_html := article_html a;
     is_parsed := is_parsed a; meta_description := meta_description a;
     meta_lang := meta_lang a; meta_favicon := meta_favicon a;
     meta_site_name := meta_site_name a; meta_data := meta_data a;
     canonical_link := canonical_link a; top_node := top_node a;
     clean_top_node := clean_top_node a; doc := doc a;
     clean_doc := clean_doc a; additional_data := additional_data a;
     link_hash := link_hash a;
     download_exception_msg := download_exception_msg a |}.

Definition with_article_html (v : string) (a : Article) : Article :=
  {| config := config a; extractor := extractor a; title := title a;
     top_img := top_img a; top_image := top_image a;
     meta_img := meta_img a; imgs := imgs a; images := images a;
     movies := movies a; text := text a; keywords := keywords a;
     meta_keywords := meta_keywords a; tags := tags a;
     authors := authors a; publish_date := publish_date a;
     summary := summary a; html := html a; article_html := v;
     is_parsed := is_parsed a; meta_description := meta_description a;
     meta_lang := meta_lang a; meta_favicon := meta_favicon a;
     meta_site_name := meta_site_name a; meta_data := meta_data a;
     canonical_link := canonical_link a; top_node := top_node a;
     clean_top_node := clean_top_node a; doc := doc a;
     clean_doc := clean_doc a; additional_data := additional_data a;
     link_hash := link_hash a;
     download_exception_msg := download_exception_msg a |}.

Definition with_is_parsed (v : bool) (a : Article) : Article :=
  {| config := config a; extractor := extractor a; title := title a;
     top_img := top_img a; top_image := top_image a;
     meta_img := meta_img a; imgs := imgs a; images := images a;
     movies := movies a; text := text a; keywords := keywords a;
     meta_keywords := meta_keywords a; tags := tags a;
     authors := authors a; publish_date := publish_date a;
     summary := summary a; html := html a; article_html := article_html a;
     is_parsed := v; meta_description := meta_description a;
     meta_lang := meta_lang a; meta_favicon := meta_favicon a;
     meta_site_name := meta_site_name a; meta_data := meta_data a;
     canonical_link := canonical_link a; top_node := top_node a;
     clean_top_node := clean_top_node a; doc := doc a;
     clean_doc := clean_doc a; additional_data := additional_data a;
     link_hash := link_hash a;
     download_exception_msg := download_exception_msg a |}.

Definition with_meta_description (v : string) (a : Article) : Article :=
  {| config := config a; extractor := extractor a; title := title a;
     top_img := top_img a; top_image := top_image a;
     meta_img := meta_img a; imgs := imgs a; images := images a;
     movies := movies a; text := text a; keywords := keywords a;
     meta_keywords := meta_keywords a; tags := tags a;
     authors := authors a; publish_date := publish_date a;
     summary := summary a; html := html a; article_html := article_html a;
     is_parsed := is_parsed a; meta_description := v;
     meta_lang := meta_lang a; meta_favicon := meta_favicon a;
     meta_site_name := meta_site_name a; meta_data := meta_data a;
     canonical_link := canonical_link a; top_node := top_node a;
     clean_top_node := clean_top_node a; doc := doc a;
     clean_doc := clean_doc a; additional_data := additional_data a;
     link_hash := link_hash a;
     download_exception_msg := download_exception_msg a |}.

Definition with_meta_lang (v : string) (a : Article) : Article :=
  {| config := config a; extractor := extractor a; title := title a;
     top_img := top_img a; top_image := top_image a;
     meta_img := meta_img a; imgs := imgs a; images := images a;
     movies := movies a; text := text a; keywords := keywords a;
     meta_keywords := meta_keywords a; tags := tags a;
     authors := authors a; publish_date := publish_date a;
     summary := summary a; html := html a; article_html := article_html a;
     is_parsed := is_parsed a; meta_description := meta_description a;
     meta_lang := v; meta_favicon := meta_favicon a;
     meta_site_name := meta_site_name a; meta_data := meta_data a;
     canonical_link := canonical_link a; top_node := top_node a;
     clean_top_node := clean_top_node a; doc := doc a;
     clean_doc := clean_doc a; additional_data := additional_data a;
     link_hash := link_hash a;
     download_exception_msg := download_exception_msg a |}.

Definition with_meta_favicon (v : string) (a : Article) : Article :=
  {| config := config a; extractor := extractor a; title := title a;
     top_img := top_img a; top_image := top_image a;
     meta_img := meta_img a; imgs := imgs a; images := images a;
     movies := movies a; text := text a; keywords := keywords a;
     meta_keywords := meta_keywords a; tags := tags a;
     authors := authors a; publish_date := publish_date a;
     summary := summary a; html := html a; article_html := article_html a;
     is_parsed := is_parsed a; meta_description := meta_description a;
     meta_lang := meta_lang a; meta_favicon := v;
     meta_site_name := meta_site_name a; meta_data := meta_data a;
     canonical_link := canonical_link a; top_node := top_node a;
     clean_top_node := clean_top_node a; doc := doc a;
     clean_doc := clean_doc a; additional_data := additional_data a;
     link_hash := link_hash a;
     download_exception_msg := download_exception_msg a |}.

Definition with_meta_site_name (v : string) (a : Article) : Article :=
  {| config := config a; extractor := extractor a; title := title a;
     top_img := top_img a; top_image := top_image a;
     meta_img := meta_img a; imgs := imgs a; images := images a;
     movies := movies a; text := text a; keywords := keywords a;
     meta_keywords := meta_keywords a; tags := tags a;
     authors := authors a; publish_date := publish_date a;
     summary := summary a; html := html a; article_html := article_html a;
     is_parsed := is_parsed a; meta_description := meta_description a;
     meta_lang := meta_lang a; meta_favicon := meta_favicon a;
     meta_site_name := v; meta_data := meta_data a;
     canonical_link := canonical_link a; top_node := top_node a;
     clean_top_node := clean_top_node a; doc := doc a;
     clean_doc := clean_doc a; additional_data := additional_data a;
     link_hash := link_hash a;
     download_exception_msg := download_exception_msg a |}.

Definition with_meta_data (v : gmap string string) (a : Article) : Article :=
  {| config := config a; extractor := extractor a; title := title a;
     top_img := top_img a; top_image := top_image a;
     meta_img := meta_img a; imgs := imgs a; images := images a;
     movies := movies a; text := text a; keywords := keywords a;
     meta_keywords := meta_keywords a; tags := tags a;
     authors := authors a; publish_date := publish_date a;
     summary := summary a; html := html a; article_html := article_html a;
     is_parsed := is_parsed a; meta_description := meta_description a;
     meta_lang := meta_lang a; meta_favicon := meta_favicon a;
     meta_site_name := meta_site_name a; meta_data := v;
     canonical_link := canonical_link a; top_node := top_node a;
     clean_top_node := clean_top_node a; doc := doc a;
     clean_doc := clean_doc a; additional_data := additional_data a;
     link_hash := link_hash a;
     download_exception_msg := download_exception_msg a |}.

Definition with_top_node (v : option Ref) (a : Article) : Article :=
  {| config := config a; extractor := extractor a; title := title a;
     top_img := top_img a; top_image := top_image a;
     meta_img := meta_img a; imgs := imgs a; images := images a;
     movies := movies a; text := text a; keywords := keywords a;
     meta_keywords := meta_keywords a; tags := tags a;
     authors := authors a; publish_date := publish_date a;
     summary := summary a; html := html a; article_html := article_html a;
     is_parsed := is_parsed a; meta_description := meta_description a;
     meta_lang := meta_lang a; meta_favicon := meta_favicon a;
     meta_site_name := meta_site_name a; meta_data := meta_data a;
     canonical_link := canonical_link a; top_node := v;
     clean_top_node := clean_top_node a; doc := doc a;
     clean_doc := clean_doc a; additional_data := additional_data a;
     link_hash := link_hash a;
     download_exception_msg := download_exception_msg a |}.

Definition with_clean_top_node (v : option Ref) (a : Article) : Article :=
  {| config := config a; extractor := extractor a; title := title a;
     top_img := top_img a; top_image := top_image a;
     meta_img := meta_img a; imgs := imgs a; images := images a;
     movies := movies a; text := text a; keywords := keywords a;
     meta_keywords := meta_keywords a; tags := tags a;
     authors := authors a; publish_date := publish_date a;
     summary := summary a; html := html a; article_html := article_html a;
     is_parsed := is_parsed a; meta_description := meta_description a;
     meta_lang := meta_lang a; meta_favicon := meta_favicon a;
     meta_site_name := meta_site_name a; meta_data := meta_data a;
     canonical_link := canonical_link a; top_node := top_node a;
     clean_top_node := v; doc := doc a; clean_doc := clean_doc a;
     additional_data := additional_data a; link_hash := link_hash a;
     download_exception_msg := download_exception_msg a |}.

Definition with_doc (v : option Ref) (a : Article) : Article :=
  {| config := config a; extractor := extractor a; title := title a;
     top_img := top_img a; top_image := top_image a;
     meta_img := meta_img a; imgs := imgs a; images := images a;
     movies := movies a; text := text a; keywords := keywords a;
     meta_keywords := meta_keywords a; tags := tags a;
     authors := authors a; publish_date := publish_date a;
     summary := summary a; html := html a; article_html := article_html a;
     is_parsed := is_parsed a; meta_description := meta_description a;
     meta_lang := meta_lang a; meta_favicon := meta_favicon a;
     meta_site_name := meta_site_name a; meta_data := meta_data a;
     canonical_link := canonical_link a; top_node := top_node a;
     clean_top_node := clean_top_node a; doc := v;
     clean_doc := clean_doc a; additional_data := additional_data a;
     link_hash := link_hash a;
     download_exception_msg := download_exception_msg a |}.

Definition with_clean_doc (v : option Ref) (a : Article) : Article :=
  {| config := config a; extractor := extractor a; title := title a;
     top_img := top_img a; top_image := top_image a;
     meta_img := meta_img a; imgs := imgs a; images := images a;
     movies := movies a; text := text a; keywords := keywords a;
     meta_keywords := meta_keywords a; tags := tags a;
     authors := authors a; publish_date := publish_date a;
     summary := summary a; html := html a; article_html := article_html a;
     is_parsed := is_parsed a; meta_description := meta_description a;
     meta_lang := meta_lang a; meta_favicon := meta_favicon a;
     meta_site_name := meta_site_name a; meta_data := meta_data a;
     canonical_link := canonical_link a; top_node := top_node a;
     clean_top_node := clean_top_node a; doc := doc a; clean_doc := v;
     additional_data := additional_data a; link_hash := link_hash a;
     download_exception_msg := download_exception_msg a |}.

Definition with_link_hash (v : option string) (a : Article) : Article :=
  {| config := config a; extractor := extractor a; title := title a;
     top_img := top_img a; top_image := top_image a;
     meta_img := meta_img a; imgs := imgs a; images := images a;
     movies := movies a; text := text a; keywords := keywords a;
     meta_keywords := meta_keywords a; tags := tags a;
     authors := authors a; publish_date := publish_date a;
     summary := summary a; html := html a; article_html := article_html a;
     is_parsed := is_parsed a; meta_description := meta_description a;
     meta_lang := meta_lang a; meta_favicon := meta_favicon a;
     meta_site_name := meta_site_name a; meta_data := meta_data a;
     canonical_link := canonical_link a; top_node := top_node a;
     clean_top_node := clean_top_node a; doc := doc a;
     clean_doc := clean_doc a; additional_data := additional_data a;
     link_hash := v; download_exception_msg := download_exception_msg a |}.

Definition with_download_exception_msg (v : option string) (a : Article) : Article :=
  {| config := config a; extractor := extractor a; title := title a;
     top_img := top_img a; top_image := top_image a;
     meta_img := meta_img a; imgs := imgs a; images := images a;
     movies := movies a; text := text a; keywords := keywords a;
     meta_keywords := meta_keywords a; tags := tags a;
     authors := authors a; publish_date := publish_date a;
     summary := summary a; html := html a; article_html := article_html a;
     is_parsed := is_parsed a; meta_description := meta_description a;
     meta_lang := meta_lang a; meta_favicon := meta_favicon a;
     meta_site_name := meta_site_name a; meta_data := meta_data a;
     canonical_link := canonical_link a; top_node := top_node a;
     clean_top_node := clean_top_node a; doc := doc a;
     clean_doc := clean_doc a; additional_data := additional_data a;
     link_hash := link_hash a; download_exception_msg := v |}.

(** The world outside the Article. *)
#[projections(primitive)]
Record World : Type := mkWorld {
  configs : Store ConfigObj;        (* Configuration objects *)
  documents : Store Arena;          (* lxml documents *)
  fs : gmap string FsEntry;         (* files and directories *)
  (* the strerror with which the operating system refuses to make a
     directory on a path, or to remove a file, as the files are *)
  mkdir_error : gmap string FsEntry -> string -> option string;
  remove_error : gmap string FsEntry -> string -> option string;
  fnmatch : string -> string -> bool;  (* the paths a glob pattern matches *)
  (* os.listdir(settings.STOPWORDS_DIR): the names, or the exception *)
  stopword_files : Res (list string);
  clock : nat -> string;            (* the text of successive time.time() *)
  ticks : nat;                      (* readings of the clock so far *)
}.

Definition with_configs (v : Store ConfigObj) (w : World) : World :=
  {| configs := v; documents := documents w; fs := fs w;
     mkdir_error := mkdir_error w; remove_error := remove_error w;
     fnmatch := fnmatch w;
     stopword_files := stopword_files w; clock := clock w; ticks := ticks w |}.

Definition with_documents (v : Store Arena) (w : World) : World :=
  {| configs := configs w; documents := v; fs := fs w;
     mkdir_error := mkdir_error w; remove_error := remove_error w;
     fnmatch := fnmatch w;
     stopword_files := stopword_files w; clock := clock w; ticks := ticks w |}.

Definition with_fs (v : gmap string FsEntry) (w : World) : World :=
  {| configs := configs w; documents := documents w; fs := v;
     mkdir_error := mkdir_error w; remove_error := remove_error w;
     fnmatch := fnmatch w;
     stopword_files := stopword_files w; clock := clock w; ticks := ticks w |}.

Definition with_ticks (v : nat) (w : World) : World :=
  {| configs := configs w; documents := documents w; fs := fs w;
     mkdir_error := mkdir_error w; remove_error := remove_error w;
     fnmatch := fnmatch w;
     stopword_files := stopword_files w; clock := clock w; ticks := v |}.

(** A method runs on the Article it is called on and on the world. *)
#[projections(primitive)]
Record State : Type := mkState { self : Article; world : World }.

Definition with_self (v : Article) (s : State) : State :=
  {| self := v; world := world s |}.

Definition with_world (v : World) (s : State) : State :=
  {| self := self s; world := v |}.

(** *** The monad of methods *)

Definition M (A : Type) : Type := State -> State * Res A.

#[global] Instance M_ret : MRet M := fun A a s => (s, Ok a).

#[global] Instance M_bind : MBind M := fun A B f m s =>
  match m s with
  | (s', Ok a) => f a s'
  | (s', Raise e) => (s', Raise e)
  end.

Definition raise {A} (e : exn) : M A := fun s => (s, Raise e).

Definition lift {A} (r : Res A) : M A := fun s => (s, r).

Definition get_self : M Article := fun s => (s, Ok (self s)).

Definition get_world : M World := fun s => (s, Ok (world s)).

(** [self.x = v] *)
Definition assign (f : Article -> Article) : M unit :=
  fun s => (with_self (f (self s)) s, Ok tt).

(** [try: m except OSError as e: handler(e.strerror)] *)
Definition except_OSError {A} (m : M A) (handler : string -> M A) : M A :=
  fun s =>
    match m s with
    | (s', Raise (OSError strerror)) => handler strerror s'
    | r => r
    end.

(** [for x in l: body(x)] *)
Fixpoint for_each {A} (l : list A) (body : A -> M unit) : M unit :=
  match l with
  | [] => mret tt
  | x :: l' => body x;; for_each l' body
  end.

(** The attributes of [self.config] now. *)
Definition self_config : M ConfigObj :=
  fun s => (s, Ok (cell (configs (world s)) (config (self s)))).

(** [self.config.<name>] *)
Definition config_attr (name : string) : M PyVal :=
  cfg ← self_config; lift (getattr cfg name).

(** [time.time()] *)
Definition time_time : M string :=
  fun s =>
    let w := world s in
    (with_world (with_ticks (S (ticks w)) w) s, Ok (clock w (ticks w))).

(** [copy.deepcopy(r)] of an element, and of an attribute that may
    hold None. *)
Definition deepcopy (r : Ref) : M Ref :=
  fun s =>
    let w := world s in
    let '(arena, n) := clone_subtree (cell (documents w) r.1) r.2 in
    let '(l, docs) := alloc arena (documents w) in
    (with_world (with_documents docs w) s, Ok (l, n)).

Definition deepcopy_opt (r : option Ref) : M (option Ref) :=
  match r with
  | Some r => c ← deepcopy r; mret (Some c)
  | None => mret None
  end.

(** A document built by the parser is a new object. *)
Definition new_document (arena : Arena) (root : NodeId) : M Ref :=
  fun s =>
    let w := world s in
    let '(l, docs) := alloc arena (documents w) in
    (with_world (with_documents docs w) s, Ok (l, root)).

(** [self.config.get_parser().fromstring(self.html)]: a new document,
    or None. *)
Definition parser_fromstring : M (option Ref) :=
  a ← get_self;
  cfg ← self_config;
  parsed ← lift (fromstring cfg (html a));
  match parsed with
  | Some (arena, root) => r ← new_document arena root; mret (Some r)
  | None => mret None
  end.

(** A call of a method of [self.extractor] on an element. *)
Definition extractor_call {A} (m : Method Extractor A) (r : Ref) : M A :=
  fun s =>
    let w := world s in
    let cfg := cell (configs w) (config (self s)) in
    let '(ext, arena, res) :=
      m (extractor (self s)) cfg (cell (documents w) r.1) r.2 in
    (mkState (with_extractor ext (self s))
             (with_documents (write r.1 arena (documents w)) w),
     res).

(** A call of a method of a local object on an element; the object is
    returned with the result. *)
Definition object_call {Obj A} (m : Method Obj A) (o : Obj) (r : Ref)
  : M (Obj * A) :=
  fun s =>
    let w := world s in
    let cfg := cell (configs w) (config (self s)) in
    let '(o', arena, res) := m o cfg (cell (documents w) r.1) r.2 in
    (with_world (with_documents (write r.1 arena (documents w)) w) s,
     match res with Ok x => Ok (o', x) | Raise e => Raise e end).

(** [self.extractor.update_language(lang)] *)
Definition extractor_update_language (lang : string) : M unit :=
  fun s =>
    let cfg := cell (configs (world s)) (config (self s)) in
    let '(ext, res) := update_language (extractor (self s)) cfg lang in
    (with_self (with_extractor ext (self s)) s, res).

(** [VideoExtractor(self.config, top_node).get_videos()] *)
Definition video_extractor_get_videos (r : Ref) : M (list (option Video)) :=
  fun s =>
    let w := world s in
    let cfg := cell (configs w) (config (self s)) in
    let '(arena, res) := get_videos cfg (cell (documents w) r.1) r.2 in
    (with_world (with_documents (write r.1 arena (documents w)) w) s, res).

(** File system calls. *)
Definition os_path_exists (p : string) : M bool :=
  fun s => (s, Ok (os.path_exists p (fs (world s)))).

Definition os_mkdir (p : string) : M unit :=
  fun s =>
    let w := world s in
    let '(fs', res) := os.mkdir (mkdir_error w (fs w) p) p (fs w) in
    (with_world (with_fs fs' w) s, res).

Definition os_remove (p : string) : M unit :=
  fun s =>
    let w := world s in
    let '(fs', res) := os.remove (remove_error w (fs w) p) p (fs w) in
    (with_world (with_fs fs' w) s, res).

Definition open_read (p : string) : M string :=
  fun s => (s, os.read p (fs (world s))).

Definition glob_glob (p : string) : M (list string) :=
  fun s => (s, Ok (os.glob (fnmatch (world s)) p (fs (world s)))).

(** *** The methods of Article *)

(** What [__init__] accepts as [title] and [source_url]. *)
Inductive InitArg : Type :=
  | ANone
  | AStr (s : string)
  | AConfiguration (c : nat).

Definition is_Configuration (x : InitArg) : bool :=
  match x with AConfiguration _ => true | _ => false end.

(** [Article(html, title, source_url, config, **kwargs)] *)
Definition __init__ (html : Html) (title source_url : InitArg)
  (config : option nat) (kwargs : list (string * PyVal)) (w : World)
  : World * Res Article :=
  if is_Configuration title || is_Configuration source_url
  then (w, Raise ArticleException)
  else
    (* self.config = config or Configuration() *)
    let '(config, cs) :=
      match config with
      | Some c => (c, configs w)
      | None => alloc Configuration (configs w)
      end in
    (* self.config = extend_config(self.config, kwargs) *)
    let '(cs, extended) := extend_config config kwargs cs in
    match extended with
    | Raise e => (with_configs cs w, Raise e)
    | Ok config =>
    (with_configs cs w,
     Ok {| config := config;
           extractor := ContentExtractor (cell cs config);
           title := match title with AStr s => Some s | _ => None end;
           top_img := ""; top_image := "";
           meta_img := "";
           imgs := []; images := [];
           movies := [];
           text := "";
           keywords := [];
           meta_keywords := [];
           tags := ∅;
           authors := [];
           publish_date := "";
           summary := "";
           html := html;
           article_html := "";
           is_parsed := false;
           meta_description := "";
           meta_lang := "";
           meta_favicon := "";
           meta_site_name := "";
           meta_data := ∅;
           canonical_link := "";
           top_node := None;
           clean_top_node := None;
           doc := None;
           clean_doc := None;
           additional_data := ∅;
           link_hash := None;
           download_exception_msg := None |})
    end.

Definition _parse_scheme_file (path : string) : M (option string) :=
  except_OSError
    (content ← open_read path; mret (Some content))
    (fun strerror =>
       assign (with_download_exception_msg (Some strerror));;
       mret None).

Definition get_parse_candidate : M ParsingCandidate :=
  a ← get_self;
  now ← time_time;
  if Py.html_truthy (html a)
  then lift (RawHelper.get_parsing_candidate (html a) now)
  else lift (URLHelper.get_parsing_candidate (html a) now).

Definition get_resource_path : M string :=
  let res_dir_fn := "article_resources" in
  let resource_directory := Py.path_join TOP_DIRECTORY res_dir_fn in
  found ← os_path_exists resource_directory;
  (if negb found then os_mkdir resource_directory else mret tt);;
  a ← get_self;
  match link_hash a with
  | Some h => mret (Py.path_join resource_directory (h +:+ "_"))
  | None => raise AttributeError
  end.

Definition build_resource_path : M unit :=
  res_path ← get_resource_path;
  found ← os_path_exists res_path;
  if negb found then os_mkdir res_path else mret tt.

Definition release_resources : M unit :=
  path ← get_resource_path;
  fnames ← glob_glob path;
  for_each fnames (fun fname =>
    except_OSError (os_remove fname) (fun _ => mret tt)).

Definition set_title (input_title : option string) : M unit :=
  match input_title with
  | Some t =>
      if Py.truthy t then
        max_title ← config_attr "MAX_TITLE";
        t' ← lift (Py.str_slice_to t max_title);
        assign (with_title (Some t'))
      else mret tt
  | None => mret tt
  end.

Definition set_text (text : string) : M unit :=
  max_text ← config_attr "MAX_TEXT";
  text ← lift (Py.str_slice_to text max_text);
  if Py.truthy text then assign (with_text text) else mret tt.

Definition set_html (html : Html) : M unit :=
  if Py.html_truthy html then
    match html with
    | HBytes b =>
        cfg ← self_config;
        html ← lift (get_unicode_html cfg b);
        assign (with_html (HStr html))
    | _ => assign (with_html html)
    end
  else mret tt.

Definition set_article_html (article_html : string) : M unit :=
  if Py.truthy article_html then assign (with_article_html article_html)
  else mret tt.

Definition set_imgs (imgs : list string) : M unit :=
  assign (with_images imgs);;
  assign (with_imgs imgs).

(** An argument that should be a list. *)
Inductive ListArg : Type :=
  | AList (l : list string)
  | ANotList.

Definition set_keywords (keywords : ListArg) : M unit :=
  match keywords with
  | ANotList => raise PlainException
  | AList [] => mret tt
  | AList l =>
      max_keywords ← config_attr "MAX_KEYWORDS";
      l' ← lift (Py.list_slice_to l max_keywords);
      assign (with_keywords l')
  end.

Definition set_authors (authors : ListArg) : M unit :=
  match authors with
  | ANotList => raise PlainException
  | AList [] => mret tt
  | AList l =>
      max_authors ← config_attr "MAX_AUTHORS";
      l' ← lift (Py.list_slice_to l max_authors);
      assign (with_authors l')
  end.

Definition set_summary (summary : string) : M unit :=
  max_summary ← config_attr "MAX_SUMMARY";
  summary ← lift (Py.str_slice_to summary max_summary);
  assign (with_summary summary).

Definition set_meta_language (meta_lang : string) : M unit :=
  if Py.truthy meta_lang && (2 <=? String.length meta_lang)%nat then
    w ← get_world;
    langs ← lift (get_available_languages (stopword_files w));
    if bool_decide (meta_lang ∈ langs)
    then assign (with_meta_lang (Py.str_take 2 meta_lang))
    else mret tt
  else mret tt.

Definition set_meta_keywords (meta_keywords : string) : M unit :=
  assign (with_meta_keywords (Py.strip <$> Py.split "," meta_keywords)).

Definition set_meta_favicon (meta_favicon : string) : M unit :=
  assign (with_meta_favicon meta_favicon).

Definition set_meta_site_name (meta_site_name : string) : M unit :=
  assign (with_meta_site_name meta_site_name).

Definition set_meta_description (meta_description : string) : M unit :=
  assign (with_meta_description meta_description).

Definition set_meta_data (meta_data : gmap string string) : M unit :=
  assign (with_meta_data meta_data).

Definition set_tags (tags : gset string) : M unit :=
  assign (with_tags tags).

(** [[o.src for o in movie_objects if o and o.src]] *)
Definition movie_urls (movie_objects : list (option Video)) : list string :=
  omap (fun o : option Video =>
          match o with
          | Some v =>
              match src v with
              | Some u => if Py.truthy u then Some u else None
              | None => None
              end
          | None => None
          end) movie_objects.

Definition set_movies (movie_objects : list (option Video)) : M unit :=
  assign (with_movies (movie_urls movie_objects)).

Definition throw_if_not_parsed_verbose : M unit :=
  a ← get_self;
  if negb (is_parsed a) then raise ArticleException else mret tt.

(** [output_formatter.update_language(lang)] on the local formatter. *)
Definition output_formatter_update_language (output_formatter : Formatter)
  (lang : string) : M Formatter :=
  cfg ← self_config;
  let '(output_formatter, res) :=
    formatter_update_language output_formatter cfg lang in
  lift res;;
  mret output_formatter.

(** [parse], lines 150 to 189: the fields read from the snapshot, the
    cleaning of the working document and the choice of the top node.
    The result is the local formatter with what [calculate_best_node]
    returned. *)
Definition parse_fields (doc clean_doc : Ref) : M (Formatter * option Ref) :=
  parse_candidate ← get_parse_candidate;
  assign (with_link_hash (Some (pc_link_hash parse_candidate)));;
  cfg ← self_config;
  let document_cleaner := DocumentCleaner cfg in
  let output_formatter := OutputFormatter cfg in
  title ← extractor_call get_title clean_doc;
  set_title (Some title);;
  authors ← extractor_call get_authors clean_doc;
  set_authors (AList authors);;
  found_lang ← extractor_call get_meta_lang clean_doc;
  set_meta_language found_lang;;
  use_meta_language ← config_attr "use_meta_language";
  output_formatter ←
    (if Py.val_truthy use_meta_language then
       a ← get_self;
       extractor_update_language (meta_lang a);;
       output_formatter_update_language output_formatter (meta_lang a)
     else mret output_formatter);
  meta_site_name ← extractor_call get_meta_site_name clean_doc;
  set_meta_site_name meta_site_name;;
  meta_description ← extractor_call get_meta_description clean_doc;
  set_meta_description meta_description;;
  tags ← extractor_call extract_tags clean_doc;
  set_tags tags;;
  meta_keywords ← extractor_call get_meta_keywords clean_doc;
  set_meta_keywords meta_keywords;;
  meta_data ← extractor_call get_meta_data clean_doc;
  set_meta_data meta_data;;
  (* Before any computations on the body, clean DOM object *)
  '(_, root) ← object_call clean document_cleaner doc;
  let doc := (doc.1, root) in
  assign (with_doc (Some doc));;
  best ← extractor_call calculate_best_node doc;
  let top_node := (fun n => (doc.1, n)) <$> best in
  assign (with_top_node top_node);;
  mret (output_formatter, top_node).

(** [parse], lines 142 to 189: from the raw HTML to the choice of the
    top node.  The result is None when the method returns at line 147. *)
Definition parse_to_score : M (option (Formatter * option Ref)) :=
  d ← parser_fromstring;
  assign (with_doc d);;
  match d with
  | None =>
      (* copy.deepcopy(None) is None; `parse` call failed, return nothing *)
      assign (with_clean_doc None);;
      mret None
  | Some doc =>
      clean_doc ← deepcopy doc;
      assign (with_clean_doc (Some clean_doc));;
      scored ← parse_fields doc clean_doc;
      mret (Some scored)
  end.

(** [parse], lines 191 to 194: the videos and the post-cleanup of the
    top node. *)
Definition parse_post_cleanup (top_node : Ref) : M Ref :=
  videos ← video_extractor_get_videos top_node;
  set_movies videos;;
  n ← extractor_call post_cleanup top_node;
  let top_node := (top_node.1, n) in
  assign (with_top_node (Some top_node));;
  mret top_node.

(** [parse], lines 195 to 200: the snapshot and the formatted output. *)
Definition parse_output (output_formatter : Formatter) (top_node : Ref)
  : M unit :=
  snapshot ← deepcopy top_node;
  assign (with_clean_top_node (Some snapshot));;
  '(_, (text, article_html)) ←
    object_call get_formatted output_formatter top_node;
  set_article_html article_html;;
  set_text text.

Definition parse : M unit :=
  scored ← parse_to_score;
  match scored with
  | None => mret tt
  | Some (output_formatter, top_node) =>
      match top_node with
      | Some top_node =>
          top_node ← parse_post_cleanup top_node;
          parse_output output_formatter top_node
      | None => mret tt
      end;;
      assign (with_is_parsed true);;
      release_resources
  end.

Definition build : M unit := parse.

(** [self.extractor.get_meta_type(self.clean_doc)] *)
Definition extractor_get_meta_type : M string :=
  a ← get_self;
  match clean_doc a with
  | Some r => extractor_call get_meta_type r
  | None =>
      fun s =>
        let cfg := cell (configs (world s)) (config (self s)) in
        let '(ext, res) := get_meta_type_of_None (extractor (self s)) cfg in
        (with_self (with_extractor ext (self s)) s, res)
  end.

Definition is_valid_body : M bool :=
  a ← get_self;
  if negb (is_parsed a) then raise ArticleException
  else
    meta_type ← extractor_get_meta_type;
    a ← get_self;
    let wordcount := Py.split " " (text a) in
    let sentcount := Py.split "." (text a) in
    verified ←
      (if String.eqb meta_type "article" then
         min_word_count ← config_attr "MIN_WORD_COUNT";
         lift (Py.int_gt (Z.of_nat (length wordcount)) min_word_count)
       else mret false);
    if (verified : bool) then mret true
    else if match title a with
            | None => true
            | Some t => (length (Py.split " " t) <? 2)%nat
            end
    then mret false
    else
      min_word_count ← config_attr "MIN_WORD_COUNT";
      few_words ← lift (Py.int_lt (Z.of_nat (length wordcount)) min_word_count);
      if (few_words : bool) then mret false
      else
        min_sent_count ← config_attr "MIN_SENT_COUNT";
        few_sents ←
          lift (Py.int_lt (Z.of_nat (length sentcount)) min_sent_count);
        if (few_sents : bool) then mret false
        else if match html a with
                | HNone | HStr EmptyString => true
                | _ => false
                end
        then mret false
        else mret true.

(** The calls a client can make on an Article. *)
Inductive Call : Type :=
  | call_build
  | call_parse_scheme_file (path : string)
  | call_parse
  | call_is_valid_body
  | call_get_parse_candidate
  | call_build_resource_path
  | call_get_resource_path
  | call_release_resources
  | call_set_title (input_title : option string)
  | call_set_text (text : string)
  | call_set_html (html : Html)
  | call_set_article_html (article_html : string)
  | call_set_imgs (imgs : list string)
  | call_set_keywords (keywords : ListArg)
  | call_set_authors (authors : ListArg)
  | call_set_summary (summary : string)
  | call_set_meta_language (meta_lang : string)
  | call_set_meta_keywords (meta_keywords : string)
  | call_set_meta_favicon (meta_favicon : string)
  | call_set_meta_site_name (meta_site_name : string)
  | call_set_meta_description (meta_description : string)
  | call_set_meta_data (meta_data : gmap string string)
  | call_set_tags (tags : gset string)
  | call_set_movies (movie_objects : list (option Video))
  | call_throw_if_not_parsed_verbose.

(** Running a call, its return value dropped. *)
Definition run (c : Call) : M unit :=
  match c with
  | call_build => build
  | call_parse_scheme_file path => _parse_scheme_file path;; mret tt
  | call_parse => parse
  | call_is_valid_body => is_valid_body;; mret tt
  | call_get_parse_candidate => get_parse_candidate;; mret tt
  | call_build_resource_path => build_resource_path
  | call_get_resource_path => get_resource_path;; mret tt
  | call_release_resources => release_resources
  | call_set_title input_title => set_title input_title
  | call_set_text text => set_text text
  | call_set_html html => set_html html
  | call_set_article_html article_html => set_article_html article_html
  | call_set_imgs imgs => set_imgs imgs
  | call_set_keywords keywords => set_keywords keywords
  | call_set_authors authors => set_authors authors
  | call_set_summary summary => set_summary summary
  | call_set_meta_language meta_lang => set_meta_language meta_lang
  | call_set_meta_keywords meta_keywords => set_meta_keywords meta_keywords
  | call_set_meta_favicon meta_favicon => set_meta_favicon meta_favicon
  | call_set_meta_site_name meta_site_name => set_meta_site_name meta_site_name
  | call_set_meta_description meta_description =>
      set_meta_description meta_description
  | call_set_meta_data meta_data => set_meta_data meta_data
  | call_set_tags tags => set_tags tags
  | call_set_movies movie_objects => set_movies movie_objects
  | call_throw_if_not_parsed_verbose => throw_if_not_parsed_verbose
  end.

(** *** Specifications of methods *)

(** [m] keeps [I]: whatever [m] does, and whether it returns or
    raises, a state in [I] ends in [I]. *)
Definition keeps {A} (I : State -> Prop) (m : M A) : Prop :=
  forall s, I s -> I (m s).1.

(** From a state in [P], [m] ends with an outcome and a state in [Q]. *)
Definition triple {A} (P : State -> Prop) (m : M A)
  (Q : Res A -> State -> Prop) : Prop :=
  forall s, P s -> Q (m s).2 (m s).1.

(** What holds when [parse_to_score] is over: after the return at line
    147 there is no document; otherwise [top_node] holds what the
    scorer returned, an element of the working document, and
    [link_hash] is set. *)
Definition scored (r : Res (option (Formatter * option Ref))) (s : State)
  : Prop :=
  match r with
  | Ok (Some (_, top)) =>
      top_node (self s) = top /\ is_Some (link_hash (self s))
      /\ is_Some (doc (self s))
      /\ forall x, top = Some x -> x.1 < next (documents (world s))
  | Ok None => doc (self s) = None
  | Raise _ => True
  end.

(** *** The cap on the text, as the specification words it *)

Definition str_drop (k : nat) (t : string) : string :=
  String.substring k (String.length t - k) t.

(** Position [k] of [t] is a paragraph boundary when the text ends
    there or a blank line (two line feeds) starts there. *)
Definition paragraph_boundary (t : string) (k : nat) : bool :=
  (k =? String.length t)%nat
  || String.prefix (String "010" (String "010" EmptyString)) (str_drop k t).

(** Position [k] of [t] is inside a word when the characters on both
    sides of it are not white space. *)
Definition inside_word (t : string) (k : nat) : bool :=
  match k with
  | 0 => false
  | S j =>
      match String.get j t, String.get k t with
      | Some before, Some after =>
          negb (Py.is_space before) && negb (Py.is_space after)
      | _, _ => false
      end
  end.

(** *** The words of the body, as the specification words them *)

(** The words of a text are its maximal runs of characters that are
    not white space; [is_valid_body] counts the pieces between single
    spaces instead, [len(self.text.split(' '))]. *)
Fixpoint words_from (in_word : bool) (t : string) : nat :=
  match t with
  | EmptyString => 0
  | String c r =>
      if Py.is_space c then words_from false r
      else (if in_word then 0 else 1) + words_from true r
  end.

Definition spec_word_count (t : string) : nat := words_from false t.

(** *** Two runs of a method *)

(** What [parse] reads of the Article and of the world, the documents
    apart, is the same in [s1] and in [s2]. *)
Definition same_input (s1 s2 : State) : Prop :=
  html (self s1) = html (self s2)
  /\ extractor (self s1) = extractor (self s2)
  /\ meta_lang (self s1) = meta_lang (self s2)
  /\ text (self s1) = text (self s2)
  /\ article_html (self s1) = article_html (self s2)
  /\ cell (configs (world s1)) (config (self s1))
     = cell (configs (world s2)) (config (self s2))
  /\ stopword_files (world s1) = stopword_files (world s2).

(** The same, and the working document, which is at [d1] in [s1] and
    at [d2] in [s2], and its snapshot, at [c1] and at [c2], hold the
    same. *)
Definition agree (d1 c1 d2 c2 : nat) (s1 s2 : State) : Prop :=
  html (self s1) = html (self s2)
  /\ extractor (self s1) = extractor (self s2)
  /\ meta_lang (self s1) = meta_lang (self s2)
  /\ text (self s1) = text (self s2)
  /\ article_html (self s1) = article_html (self s2)
  /\ cell (configs (world s1)) (config (self s1))
     = cell (configs (world s2)) (config (self s2))
  /\ stopword_files (world s1) = stopword_files (world s2)
  /\ cell (documents (world s1)) d1 = cell (documents (world s2)) d2
  /\ cell (documents (world s1)) c1 = cell (documents (world s2)) c2
  /\ (d1 =? c1)%nat = false /\ (c1 =? d1)%nat = false
  /\ (d2 =? c2)%nat = false /\ (c2 =? d2)%nat = false
  /\ d1 < next (documents (world s1)) /\ c1 < next (documents (world s1))
  /\ d2 < next (documents (world s2)) /\ c2 < next (documents (world s2)).

(** From two states in [P], [m1] and [m2] both return, with results
    and states in [Q], or both raise the same exception, in states in
    [E]. *)
Definition rel {A} (P : State -> State -> Prop) (m1 m2 : M A)
  (Q : A -> A -> State -> State -> Prop) (E : State -> State -> Prop)
  : Prop :=
  forall s1 s2, P s1 s2 ->
    match (m1 s1).2, (m2 s2).2 with
    | Ok a1, Ok a2 => Q a1 a2 (m1 s1).1 (m2 s2).1
    | Raise e1, Raise e2 => e1 = e2 /\ E (m1 s1).1 (m2 s2).1
    | _, _ => False
    end.

(** [m1] and [m2] keep [I] and return results in [V]. *)
Definition sync {A} (I : State -> State -> Prop) (V : A -> A -> Prop)
  (m1 m2 : M A) : Prop :=
  rel I m1 m2 (fun a1 a2 s1 s2 => V a1 a2 /\ I s1 s2) I.

(** Two runs of [parse_to_score] that return have ended alike: both at
    line 147, or both with the same formatter and the same choice of
    the scorer, each in its own working document. *)
Definition scored_alike (r1 r2 : option (Formatter * option Ref))
  (s1 s2 : State) : Prop :=
  match r1, r2 with
  | None, None => same_input s1 s2
  | Some (f1, t1), Some (f2, t2) =>
      f1 = f2
      /\ exists d1 c1 d2 c2,
           agree d1 c1 d2 c2 s1 s2
           /\ match t1, t2 with
              | Some x1, Some x2 => x1.1 = d1 /\ x2.1 = d2 /\ x1.2 = x2.2
              | None, None => True
              | _, _ => False
              end
  | _, _ => False
  end.

(** *** The resource directory *)

(** The directory [get_resource_path] keeps the resources in. *)
Definition resource_directory : string :=
  Py.path_join TOP_DIRECTORY "article_resources".

(** How making sure of the resource directory ends in a world: None
    when the directory is there or is made, else the exception of
    [os.mkdir]. *)
Definition resource_directory_error (w : World) : option exn :=
  if os.path_exists resource_directory (fs w) then None
  else
    match (os.mkdir (mkdir_error w (fs w) resource_directory)
                    resource_directory (fs w)).2 with
    | Ok _ => None
    | Raise e => Some e
    end.

(** *** The caps of the configuration *)

(** The attribute [name] of the configuration is the number [n], not
    negative. *)
Definition cap_of (cfg : ConfigObj) (name : string) (n : Z) : Prop :=
  exists v, getattr cfg name = Ok v /\ Py.as_index v = Ok (Some n) /\ (0 <= n)%Z.

(** The capped attributes of the Article are within the caps that the
    configuration has. *)
Definition within_caps (cfg : ConfigObj) (a : Article) : Prop :=
  (forall n, cap_of cfg "MAX_TITLE" n ->
             match title a with Some t => (Py.len t <= n)%Z | None => True end)
  /\ (forall n, cap_of cfg "MAX_TEXT" n -> (Py.len (text a) <= n)%Z)
  /\ (forall n, cap_of cfg "MAX_SUMMARY" n -> (Py.len (summary a) <= n)%Z)
  /\ (forall n, cap_of cfg "MAX_KEYWORDS" n ->
                (Z.of_nat (length (keywords a)) <= n)%Z)
  /\ (forall n, cap_of cfg "MAX_AUTHORS" n ->
                (Z.of_nat (length (authors a)) <= n)%Z).

End Article.

(** ** A small instance of the imported classes, for running the model

    The document of an HTML text is that text; formatting hands the
    text out and empties the document it was given; the post-cleanup
    strips the document.  A document that opens with [<html lang=xx>]
    declares the language [xx], and the formatter marks what it puts
    out with the language it was told. *)

Module Toy.

Definition hashlib : Hashlib :=
  {| md5_hexdigest := fun _ => "0cc175b9c0f1b6a831c399e269772661" |}.

Definition lxml : Lxml :=
  {| Arena := string; NodeId := unit; clone_subtree := fun a n => (a, n) |}.

#[local] Existing Instance lxml.

(** The class of the configuration objects: [__class__] cannot be
    assigned a value that is no class, as for every Python object, and
    [language] is a property whose setter wants a code of two
    characters and switches [use_meta_language] off. *)
Definition configuration_class : ConfigurationClass :=
  {| class_hasattr := fun key =>
       if String.eqb key "__class__" then Some (fun _ => Ok true)
       else if String.eqb key "language"
            then Some (fun cfg => Ok (bool_decide (is_Some (cfg !! "_language"))))
            else None;
     class_setattr := fun key =>
       if String.eqb key "__class__" then Some (fun cfg _ => (cfg, Raise TypeError))
       else if String.eqb key "language"
            then Some (fun cfg val =>
                         match val with
                         | VStr code =>
                             if (String.length code =? 2)%nat
                             then (<["_language" := val]>
                                     (<["use_meta_language" := VBool false]> cfg),
                                   Ok tt)
                             else (cfg, Raise PlainException)
                         | _ => (cfg, Raise PlainException)
                         end)
            else None |}.

#[local] Existing Instance configuration_class.

Definition defaults : ConfigObj :=
  list_to_map
    [("MAX_TITLE", VInt 200); ("MAX_TEXT", VInt 100000);
     ("MAX_KEYWORDS", VInt 35); ("MAX_AUTHORS", VInt 10);
     ("MAX_SUMMARY", VInt 5000); ("MIN_WORD_COUNT", VInt 300);
     ("MIN_SENT_COUNT", VInt 7); ("use_meta_language", VBool true);
     ("_language", VStr "en")].

(** The language a document declares, '' when it declares none. *)
Definition declared_language (a : string) : string :=
  if String.prefix "<html lang=" a then String.substring 11 2 a else "".

Definition lib : @Collaborators lxml :=
  {| TOP_DIRECTORY := "/tmp/.newspaper_scraper";
     Configuration := defaults;
     fromstring := fun _ h =>
       Ok (match h return option (string * unit) with
           | HStr s => if Py.truthy s then Some (s, tt) else None
           | _ => None
           end);
     get_unicode_html := fun _ b => Ok (string_of_list_byte b);
     Extractor := unit;
     ContentExtractor := fun _ => tt;
     update_language := fun e _ _ => (e, Ok tt);
     get_title := fun e _ a _ => (e, a, Ok "");
     get_authors := fun e _ a _ => (e, a, Ok []);
     get_meta_lang := fun e _ a _ => (e, a, Ok (declared_language a));
     get_meta_site_name := fun e _ a _ => (e, a, Ok "");
     get_meta_description := fun e _ a _ => (e, a, Ok "");
     extract_tags := fun e _ a _ => (e, a, Ok ∅);
     get_meta_keywords := fun e _ a _ => (e, a, Ok "");
     get_meta_data := fun e _ a _ => (e, a, Ok ∅);
     get_meta_type := fun e _ a _ => (e, a, Ok "");
     get_meta_type_of_None := fun e _ => (e, Ok "");
     calculate_best_node := fun e _ a n =>
       (e, a, Ok (if String.eqb a "<html></html>" then None else Some n));
     post_cleanup := fun e _ a n => (e, Py.strip a, Ok n);
     Cleaner := unit;
     DocumentCleaner := fun _ => tt;
     clean := fun c _ a n => (c, a, Ok n);
     Formatter := string;
     OutputFormatter := fun _ => "";
     formatter_update_language := fun _ _ meta_lang => (meta_lang, Ok tt);
     get_formatted := fun language _ a _ =>
       (language, "",
        Ok (a, if Py.truthy language
               then "<div lang=" +:+ language +:+ ">" +:+ a +:+ "</div>"
               else "<div>" +:+ a +:+ "</div>"));
     get_videos := fun _ a _ => (a, Ok []) |}.

(** [os.path.dirname] of a path: what is before its last '/'. *)
Fixpoint dirname_of (p : list ascii) : option (list ascii) :=
  match p with
  | [] => None
  | c :: r =>
      match dirname_of r with
      | Some d => Some (c :: d)
      | None => if Ascii.eqb c "/"%char then Some [] else None
      end
  end.

(** The operating system refuses a directory whose parent is not
    there. *)
Definition parent_missing (files : gmap string FsEntry) (p : string)
  : option string :=
  match dirname_of (list_ascii_of_string p) with
  | Some ((_ :: _) as d) =>
      match files !! string_of_list_ascii d with
      | Some Dir => None
      | Some (File _) => Some "Not a directory"
      | None => Some "No such file or directory"
      end
  | _ => None
  end.

(** A world with no object yet, with the files [files] and the
    stop word directory listed as [listing]. *)
Definition world_with (files : gmap string FsEntry)
  (listing : Res (list string)) : @World lxml :=
  {| configs := mkStore (fun _ => ∅) 0;
     documents := mkStore (fun _ => "") 0;
     fs := files;
     mkdir_error := parent_missing;
     remove_error := fun _ _ => None;
     fnmatch := fun _ _ => false;
     stopword_files := listing;
     clock := fun _ => "1700000000.0";
     ticks := 0 |}.

(** The top directory and what it is in. *)
Definition top_directory_made : gmap string FsEntry :=
  {[ "/tmp" := Dir; "/tmp/.newspaper_scraper" := Dir ]}.

(** A world in which the top directory is there. *)
Definition world0 : @World lxml :=
  world_with top_directory_made (Ok ["stopwords-en.txt"; "stopwords-fr.txt"]).

(** A world in which the top directory has not been made. *)
Definition world_bare : @World lxml :=
  world_with ∅ (Ok ["stopwords-en.txt"; "stopwords-fr.txt"]).

(** [Article(html, title, **kwargs)] in the world [w]. *)
Definition built_in (w : @World lxml) (html title : string)
  (kwargs : list (string * PyVal)) : @World lxml * Res (@Article lxml lib) :=
  __init__ (lib := lib) (HStr html) (AStr title) ANone None kwargs w.

(** An Article with nothing in it, to stand for the Article of a
    construction that raises. *)
Definition blank : @Article lxml lib :=
  {| config := 0; extractor := @ContentExtractor lxml lib ∅; title := None;
     top_img := ""; top_image := ""; meta_img := "";
     imgs := []; images := []; movies := []; text := "";
     keywords := []; meta_keywords := []; tags := ∅; authors := [];
     publish_date := ""; summary := ""; html := HNone; article_html := "";
     is_parsed := false; meta_description := ""; meta_lang := "";
     meta_favicon := ""; meta_site_name := ""; meta_data := ∅;
     canonical_link := ""; top_node := None; clean_top_node := None;
     doc := None; clean_doc := None; additional_data := ∅;
     link_hash := None; download_exception_msg := None |}.

(** The new Article and the world it is in, as a state. *)
Definition article_in (w : @World lxml) (html title : string)
  (kwargs : list (string * PyVal)) : @State lxml lib :=
  let r := built_in w html title kwargs in
  mkState (match r.2 with Ok a => a | Raise _ => blank end) r.1.

Definition article : string -> string -> list (string * PyVal) -> @State lxml lib :=
  article_in world0.

End Toy.

(** * Properties *)

(** ** Python primitives *)

Example split_words : Py.split " " "a b  c" = ["a"; "b"; ""; "c"].
Proof. reflexivity. Qed.

Example split_empty : Py.split " " "" = [""].
Proof. reflexivity. Qed.

Example slice_negative : Py.str_slice_to "hello" (VInt (-2)) = Ok "hel".
Proof. reflexivity. Qed.

Example slice_past_end : Py.str_slice_to "hello" (VInt 9) = Ok "hello".
Proof. reflexivity. Qed.

Example join_paths :
  Py.path_join "/tmp/.newspaper" "article_resources"
  = "/tmp/.newspaper/article_resources".
Proof. reflexivity. Qed.

Example languages_of_files :
  get_available_languages (Ok ["stopwords-fr.txt"; "stopwords-en.txt"])
  = Ok ["en"; "fr"].
Proof. vm_compute. reflexivity. Qed.

Example languages_of_bad_file :
  get_available_languages (Ok ["README"]) = Raise IndexError.
Proof. reflexivity. Qed.

Example languages_of_no_directory :
  get_available_languages (Raise (OSError "No such file or directory"))
  = Raise (OSError "No such file or directory").
Proof. reflexivity. Qed.

Example glob_plain_path :
  os.glob (fun _ _ => true) "/tmp/a_" {[ "/tmp/a_" := Dir; "/tmp/b" := Dir ]}
  = ["/tmp/a_"].
Proof. vm_compute. reflexivity. Qed.

Example read_nul_path :
  os.read (String "000" "x") ∅ = Raise ValueError.
Proof. reflexivity. Qed.

Lemma length_str_take n s :
  String.length (Py.str_take n s) = min n (String.length s).
Proof.
  revert s. induction n as [|n IH]; intros [|c s]; simpl; auto.
Qed.

Lemma str_take_all n s : String.length s <= n -> Py.str_take n s = s.
Proof.
  revert s. induction n as [|n IH]; intros [|c s]; simpl; intros H;
    try reflexivity; try lia.
  f_equal. apply IH. lia.
Qed.

Lemma slice_stop_nonneg n z : (0 <= z)%Z -> Py.slice_stop n z = Z.to_nat z.
Proof.
  intros H. unfold Py.slice_stop.
  destruct (Z.ltb_spec z 0); [lia | reflexivity].
Qed.

(** ** The logic of methods *)

Section Logic.
Context {hashlib : Hashlib} {configuration_class : ConfigurationClass}
  {lxml : Lxml} {lib : Collaborators}.

Lemma keeps_ret {A} (I : State -> Prop) (a : A) : keeps I (mret a).
Proof. intros s H. exact H. Qed.

Lemma keeps_bind {A B} (I : State -> Prop) (m : M A) (f : A -> M B) :
  keeps I m -> (forall a, keeps I (f a)) -> keeps I (m ≫= f).
Proof.
  intros Hm Hf s H. unfold mbind, M_bind.
  specialize (Hm s H). destruct (m s) as [s' [a|e]]; simpl in *.
  - apply Hf, Hm.
  - exact Hm.
Qed.


Lemma keeps_and {A} (I J : State -> Prop) (m : M A) :
  keeps I m -> keeps J m -> keeps (fun s => I s /\ J s) m.
Proof. intros HI HJ s [H1 H2]. split; [apply HI | apply HJ]; assumption. Qed.

Lemma triple_ret {A} (P : State -> Prop) (a : A) Q :
  (forall s, P s -> Q (Ok a) s) -> triple P (mret a) Q.
Proof. intros H s Hs. apply H, Hs. Qed.

Lemma triple_bind {A B} (P : State -> Prop) (m : M A) (f : A -> M B)
  (R : A -> State -> Prop) Q :
  triple P m (fun r s => match r with Ok a => R a s | Raise e => Q (Raise e) s end) ->
  (forall a, triple (R a) (f a) Q) ->
  triple P (m ≫= f) Q.
Proof.
  intros Hm Hf s Hs. unfold mbind, M_bind.
  specialize (Hm s Hs). destruct (m s) as [s' [a|e]]; simpl in *.
  - apply Hf, Hm.
  - exact Hm.
Qed.

(** A step under an invariant. *)
Lemma triple_step {A B} (I : State -> Prop) (m : M A) (f : A -> M B) Q :
  keeps I m ->
  (forall e s, I s -> Q (Raise e) s) ->
  (forall a, triple I (f a) Q) ->
  triple I (m ≫= f) Q.
Proof.
  intros Hm He Hf. apply triple_bind with (R := fun _ => I); [|exact Hf].
  intros s Hs. specialize (Hm s Hs).
  destruct (m s) as [s' [a|e]]; simpl in *; auto.
Qed.

Lemma triple_weaken {A} (P P' : State -> Prop) (m : M A) (Q Q' : Res A -> State -> Prop) :
  (forall s, P' s -> P s) ->
  (forall r s, Q r s -> Q' r s) ->
  triple P m Q -> triple P' m Q'.
Proof. intros HP HQ H s Hs. apply HQ, H, HP, Hs. Qed.

Lemma keeps_triple {A} (I : State -> Prop) (m : M A) :
  keeps I m -> triple I m (fun _ s => I s).
Proof. intros H s Hs. apply H, Hs. Qed.

(** The last statement, under an invariant. *)
Lemma triple_last {A} (I : State -> Prop) (m : M A) Q :
  keeps I m -> (forall r s, I s -> Q r s) -> triple I m Q.
Proof. intros Hm HQ s Hs. apply HQ, Hm, Hs. Qed.

End Logic.

(** ** Walking through a method *)

Ltac unfold_prims :=
  unfold raise, lift, get_self, get_world, assign, self_config, time_time,
    deepcopy, new_document, extractor_call, object_call,
    extractor_update_language, video_extractor_get_videos,
    os_path_exists, os_mkdir, os_remove, open_read, glob_glob,
    os.mkdir, os.remove.

(** A primitive keeps an invariant that does not read what it writes. *)
Ltac keeps_prim :=
  let s := fresh "s" in
  let H := fresh "H" in
  intros s H; unfold_prims; cbn;
  repeat (case_match; cbn);
  cbn in H;
  first [ exact H | tauto | solve [auto] | solve [intuition (eauto; lia)]
        | solve [intuition congruence] ].

Section Walk.
Context {hashlib : Hashlib} {configuration_class : ConfigurationClass}
  {lxml : Lxml} {lib : Collaborators}.

Lemma keeps_for_each {A} (I : State -> Prop) (l : list A) (body : A -> M unit) :
  (forall x, keeps I (body x)) -> keeps I (for_each l body).
Proof.
  intros Hb. induction l as [|x l IH]; simpl.
  - apply keeps_ret.
  - apply keeps_bind; [apply Hb | intros _; exact IH].
Qed.

Lemma keeps_except_OSError {A} (I : State -> Prop) (m : M A) handler :
  keeps I m -> (forall e, keeps I (handler e)) ->
  keeps I (except_OSError m handler).
Proof.
  intros Hm Hh s H. unfold except_OSError.
  specialize (Hm s H). destruct (m s) as [s' [a|[]]]; simpl in *; auto.
  apply Hh, Hm.
Qed.

End Walk.

(** [known] closes the calls that have a lemma of their own. *)
Ltac keeps_walk_with known :=
  repeat first
    [ known
    | apply keeps_ret
    | apply keeps_for_each; intros
    | apply keeps_except_OSError; [|intros]
    | apply keeps_bind; [|intros]
    | progress (cbv zeta)
    | match goal with
      | |- keeps _ (match ?x with _ => _ end) => destruct x
      | |- keeps _ (if ?b then _ else _) => destruct b
      end
    | progress (unfold config_attr, output_formatter_update_language,
                get_parse_candidate, get_resource_path, build_resource_path,
                release_resources, deepcopy_opt, parser_fromstring,
                extractor_get_meta_type, _parse_scheme_file, parse_fields,
                set_title, set_text, set_html, set_article_html, set_imgs,
                set_keywords, set_authors, set_summary, set_meta_language,
                set_meta_keywords, set_meta_favicon, set_meta_site_name,
                set_meta_description, set_meta_data, set_tags, set_movies,
                throw_if_not_parsed_verbose)
    | solve [keeps_prim] ].

Ltac keeps_walk := keeps_walk_with fail.

(** One statement of a method, under the invariant that is the
    precondition. *)
Ltac triple_one :=
  first
    [ apply triple_ret
    | apply triple_step;
      [ solve [keeps_walk]
      | solve [intros; cbn in *; intuition (auto; congruence)]
      | intros ]
    | progress (cbv beta zeta)
    | match goal with
      | |- triple _ (match ?x with _ => _ end) _ => destruct x
      | |- triple _ (if ?b then _ else _) _ => destruct b
      end
    | progress (unfold parse_fields)
    | apply triple_last; [solve [keeps_walk] | ] ].

(** Statements are walked until [stop] fails on the code that is left. *)
Ltac triple_walk_to stop :=
  repeat (lazymatch goal with |- triple _ ?m _ => stop m end; triple_one).

(** ** utils.py: extend_config *)

Section ExtendConfig.
Context {configuration_class : ConfigurationClass}.

Lemma hasattr_plain (config : ConfigObj) (key : string) :
  plain key -> hasattr config key = Ok (bool_decide (is_Some (config !! key))).
Proof. intros [H _]. unfold hasattr. rewrite H. reflexivity. Qed.

Lemma setattr_plain (config : ConfigObj) (key : string) (val : PyVal) :
  plain key -> setattr config key val = (<[key := val]> config, Ok tt).
Proof. intros [_ H]. unfold setattr. rewrite H. reflexivity. Qed.

(** On plain names the loop returns, and an attribute takes the last
    value the items give it. *)
Lemma extend_attrs_plain (config : ConfigObj)
  (config_items : list (string * PyVal)) :
  Forall plain config_items.*1 ->
  (extend_attrs config config_items).2 = Ok tt
  /\ forall key,
       (extend_attrs config config_items).1 !! key
       = match config !! key with
         | Some old => Some (default old (last_binding key config_items))
         | None => None
         end.
Proof.
  revert config.
  induction config_items as [|[k v] rest IH]; intros config Hplain.
  - split; [reflexivity|]. intros key. simpl.
    destruct (config !! key); reflexivity.
  - apply Forall_cons in Hplain as [Hk Hrest]. cbn [extend_attrs].
    rewrite (hasattr_plain config k Hk).
    case_bool_decide as Hattr.
    + rewrite (setattr_plain config k v Hk).
      destruct (IH (<[k := v]> config) Hrest) as [Hret Hlook].
      split; [exact Hret|]. intros key. rewrite Hlook. simpl.
      destruct (decide (k = key)) as [->|Hne].
      * rewrite lookup_insert_eq. destruct Hattr as [old ->].
        destruct (last_binding key rest); reflexivity.
      * rewrite lookup_insert_ne by assumption.
        destruct (config !! key); [|reflexivity].
        destruct (last_binding key rest); reflexivity.
    + destruct (IH config Hrest) as [Hret Hlook].
      split; [exact Hret|]. intros key. rewrite Hlook. simpl.
      destruct (decide (k = key)) as [->|Hne].
      * destruct (config !! key) as [old|] eqn:Hold; [|reflexivity].
        exfalso. apply Hattr. eauto.
      * destruct (config !! key); [|reflexivity].
        destruct (last_binding key rest); reflexivity.
Qed.

Lemma last_binding_None key (config_items : list (string * PyVal)) :
  key ∉ config_items.*1 -> last_binding key config_items = None.
Proof.
  induction config_items as [|[k v] rest IH]; simpl; intros Hnot.
  - reflexivity.
  - apply not_elem_of_cons in Hnot as [Hne Hrest].
    rewrite IH by exact Hrest.
    rewrite decide_False by congruence. reflexivity.
Qed.

Lemma last_binding_NoDup key val (config_items : list (string * PyVal)) :
  NoDup config_items.*1 -> (key, val) ∈ config_items ->
  last_binding key config_items = Some val.
Proof.
  induction config_items as [|[k v] rest IH]; simpl; intros Hnd Hin.
  - set_solver.
  - apply NoDup_cons in Hnd as [Hk Hnd].
    apply elem_of_cons in Hin as [Heq|Hin].
    + inversion Heq; subst. rewrite last_binding_None by assumption.
      rewrite decide_True by reflexivity. reflexivity.
    + rewrite IH by assumption. reflexivity.
Qed.

(** The object is written, and no other. *)
Lemma extend_config_store (config : nat)
  (config_items : list (string * PyVal)) (configs : Store ConfigObj) :
  let configs' := (extend_config config config_items configs).1 in
  cell configs' config = (extend_attrs (cell configs config) config_items).1
  /\ (forall other, other <> config -> cell configs' other = cell configs other)
  /\ next configs' = next configs
  /\ (extend_config config config_items configs).2
     = match (extend_attrs (cell configs config) config_items).2 with
       | Ok _ => Ok config
       | Raise e => Raise e
       end.
Proof.
  unfold extend_config.
  destruct (extend_attrs (cell configs config) config_items) as [attrs outcome].
  cbn. rewrite Nat.eqb_refl. repeat split.
  intros other Hne. apply Nat.eqb_neq in Hne. rewrite Hne. reflexivity.
Qed.

(** On plain names the call returns the reference it was given. *)
Lemma extend_config_plain (config : nat)
  (config_items : list (string * PyVal)) (configs : Store ConfigObj) :
  Forall plain config_items.*1 ->
  (extend_config config config_items configs).2 = Ok config.
Proof.
  intros Hplain.
  destruct (extend_config_store config config_items configs)
    as (_ & _ & _ & ->).
  destruct (extend_attrs_plain (cell configs config) config_items Hplain)
    as [-> _].
  reflexivity.
Qed.

(** C10, as the code has it — extend_config, for every configuration
    object and every keyword-argument map whose names the class of the
    object leaves to the instance: the call returns, and the reference
    returned is the one given (the same object); the instance holds
    exactly the attributes it held before, so a key that is not an
    attribute is dropped without an error; an attribute named by the
    items takes the value given for it (the last one, should a name
    occur twice) and every other attribute keeps its value; no other
    object changes. *)
Theorem extend_config_frame (config : nat)
  (config_items : list (string * PyVal)) (configs : Store ConfigObj) :
  Forall plain config_items.*1 ->
  let configs' := (extend_config config config_items configs).1 in
  let before := cell configs config in
  let after := cell configs' config in
  (extend_config config config_items configs).2 = Ok config
  /\ (forall key, is_Some (after !! key) <-> is_Some (before !! key))
  /\ (forall key val, (key, val) ∈ config_items ->
                      hasattr before key = Ok false -> after !! key = None)
  /\ (forall key val,
        NoDup config_items.*1 -> (key, val) ∈ config_items ->
        hasattr before key = Ok true -> after !! key = Some val)
  /\ (forall key, key ∉ config_items.*1 -> after !! key = before !! key)
  /\ (forall other, other <> config -> cell configs' other = cell configs other)
  /\ next configs' = next configs.
Proof.
  intros Hplain. cbv zeta.
  destruct (extend_config_store config config_items configs)
    as (Hcell & Hother & Hnext & Hret).
  destruct (extend_attrs_plain (cell configs config) config_items Hplain)
    as [Hok Hlook].
  rewrite Hcell. rewrite Hok in Hret.
  assert (Hin_plain : forall key val, (key, val) ∈ config_items -> plain key).
  { intros key val Hin. rewrite Forall_forall in Hplain. apply Hplain.
    apply list_elem_of_fmap. exists (key, val). auto. }
  split; [exact Hret|]. split; [|split; [|split; [|split; [|split]]]].
  - intros key. rewrite Hlook.
    destruct (cell configs config !! key); split; intros [x Hx]; eauto;
      discriminate.
  - intros key val Hin. rewrite (hasattr_plain _ key (Hin_plain _ _ Hin)).
    intros [= Hattr]. apply bool_decide_eq_false_1 in Hattr.
    rewrite Hlook.
    destruct (cell configs config !! key) eqn:Hk; [|reflexivity].
    exfalso. apply Hattr. eauto.
  - intros key val Hnd Hin. rewrite (hasattr_plain _ key (Hin_plain _ _ Hin)).
    intros [= Hattr]. apply bool_decide_eq_true_1 in Hattr.
    rewrite Hlook. destruct Hattr as [old ->].
    rewrite (last_binding_NoDup key val) by assumption. reflexivity.
  - intros key Hnot. rewrite Hlook, last_binding_None by assumption.
    destruct (cell configs config !! key); reflexivity.
  - exact Hother.
  - exact Hnext.
Qed.

End ExtendConfig.

(** ** article.py: construction and the validity check *)

Section Claims.
Context {hashlib : Hashlib} {configuration_class : ConfigurationClass}
  {lxml : Lxml} {lib : Collaborators}.

(** How [__init__] ends once the guard is passed: as [extend_config]
    does. *)
Lemma init_outcome (html : Html) (title source_url : InitArg)
  (config : option nat) (kwargs : list (string * PyVal)) (w : World) :
  is_Configuration title || is_Configuration source_url = false ->
  let '(c, cs) := match config with
                  | Some c => (c, configs w)
                  | None => alloc Configuration (configs w)
                  end in
  match (extend_config c kwargs cs).2 with
  | Ok _ =>
      exists a, __init__ html title source_url config kwargs w
                = (with_configs (extend_config c kwargs cs).1 w, Ok a)
  | Raise e =>
      __init__ html title source_url config kwargs w
      = (with_configs (extend_config c kwargs cs).1 w, Raise e)
  end.
Proof.
  intros Hguard. unfold __init__. rewrite Hguard.
  destruct config as [c|]; cbn;
    match goal with
    | |- context [extend_config ?c ?k ?cs] =>
        destruct (extend_config c k cs) as [cs' [c'|e]]
    end; cbn; eauto.
Qed.

(** C9 — construction: with a Configuration object as the title or as
    the source_url, [__init__] raises ArticleException (and builds
    nothing); with neither of them a Configuration object, the guard
    does not fire: the call ends as the assignment of the keyword
    arguments does, with the Article built when that returns, and so,
    in particular, for keyword arguments that name plain attributes. *)
Theorem init_guard (html : Html) (title source_url : InitArg)
  (config : option nat) (kwargs : list (string * PyVal)) (w : World) :
  if is_Configuration title || is_Configuration source_url
  then __init__ html title source_url config kwargs w
       = (w, Raise ArticleException)
  else
    (let '(c, cs) := match config with
                     | Some c => (c, configs w)
                     | None => alloc Configuration (configs w)
                     end in
     match (extend_config c kwargs cs).2 with
     | Ok _ =>
         exists w' a,
           __init__ html title source_url config kwargs w = (w', Ok a)
     | Raise e =>
         exists w',
           __init__ html title source_url config kwargs w = (w', Raise e)
     end)
    /\ (Forall plain kwargs.*1 ->
        exists w' a,
          __init__ html title source_url config kwargs w = (w', Ok a)).
Proof.
  destruct (is_Configuration title || is_Configuration source_url) eqn:Hguard.
  - unfold __init__. rewrite Hguard. reflexivity.
  - pose proof (init_outcome html title source_url config kwargs w Hguard)
      as Hout.
    destruct config as [c|]; cbn in *.
    + split.
      * destruct (extend_config c kwargs (configs w)).2;
          [destruct Hout as [art Ha]|]; eauto.
      * intros Hplain.
        rewrite (extend_config_plain c kwargs (configs w) Hplain) in Hout. destruct Hout as [art Ha]. eauto.
    + split.
      * match goal with
        | |- context [extend_config ?c ?k ?cs] =>
            destruct (extend_config c k cs).2
        end; [destruct Hout as [art Ha]|]; eauto.
      * intros Hplain.
        match type of Hout with
        | context [extend_config ?c ?k ?cs] =>
            rewrite (extend_config_plain c k cs Hplain) in Hout
        end.
        destruct Hout as [art Ha]. eauto.
Qed.

(** What a new Article holds. *)
Lemma init_fields raw_html given_title source_url given_config kwargs
  (w w' : World) a :
  __init__ raw_html given_title source_url given_config kwargs w = (w', Ok a) ->
  is_parsed a = false /\ text a = "" /\ article_html a = ""
  /\ top_node a = None /\ clean_top_node a = None /\ doc a = None
  /\ html a = raw_html /\ meta_lang a = ""
  /\ title a = match given_title with AStr t => Some t | _ => None end
  /\ extractor a = ContentExtractor (cell (configs w') (config a)).
Proof.
  unfold __init__.
  destruct (is_Configuration given_title || is_Configuration source_url);
    [discriminate|].
  destruct given_config as [c|]; cbn;
    match goal with
    | |- context [extend_config ?c ?k ?cs] =>
        destruct (extend_config c k cs) as [cs' [c'|e]]
    end; cbn; intros [= <- <-]; cbn; repeat split.
Qed.

(** C4 — the validity check on an Article that is not parsed raises
    ArticleException; it returns nothing, and changes nothing. *)
Theorem is_valid_body_unparsed (s : State) :
  is_parsed (self s) = false ->
  is_valid_body s = (s, Raise ArticleException).
Proof.
  intros H. unfold is_valid_body, mbind, M_bind, get_self. cbn.
  rewrite H. reflexivity.
Qed.

Lemma extractor_get_meta_type_frame (t : string) (ti : option string)
  (cfg : ConfigObj) :
  keeps (fun s => text (self s) = t /\ title (self s) = ti
                  /\ cell (configs (world s)) (config (self s)) = cfg)
        extractor_get_meta_type.
Proof. keeps_walk. Qed.

(** C3 — on a parsed Article whose document is not of meta type
    'article' and whose text has fewer words than MIN_WORD_COUNT, the
    validity check returns False.  The words of the text are counted
    as the method counts them, [len(self.text.split(' '))], and "fewer
    than" is Python's [<] on that count and the attribute. *)
Theorem is_valid_body_few_words (s : State) (meta_type : string)
  (min_word_count : PyVal) :
  is_parsed (self s) = true ->
  (extractor_get_meta_type s).2 = Ok meta_type ->
  meta_type <> "article" ->
  getattr (cell (configs (world s)) (config (self s))) "MIN_WORD_COUNT"
  = Ok min_word_count ->
  Py.int_lt (Z.of_nat (length (Py.split " " (text (self s))))) min_word_count
  = Ok true ->
  (is_valid_body s).2 = Ok false.
Proof.
  intros Hparsed Hmeta Hne Hmin Hfew.
  pose proof (extractor_get_meta_type_frame (text (self s)) (title (self s))
                (cell (configs (world s)) (config (self s))) s) as Hframe.
  unfold is_valid_body, mbind, M_bind, get_self. cbn. rewrite Hparsed. cbn.
  destruct (extractor_get_meta_type s) as [s1 r]. cbn in *. subst r.
  destruct Hframe as (Htext & Htitle & Hcfg); [auto|].
  apply String.eqb_neq in Hne. rewrite Hne. cbn.
  rewrite Htitle.
  destruct (title (self s)) as [t|]; [|reflexivity].
  destruct (_ <=? 1)%nat; [reflexivity|].
  unfold config_attr, mbind, M_bind, self_config, lift. cbn.
  rewrite Hcfg, Hmin, Htext, Hfew. reflexivity.
Qed.

(** C8, at [Article(html, title='abcdef', config=c)] for a
    configuration [c] whose MAX_TITLE is 3: the Article is built with
    the six characters of the title it was given. *)
Theorem init_title_over_cap (html : Html) (w : World) (c : nat) :
  let w0 := with_configs (write c {[ "MAX_TITLE" := VInt 3 ]} (configs w)) w in
  exists w' a,
    __init__ html (AStr "abcdef") ANone (Some c) [] w0 = (w', Ok a)
    /\ title a = Some "abcdef"
    /\ getattr (cell (configs w') (config a)) "MAX_TITLE" = Ok (VInt 3)
    /\ (3 < Py.len "abcdef")%Z.
Proof.
  cbn. do 2 eexists. split; [reflexivity|]. cbn.
  rewrite !Nat.eqb_refl. repeat split.
Qed.

End Claims.

(** ** article.py: parse *)

Section Parse.
Context {hashlib : Hashlib} {configuration_class : ConfigurationClass}
  {lxml : Lxml} {lib : Collaborators}.


(** *** release_resources *)

(** What [glob.glob] gives is there, and so holds no NUL. *)
Lemma glob_no_nul (fnmatch : string -> string -> bool) (p : string)
  (files : gmap string FsEntry) :
  Forall (fun q => os.has_nul q = false) (os.glob fnmatch p files).
Proof.
  assert (Hex : forall q, os.path_exists q files = true -> os.has_nul q = false).
  { unfold os.path_exists. intros q H. apply andb_prop in H as [H _].
    apply negb_true_iff, H. }
  unfold os.glob. destruct (os.has_magic p).
  - apply Forall_forall. intros q Hq. apply list_elem_of_filter in Hq as [Hq _].
    apply andb_prop in Hq as [_ Hq]. apply Hex, Hq.
  - destruct (os.path_exists p files) eqn:Hp; [|constructor].
    constructor; [apply Hex, Hp | constructor].
Qed.

Lemma for_each_remove_returns (l : list string) (s : State) :
  Forall (fun q => os.has_nul q = false) l ->
  (for_each l (fun fname =>
                 except_OSError (os_remove fname) (fun _ => mret tt)) s).2
  = Ok tt.
Proof.
  intros Hl. revert s.
  induction Hl as [|f l Hf Hl IH]; intros s; simpl; [reflexivity|].
  unfold mbind, M_bind, except_OSError, os_remove, os.remove at 1.
  cbv zeta. rewrite Hf.
  destruct (fs (world s) !! f) as [[c|]|]; cbn;
    [destruct (remove_error _ _ _); cbn|..]; apply IH.
Qed.

(** [get_resource_path], statement by statement. *)
Lemma get_resource_path_run (s : State) :
  get_resource_path s
  = let w := world s in
    let path :=
      match link_hash (self s) with
      | Some h => Ok (Py.path_join resource_directory (h +:+ "_"))
      | None => Raise AttributeError
      end in
    if os.path_exists resource_directory (fs w) then (s, path)
    else
      match os.mkdir (mkdir_error w (fs w) resource_directory)
                     resource_directory (fs w) with
      | (files, Ok _) => (with_world (with_fs files w) s, path)
      | (files, Raise e) => (with_world (with_fs files w) s, Raise e)
      end.
Proof.
  unfold get_resource_path. cbv zeta.
  change (Py.path_join TOP_DIRECTORY "article_resources")
    with resource_directory.
  generalize resource_directory. intros dir.
  unfold mbind, M_bind, os_path_exists, get_self.
  destruct (os.path_exists dir (fs (world s))); cbn.
  - destruct (link_hash (self s)); reflexivity.
  - unfold os_mkdir. cbv zeta.
    destruct (os.mkdir _ _ _) as [files [[]|e]]; cbn; [|reflexivity].
    destruct (link_hash (self s)); reflexivity.
Qed.

(** When [os.mkdir] raises, the files are as they were. *)
Lemma mkdir_raise (error : option string) (p : string)
  (files files' : gmap string FsEntry) (e : exn) :
  os.mkdir error p files = (files', Raise e) -> files' = files.
Proof.
  unfold os.mkdir. destruct (os.has_nul p); [congruence|].
  destruct (files !! p); [congruence|]. destruct error; congruence.
Qed.

(** Once [link_hash] is set, [release_resources] ends as making sure
    of the resource directory does: a file that cannot be removed is
    passed over, the [os.mkdir] of [get_resource_path] is not. *)
Lemma release_resources_outcome (s : State) :
  is_Some (link_hash (self s)) ->
  (release_resources s).2
  = match resource_directory_error (world s) with
    | Some error => Raise error
    | None => Ok tt
    end.
Proof.
  intros [h Hh]. unfold release_resources, mbind, M_bind.
  rewrite get_resource_path_run, Hh. unfold resource_directory_error.
  cbv zeta. generalize resource_directory. intros dir.
  destruct (os.path_exists dir (fs (world s)));
    [|destruct (os.mkdir _ _ _) as [files [[]|e]]; [|reflexivity]];
    unfold glob_glob; apply for_each_remove_returns, glob_no_nul.
Qed.

Lemma release_resources_self (a : Article) :
  keeps (fun s => self s = a) release_resources.
Proof. keeps_walk. Qed.

(** *** From the raw HTML to the scorer *)

Lemma parse_fields_post (d c : Ref) :
  triple (fun s => d.1 < next (documents (world s)) /\ is_Some (doc (self s)))
         (parse_fields d c)
         (fun r s => scored (match r with
                                 | Ok x => Ok (Some x)
                                 | Raise e => Raise e
                                 end) s).
Proof.
  unfold parse_fields.
  triple_walk_to ltac:(fun m =>
    lazymatch m with
    | assign (with_link_hash _) ≫= _ => fail
    | _ => idtac
    end).
  apply triple_bind with
    (R := fun _ s => d.1 < next (documents (world s))
                     /\ is_Some (doc (self s))
                     /\ is_Some (link_hash (self s))).
  { intros s [H1 H2]. cbn. eauto. }
  intros _.
  triple_walk_to ltac:(fun m =>
    lazymatch m with
    | assign (with_top_node _) ≫= _ => fail
    | _ => idtac
    end).
  match goal with
  | |- triple _ (assign (with_top_node ?t) ≫= _) _ =>
      apply triple_bind with
        (R := fun _ s => (d.1 < next (documents (world s))
                          /\ is_Some (doc (self s))
                          /\ is_Some (link_hash (self s)))
                         /\ top_node (self s) = t)
  end.
  { intros s H. cbn. auto. }
  intros _. apply triple_ret. intros s ((H1 & H2 & H3) & H4). cbn.
  repeat split; auto.
  intros x Hx. apply fmap_Some in Hx as (best & _ & ->). exact H1.
Qed.

Lemma parse_to_score_post : triple (fun _ => True) parse_to_score scored.
Proof.
  unfold parse_to_score.
  apply triple_bind with
    (R := fun d s => forall r, d = Some r -> r.1 < next (documents (world s))).
  { intros s _.
    unfold parser_fromstring, mbind, M_bind, get_self, self_config, lift,
      new_document.
    cbn. destruct (fromstring _ _) as [[[arena root]|]|e]; cbn; try done.
    intros r [= <-]. cbn. lia. }
  intros d.
  apply triple_bind with
    (R := fun _ s => (forall r, d = Some r -> r.1 < next (documents (world s)))
                     /\ doc (self s) = d).
  { intros s H. cbn. auto. }
  intros _. destruct d as [d|].
  - apply triple_weaken with
      (P := fun s => d.1 < next (documents (world s)) /\ is_Some (doc (self s)))
      (Q := scored); [intros s [H1 H2]; rewrite H2; eauto | auto |].
    do 2 triple_one.
    apply triple_bind with (R := fun r s => scored (Ok (Some r)) s).
    { eapply triple_weaken; [| | apply parse_fields_post]; [auto|].
      intros [r|e] s H; exact H. }
    intros r. apply triple_ret. auto.
  - triple_walk_to ltac:(fun m => idtac).
    intros s [_ H]. exact H.
Qed.

(** Up to the scorer, [parse] leaves the output attributes and the
    state alone. *)
Lemma parse_to_score_frame (t h : string) (c : option Ref) (p : bool) :
  keeps (fun s => text (self s) = t /\ article_html (self s) = h
                  /\ clean_top_node (self s) = c /\ is_parsed (self s) = p)
        parse_to_score.
Proof. unfold parse_to_score. keeps_walk. Qed.

(** And the files. *)
Lemma parse_to_score_files (e : option exn) :
  keeps (fun s => resource_directory_error (world s) = e) parse_to_score.
Proof. unfold parse_to_score. keeps_walk. Qed.

(** C1, as the code has it — when the scorer returns no node, [parse]
    does not fail on that account: for an Article as [__init__] built
    it, and in any world, if the run reaches [calculate_best_node] and
    that returns None, then [top_node] and [clean_top_node] are None,
    [text] and [article_html] are empty and [is_parsed] is True when
    [parse] ends; and it ends without an exception when the resource
    directory is there or [os.mkdir] makes it, and with the exception of
    [os.mkdir] otherwise. *)
Theorem parse_no_candidate (raw_html : Html) (given_title source_url : InitArg)
  (given_config : option nat) (kwargs : list (string * PyVal))
  (w0 w0' w : World) (a : Article) (s1 : State) (output_formatter : Formatter) :
  __init__ raw_html given_title source_url given_config kwargs w0 = (w0', Ok a) ->
  parse_to_score (mkState a w) = (s1, Ok (Some (output_formatter, None))) ->
  exists s2,
    parse (mkState a w)
    = (s2, match resource_directory_error w with
           | Some error => Raise error
           | None => Ok tt
           end)
    /\ top_node (self s2) = None
    /\ clean_top_node (self s2) = None
    /\ text (self s2) = ""
    /\ article_html (self s2) = ""
    /\ is_parsed (self s2) = true.
Proof.
  intros Hinit Hscore.
  apply init_fields in Hinit as (Hp & Ht & Hh & _ & Hc & _).
  pose proof (parse_to_score_post (mkState a w) Logic.I) as Hpost.
  pose proof (parse_to_score_frame "" "" None false (mkState a w)) as Hframe.
  pose proof (parse_to_score_files (resource_directory_error w) (mkState a w)
                eq_refl) as Hfiles.
  rewrite Hscore in Hpost, Hframe, Hfiles. cbn in Hpost, Hframe, Hfiles.
  destruct Hpost as (Htop & Hlink & _).
  destruct Hframe as (Ht1 & Hh1 & Hc1 & _); [cbn; auto|].
  set (s1' := with_self (with_is_parsed true (self s1)) s1).
  assert (Hrel := release_resources_outcome s1' Hlink).
  assert (Hself := release_resources_self (self s1') s1' eq_refl).
  exists (release_resources s1').1.
  split.
  - unfold parse, mbind, M_bind. rewrite Hscore. cbn. fold s1'.
    destruct (release_resources s1') as [s2 r]. cbn in *. subst r.
    rewrite Hfiles. reflexivity.
  - rewrite Hself. cbn. auto.
Qed.

End Parse.

(** ** article.py: the parsing state *)

Section ParsingState.
Context {hashlib : Hashlib} {configuration_class : ConfigurationClass}
  {lxml : Lxml} {lib : Collaborators}.










End ParsingState.

(** ** article.py: the caps on the text and on the title *)

Section Caps.
Context {hashlib : Hashlib} {configuration_class : ConfigurationClass}
  {lxml : Lxml} {lib : Collaborators}.

Lemma len_slice (t : string) (n : Z) :
  (0 <= n)%Z ->
  (Py.len (Py.str_take (Py.slice_stop (String.length t) n) t) <= n)%Z.
Proof.
  intros Hn. unfold Py.len. rewrite slice_stop_nonneg, length_str_take by lia.
  lia.
Qed.

(** What [set_text] does under a cap [n]. *)
Lemma set_text_cut (s : State) (t : string) (max_text : PyVal) (n : Z) :
  getattr (cell (configs (world s)) (config (self s))) "MAX_TEXT" = Ok max_text ->
  Py.as_index max_text = Ok (Some n) ->
  let cut := Py.str_take (Py.slice_stop (String.length t) n) t in
  set_text t s
  = (if Py.truthy cut then with_self (with_text cut (self s)) s else s, Ok tt).
Proof.
  intros Hattr Hidx. cbn.
  unfold set_text, config_attr, mbind, M_bind, self_config, lift. cbn.
  rewrite Hattr. unfold Py.str_slice_to. rewrite Hidx. cbn.
  destruct (Py.truthy _); reflexivity.
Qed.

(** The invariant of the cap: the configuration is [cfg], and the text
    is no longer than [n]. *)
Lemma set_text_keeps_cap (cfg : ConfigObj) (max_text : PyVal) (n : Z) (t : string) :
  getattr cfg "MAX_TEXT" = Ok max_text ->
  Py.as_index max_text = Ok (Some n) ->
  (0 <= n)%Z ->
  keeps (fun s => cell (configs (world s)) (config (self s)) = cfg
                  /\ (Py.len (text (self s)) <= n)%Z)
        (set_text t).
Proof.
  intros Hattr Hidx Hn s [Hcfg Hlen].
  rewrite (set_text_cut s t max_text n) by (rewrite ?Hcfg; assumption).
  cbn. destruct (Py.truthy _); cbn; [|auto].
  split; [exact Hcfg | apply len_slice, Hn].
Qed.

Lemma parse_keeps_cap (cfg : ConfigObj) (max_text : PyVal) (n : Z) :
  getattr cfg "MAX_TEXT" = Ok max_text ->
  Py.as_index max_text = Ok (Some n) ->
  (0 <= n)%Z ->
  keeps (fun s => cell (configs (world s)) (config (self s)) = cfg
                  /\ (Py.len (text (self s)) <= n)%Z)
        parse.
Proof.
  intros Hattr Hidx Hn.
  unfold parse, parse_to_score, parse_post_cleanup, parse_output.
  keeps_walk_with ltac:(apply (set_text_keeps_cap cfg max_text n); assumption).
Qed.

End Caps.

(** ** article.py: the snapshot of the top node *)

Section Snapshot.
Context {hashlib : Hashlib} {configuration_class : ConfigurationClass}
  {lxml : Lxml} {lib : Collaborators}.

(** The post-cleanup returns an element of the document it was given
    one of. *)
Lemma parse_post_cleanup_post (top : Ref) :
  triple (fun s => top.1 < next (documents (world s)))
         (parse_post_cleanup top)
         (fun r s => match r with
                     | Ok tn => tn.1 = top.1
                                /\ tn.1 < next (documents (world s))
                                /\ top_node (self s) = Some tn
                     | Raise _ => True
                     end).
Proof.
  unfold parse_post_cleanup.
  triple_walk_to ltac:(fun m =>
    lazymatch m with
    | assign (with_top_node _) ≫= _ => fail
    | _ => idtac
    end).
  match goal with
  | |- triple _ (assign (with_top_node ?t) ≫= _) _ =>
      apply triple_bind with
        (R := fun _ s => top.1 < next (documents (world s))
                         /\ top_node (self s) = t)
  end.
  { intros s H. cbn. auto. }
  intros _. apply triple_ret. intros s [H1 H2]. cbn. auto.
Qed.

(** From the copy on, nothing writes the copy: the formatter is handed
    the top node, which is in another document. *)
Lemma parse_output_snapshot (s0 : State) (output_formatter : Formatter)
  (tn : Ref) (rest : M unit) :
  tn.1 < next (documents (world s0)) ->
  (forall (snap : Ref) (arena : Arena),
      keeps (fun s => clean_top_node (self s) = Some snap
                      /\ cell (documents (world s)) snap.1 = arena) rest) ->
  triple (fun s => s = s0)
         (parse_output output_formatter tn ≫= fun _ => rest)
         (fun _ s =>
            exists snap : Ref,
              clean_top_node (self s) = Some snap
              /\ snap.1 = next (documents (world s0))
              /\ (cell (documents (world s)) snap.1, snap.2)
                 = clone_subtree (cell (documents (world s0)) tn.1) tn.2).
Proof.
  intros Hlt Hrest.
  destruct (clone_subtree (cell (documents (world s0)) tn.1) tn.2)
    as [arena n] eqn:Hclone.
  set (l := next (documents (world s0))).
  assert (Hne : (l =? tn.1)%nat = false) by (apply Nat.eqb_neq; lia).
  apply triple_weaken with
    (P := fun s => s = s0)
    (Q := fun _ s => clean_top_node (self s) = Some (l, n)
                     /\ cell (documents (world s)) (l, n).1 = arena);
    [auto | intros _ s [H1 H2]; exists (l, n); cbn in *; rewrite H2; auto |].
  apply triple_bind with
    (R := fun _ s => clean_top_node (self s) = Some (l, n)
                     /\ cell (documents (world s)) (l, n).1 = arena);
    [|intros _; apply keeps_triple, Hrest].
  unfold parse_output.
  apply triple_bind with
    (R := fun snap s => snap = (l, n) /\ cell (documents (world s)) l = arena).
  { intros s ->. unfold deepcopy. cbn. rewrite Hclone. cbn.
    rewrite Nat.eqb_refl. auto. }
  intros snap.
  apply triple_bind with
    (R := fun _ s => clean_top_node (self s) = Some (l, n)
                     /\ cell (documents (world s)) (l, n).1 = arena).
  { intros s [-> H]. cbn. auto. }
  intros _.
  triple_walk_to ltac:(fun m => idtac).
  all: intros [] ?; auto.
Qed.

Lemma parse_selected (s s1 s2 : State) (output_formatter : Formatter)
  (top tn : Ref) :
  parse_to_score s = (s1, Ok (Some (output_formatter, Some top))) ->
  parse_post_cleanup top s1 = (s2, Ok tn) ->
  parse s
  = (parse_output output_formatter tn ≫= fun _ =>
       assign (with_is_parsed true) ≫= fun _ => release_resources) s2.
Proof.
  intros Hscore Hpost. unfold parse, mbind, M_bind.
  rewrite Hscore. cbn. rewrite Hpost. reflexivity.
Qed.

(** Lines 191 to 194, call by call: the video extractor is handed the
    top node, then the post-cleanup is handed what the video extractor
    left of it. *)
Lemma parse_post_cleanup_run (s1 : State) (top : Ref) (arena1 arena2 : Arena)
  (videos : list (option Video)) (extractor2 : Extractor) (n : NodeId) :
  let cfg := cell (configs (world s1)) (config (self s1)) in
  get_videos cfg (cell (documents (world s1)) top.1) top.2
  = (arena1, Ok videos) ->
  post_cleanup (extractor (self s1)) cfg arena1 top.2
  = (extractor2, arena2, Ok n) ->
  exists s2,
    parse_post_cleanup top s1 = (s2, Ok (top.1, n))
    /\ cell (documents (world s2)) top.1 = arena2
    /\ next (documents (world s2)) = next (documents (world s1))
    /\ cell (configs (world s2)) (config (self s2)) = cfg
    /\ text (self s2) = text (self s1).
Proof.
  cbv zeta. intros Hvid Hpost.
  unfold parse_post_cleanup, mbind, M_bind, video_extractor_get_videos,
    set_movies, assign, extractor_call.
  cbn. rewrite Hvid. cbn. rewrite Nat.eqb_refl, Hpost. cbn.
  eexists. split; [reflexivity|]. cbn. rewrite Nat.eqb_refl. auto.
Qed.

(** What the formatter does lands in the document of the top node. *)
Lemma parse_output_formats (s0 : State) (output_formatter formatter' : Formatter)
  (tn : Ref) (arena' : Arena) (r : Res (string * string)) (rest : M unit) :
  tn.1 < next (documents (world s0)) ->
  get_formatted output_formatter
    (cell (configs (world s0)) (config (self s0)))
    (cell (documents (world s0)) tn.1) tn.2
  = (formatter', arena', r) ->
  (forall arena : Arena,
      keeps (fun s => cell (documents (world s)) tn.1 = arena) rest) ->
  triple (fun s => s = s0)
         (parse_output output_formatter tn ≫= fun _ => rest)
         (fun _ s => cell (documents (world s)) tn.1 = arena').
Proof.
  intros Hlt Hfmt Hrest.
  apply triple_bind with
    (R := fun _ s => cell (documents (world s)) tn.1 = arena');
    [|intros _; apply keeps_triple, Hrest].
  unfold parse_output.
  apply triple_bind with
    (R := fun _ s =>
            cell (configs (world s)) (config (self s))
            = cell (configs (world s0)) (config (self s0))
            /\ cell (documents (world s)) tn.1
               = cell (documents (world s0)) tn.1).
  { intros s ->. unfold deepcopy. cbn.
    destruct (clone_subtree _ _) as [arena n]. cbn.
    assert (Hne : (tn.1 =? next (documents (world s0)))%nat = false)
      by (apply Nat.eqb_neq; lia).
    rewrite Hne. auto. }
  intros snap.
  apply triple_bind with
    (R := fun _ s =>
            cell (configs (world s)) (config (self s))
            = cell (configs (world s0)) (config (self s0))
            /\ cell (documents (world s)) tn.1
               = cell (documents (world s0)) tn.1).
  { intros s H. cbn. exact H. }
  intros _.
  apply triple_bind with
    (R := fun _ s => cell (documents (world s)) tn.1 = arena').
  { intros s [Hc Hd]. unfold object_call. cbn. rewrite Hc, Hd, Hfmt. cbn.
    rewrite Nat.eqb_refl. destruct r; reflexivity. }
  intros [f' [t h]] s Hs.
  assert (Hk : keeps (fun s => cell (documents (world s)) tn.1 = arena')
                 (set_article_html h ≫= fun _ => set_text t))
    by keeps_walk.
  specialize (Hk s Hs).
  destruct ((set_article_html h ≫= fun _ => set_text t) s).2; exact Hk.
Qed.

(** C6 — the snapshot.  When the scorer has chosen a node, the video
    extractor has returned, and the post-cleanup, handed what the video
    extractor left, has returned the node [n] and left the document
    [arena2]: after [parse], whether the formatting returned or
    raised, [top_node] is [n]; [clean_top_node] is an element of a
    document of its own, not the one of [top_node], and that document
    is the deep copy of [n] in [arena2], the document as the
    post-cleanup left it; what the formatter, handed [arena2], made
    of it is in the document of the top node, not in the snapshot. *)
Theorem clean_top_node_snapshot (s s1 : State) (output_formatter : Formatter)
  (top : Ref) (arena1 arena2 : Arena) (videos : list (option Video))
  (extractor2 : Extractor) (n : NodeId) :
  parse_to_score s = (s1, Ok (Some (output_formatter, Some top))) ->
  let cfg := cell (configs (world s1)) (config (self s1)) in
  get_videos cfg (cell (documents (world s1)) top.1) top.2
  = (arena1, Ok videos) ->
  post_cleanup (extractor (self s1)) cfg arena1 top.2
  = (extractor2, arena2, Ok n) ->
  top_node (self (parse s).1) = Some (top.1, n)
  /\ (exists snap : Ref,
        clean_top_node (self (parse s).1) = Some snap
        /\ snap.1 <> top.1
        /\ (cell (documents (world (parse s).1)) snap.1, snap.2)
           = clone_subtree arena2 n)
  /\ (forall formatter' arena3 r,
        get_formatted output_formatter cfg arena2 n = (formatter', arena3, r) ->
        cell (documents (world (parse s).1)) top.1 = arena3).
Proof.
  intros Hscore cfg Hvid Hpost.
  pose proof (parse_to_score_post s Logic.I) as H1.
  rewrite Hscore in H1. cbn in H1. destruct H1 as (_ & _ & _ & H1).
  specialize (H1 top eq_refl).
  destruct (parse_post_cleanup_run s1 top arena1 arena2 videos extractor2 n
              Hvid Hpost) as (s2 & Hrun & Hdoc & Hnext & Hcfg & _).
  pose proof (parse_post_cleanup_post top s1 H1) as H2.
  rewrite Hrun in H2. cbn in H2. destruct H2 as (_ & H2 & H3).
  rewrite (parse_selected s s1 s2 output_formatter top (top.1, n) Hscore Hrun).
  split; [|split].
  - assert (Hk : keeps (fun s => top_node (self s) = Some (top.1, n))
                   (parse_output output_formatter (top.1, n) ≫= fun _ =>
                    assign (with_is_parsed true) ≫= fun _ => release_resources)).
    { unfold parse_output. keeps_walk. }
    apply Hk, H3.
  - destruct (parse_output_snapshot s2 output_formatter (top.1, n)
                (assign (with_is_parsed true) ≫= fun _ => release_resources)
                H2 ltac:(intros; keeps_walk) s2 eq_refl)
      as (snap & Hc & Hl & Hcopy).
    exists snap. cbn in Hcopy. rewrite Hdoc in Hcopy.
    repeat split; [exact Hc | cbn in H2; lia | exact Hcopy].
  - intros formatter' arena3 r Hfmt.
    apply (parse_output_formats s2 output_formatter formatter' (top.1, n)
             arena3 r
             (assign (with_is_parsed true) ≫= fun _ => release_resources) H2);
      [|intros; keeps_walk|reflexivity].
    cbn. rewrite Hcfg, Hdoc. exact Hfmt.
Qed.

End Snapshot.

(** ** article.py: the text that parse keeps *)

Section KeptText.
Context {hashlib : Hashlib} {configuration_class : ConfigurationClass}
  {lxml : Lxml} {lib : Collaborators}.

Lemma truthy_empty (t : string) : Py.truthy t = false -> t = "".
Proof. destruct t; [reflexivity | discriminate]. Qed.

(** From the formatter on: the text that is kept is the cut of the
    text the formatter returned. *)
Lemma parse_output_text (s0 : State) (output_formatter formatter' : Formatter)
  (tn : Ref) (arena' : Arena) (formatted html_out : string)
  (max_text : PyVal) (n : Z) (rest : M unit) :
  tn.1 < next (documents (world s0)) ->
  text (self s0) = "" ->
  getattr (cell (configs (world s0)) (config (self s0))) "MAX_TEXT"
  = Ok max_text ->
  Py.as_index max_text = Ok (Some n) ->
  get_formatted output_formatter
    (cell (configs (world s0)) (config (self s0)))
    (cell (documents (world s0)) tn.1) tn.2
  = (formatter', arena', Ok (formatted, html_out)) ->
  (forall t : string, keeps (fun s => text (self s) = t) rest) ->
  triple (fun s => s = s0)
         (parse_output output_formatter tn ≫= fun _ => rest)
         (fun _ s =>
            text (self s)
            = Py.str_take (Py.slice_stop (String.length formatted) n)
                formatted).
Proof.
  intros Hlt Htext Hattr Hidx Hfmt Hrest.
  set (cfg := cell (configs (world s0)) (config (self s0))) in *.
  set (cut := Py.str_take (Py.slice_stop (String.length formatted) n)
                formatted).
  apply triple_bind with (R := fun _ s => text (self s) = cut);
    [|intros _; apply keeps_triple, Hrest].
  unfold parse_output.
  apply triple_bind with
    (R := fun _ s =>
            (cell (configs (world s)) (config (self s)) = cfg
             /\ text (self s) = "")
            /\ cell (documents (world s)) tn.1
               = cell (documents (world s0)) tn.1).
  { intros s ->. unfold deepcopy. cbn.
    destruct (clone_subtree _ _) as [arena k]. cbn.
    assert (Hne : (tn.1 =? next (documents (world s0)))%nat = false)
      by (apply Nat.eqb_neq; lia).
    rewrite Hne. auto. }
  intros snap.
  apply triple_bind with
    (R := fun _ s =>
            (cell (configs (world s)) (config (self s)) = cfg
             /\ text (self s) = "")
            /\ cell (documents (world s)) tn.1
               = cell (documents (world s0)) tn.1).
  { intros s H. cbn. exact H. }
  intros _.
  apply triple_bind with
    (R := fun (r : Formatter * (string * string)) s =>
            r.2 = (formatted, html_out)
            /\ cell (configs (world s)) (config (self s)) = cfg
            /\ text (self s) = "").
  { intros s [[Hc Ht] Hd]. unfold object_call. cbn.
    rewrite Hc, Hd, Hfmt. cbn. auto. }
  intros [f' [t h]].
  apply triple_bind with
    (R := fun _ s => (t, h) = (formatted, html_out)
                     /\ cell (configs (world s)) (config (self s)) = cfg
                     /\ text (self s) = "").
  { intros s (Hr & Hc & Ht). unfold set_article_html.
    destruct (Py.truthy h); cbn; auto. }
  intros _ s ([= -> ->] & Hc & Ht).
  rewrite (set_text_cut s formatted max_text n) by (rewrite ?Hc; assumption).
  cbn. fold cut. destruct (Py.truthy cut) eqn:Hcut; cbn.
  - reflexivity.
  - rewrite Ht. symmetry. apply truthy_empty, Hcut.
Qed.

(** Up to the scorer, [parse] leaves the attributes of the
    configuration and the text as they are. *)
Lemma parse_to_score_keeps_text (cfg : ConfigObj) (t : string) :
  keeps (fun s => cell (configs (world s)) (config (self s)) = cfg
                  /\ text (self s) = t)
        parse_to_score.
Proof. unfold parse_to_score. keeps_walk. Qed.

(** C2, as the code has it — for an Article as [__init__] built it and
    a configuration whose MAX_TEXT is a number [n] that is not
    negative: after [parse], however it ends, the text is at most [n]
    characters long; and when the scorer has chosen a node and the
    formatter, handed the node as the post-cleanup left it, has
    returned the text [formatted], the text of the Article after
    [parse] is the first [n] characters of [formatted]: all of it
    when it is within the cap, and exactly [n] characters when it
    exceeds the cap, cut at character [n] whatever stands there. *)
Theorem text_within_cap (raw_html : Html) (given_title source_url : InitArg)
  (given_config : option nat) (kwargs : list (string * PyVal))
  (w0 w0' w : World) (a : Article) (max_text : PyVal) (n : Z) :
  __init__ raw_html given_title source_url given_config kwargs w0 = (w0', Ok a) ->
  getattr (cell (configs w) (config a)) "MAX_TEXT" = Ok max_text ->
  Py.as_index max_text = Ok (Some n) ->
  (0 <= n)%Z ->
  let s := mkState a w in
  (Py.len (text (self (parse s).1)) <= n)%Z
  /\ forall (s1 : State) (output_formatter formatter' : Formatter) (top : Ref)
       (arena1 arena2 arena3 : Arena) (videos : list (option Video))
       (extractor2 : Extractor) (node : NodeId) (formatted html_out : string),
       parse_to_score s = (s1, Ok (Some (output_formatter, Some top))) ->
       let cfg := cell (configs (world s1)) (config (self s1)) in
       get_videos cfg (cell (documents (world s1)) top.1) top.2
       = (arena1, Ok videos) ->
       post_cleanup (extractor (self s1)) cfg arena1 top.2
       = (extractor2, arena2, Ok node) ->
       get_formatted output_formatter cfg arena2 node
       = (formatter', arena3, Ok (formatted, html_out)) ->
       text (self (parse s).1) = Py.str_take (Z.to_nat n) formatted
       /\ ((Py.len formatted <= n)%Z -> text (self (parse s).1) = formatted)
       /\ ((n < Py.len formatted)%Z -> Py.len (text (self (parse s).1)) = n).
Proof.
  intros Hinit Hattr Hidx Hn s.
  apply init_fields in Hinit as (_ & Ht & _).
  split.
  - apply (parse_keeps_cap _ max_text n Hattr Hidx Hn s).
    cbn. rewrite Ht. split; [reflexivity | unfold Py.len; simpl; lia].
  - intros s1 output_formatter formatter' top arena1 arena2 arena3 videos
      extractor2 node formatted html_out Hscore cfg Hvid Hpost Hfmt.
    pose proof (parse_to_score_post s Logic.I) as H1.
    rewrite Hscore in H1. cbn in H1. destruct H1 as (_ & _ & _ & H1).
    specialize (H1 top eq_refl).
    pose proof (parse_to_score_keeps_text (cell (configs w) (config a)) ""
                  s (conj eq_refl Ht)) as Hkeep.
    rewrite Hscore in Hkeep. cbn in Hkeep. destruct Hkeep as [Hcfg1 Ht1].
    destruct (parse_post_cleanup_run s1 top arena1 arena2 videos extractor2
                node Hvid Hpost) as (s2 & Hrun & Hdoc & Hnext & Hcfg & Ht2).
    fold cfg in Hcfg.
    rewrite (parse_selected s s1 s2 output_formatter top (top.1, node)
               Hscore Hrun).
    assert (Hcut :
              text (self ((parse_output output_formatter (top.1, node) ≫= fun _ =>
                           assign (with_is_parsed true) ≫= fun _ =>
                           release_resources) s2).1)
              = Py.str_take (Z.to_nat n) formatted).
    { rewrite <- (slice_stop_nonneg (String.length formatted) n Hn).
      apply (parse_output_text s2 output_formatter formatter' (top.1, node)
               arena3 formatted html_out max_text n
               (assign (with_is_parsed true) ≫= fun _ => release_resources)).
      - cbn. rewrite Hnext. exact H1.
      - congruence.
      - rewrite Hcfg. unfold cfg. rewrite Hcfg1. exact Hattr.
      - exact Hidx.
      - cbn. rewrite Hcfg, Hdoc. exact Hfmt.
      - intros t. keeps_walk.
      - reflexivity. }
    split; [exact Hcut|]. rewrite Hcut. unfold Py.len. split.
    + intros Hle. apply str_take_all. lia.
    + intros Hlt. rewrite length_str_take. lia.
Qed.

End KeptText.

(** ** article.py: two runs of parse *)

Section Determinism.
Context {hashlib : Hashlib} {configuration_class : ConfigurationClass}
  {lxml : Lxml} {lib : Collaborators}.

Lemma rel_bind {A B} P (m1 m2 : M A) (f1 f2 : A -> M B) R Q E :
  rel P m1 m2 R E ->
  (forall a1 a2, rel (R a1 a2) (f1 a1) (f2 a2) Q E) ->
  rel P (m1 ≫= f1) (m2 ≫= f2) Q E.
Proof.
  intros Hm Hf s1 s2 H. unfold mbind, M_bind. specialize (Hm s1 s2 H).
  destruct (m1 s1) as [s1' [a1|e1]], (m2 s2) as [s2' [a2|e2]]; cbn in *;
    try contradiction.
  - apply Hf, Hm.
  - exact Hm.
Qed.

Lemma sync_bind {A B} I (V : A -> A -> Prop) (m1 m2 : M A) (f1 f2 : A -> M B) Q :
  sync I V m1 m2 ->
  (forall a1 a2, V a1 a2 -> rel I (f1 a1) (f2 a2) Q I) ->
  rel I (m1 ≫= f1) (m2 ≫= f2) Q I.
Proof.
  intros Hm Hf. eapply rel_bind; [exact Hm|].
  intros a1 a2 s1 s2 [HV HI]. apply Hf; assumption.
Qed.

Lemma sync_last {A} I (V : A -> A -> Prop) (m1 m2 : M A) (Q : A -> A -> State -> State -> Prop) :
  sync I V m1 m2 ->
  (forall a1 a2 s1 s2, V a1 a2 -> I s1 s2 -> Q a1 a2 s1 s2) ->
  rel I m1 m2 Q I.
Proof.
  intros Hm HQ s1 s2 H. specialize (Hm s1 s2 H).
  destruct (m1 s1).2, (m2 s2).2; try contradiction; [|exact Hm].
  destruct Hm. auto.
Qed.

Lemma rel_ret {A} (I : State -> State -> Prop) (a1 a2 : A) Q E :
  (forall s1 s2, I s1 s2 -> Q a1 a2 s1 s2) -> rel I (mret a1) (mret a2) Q E.
Proof. intros H s1 s2 Hs. apply H, Hs. Qed.

Lemma rel_weaken {A} (P P' : State -> State -> Prop) (m1 m2 : M A) Q Q' (E E' : State -> State -> Prop) :
  (forall s1 s2, P' s1 s2 -> P s1 s2) ->
  (forall a1 a2 s1 s2, Q a1 a2 s1 s2 -> Q' a1 a2 s1 s2) ->
  (forall s1 s2, E s1 s2 -> E' s1 s2) ->
  rel P m1 m2 Q E -> rel P' m1 m2 Q' E'.
Proof.
  intros HP HQ HE H s1 s2 Hs. specialize (H s1 s2 (HP _ _ Hs)).
  destruct (m1 s1).2, (m2 s2).2; try contradiction; [auto|].
  destruct H. auto.
Qed.

Ltac sync_prim :=
  let s1 := fresh "s1" in
  let s2 := fresh "s2" in
  let H := fresh "H" in
  intros s1 s2 H; unfold agree in *; unfold_prims; cbn in *;
  destruct H as (? & ? & ? & ? & ? & ? & ? & ? & ? & ? & ? & ? & ? & ? & ? & ? & ?);
  repeat match goal with
         | H : ?x = ?y |- _ => rewrite H in *
         end;
  rewrite ?Nat.eqb_refl in *;
  repeat (case_match; cbn in *; simplify_eq);
  rewrite ?Nat.eqb_refl in *;
  repeat match goal with
         | H : ?x = ?y |- _ => rewrite H in *
         end;
  repeat match goal with
         | H : (_ =? _)%nat = true |- _ => apply Nat.eqb_eq in H
         end;
  repeat split; auto; try congruence; try lia.

Lemma sync_get_self d1 c1 d2 c2 :
  sync (agree d1 c1 d2 c2) (fun a1 a2 => meta_lang a1 = meta_lang a2) get_self get_self.
Proof. sync_prim. Qed.

Lemma sync_get_world d1 c1 d2 c2 :
  sync (agree d1 c1 d2 c2) (fun w1 w2 => stopword_files w1 = stopword_files w2) get_world get_world.
Proof. sync_prim. Qed.

Lemma sync_get_parse_candidate d1 c1 d2 c2 :
  sync (agree d1 c1 d2 c2) (fun _ _ => True) get_parse_candidate get_parse_candidate.
Proof.
  intros s1 s2 H.
  assert (Hh : html (self s1) = html (self s2)) by apply H.
  unfold get_parse_candidate, mbind, M_bind, get_self, time_time, lift. cbn.
  rewrite Hh.
  assert (Ha : agree d1 c1 d2 c2
                 (with_world (with_ticks (S (ticks (world s1))) (world s1)) s1)
                 (with_world (with_ticks (S (ticks (world s2))) (world s2)) s2))
    by exact H.
  destruct (html (self s2)) as [|h|b]; cbn; auto.
  - destruct (Py.truthy h); cbn; auto.
  - destruct b; cbn; auto.
Qed.

Lemma sync_deepcopy d1 c1 d2 c2 n :
  sync (agree d1 c1 d2 c2) (fun _ _ => True) (deepcopy (d1, n)) (deepcopy (d2, n)).
Proof. sync_prim. Qed.

Ltac sync_unfold :=
  unfold config_attr, output_formatter_update_language,
    set_title, set_text, set_article_html, set_authors, set_meta_language,
    set_meta_keywords, set_meta_site_name, set_meta_description,
    set_meta_data, set_tags, set_movies.

Ltac sync_walk :=
  repeat first
    [ apply rel_ret; solve [intros; auto]
    | eapply sync_bind;
      [ sync_first
      | let a1 := fresh "a" in
        let a2 := fresh "a" in
        let HV := fresh "HV" in
        intros a1 a2 HV; try subst a2; try rewrite HV; cbn [fst snd] ]
    | progress (cbv beta zeta)
    | match goal with
      | |- rel _ (match ?x with _ => _ end) (match ?x with _ => _ end) _ _ =>
          destruct x
      | |- rel _ (if ?b then _ else _) (if ?b then _ else _) _ _ =>
          destruct b
      end
    | progress sync_unfold
    | eapply sync_last;
      [ solve [refine (_ : sync _ eq _ _); sync_prim]
      | solve [intros; subst; auto] ] ]
with sync_first :=
  sync_unfold;
  lazymatch goal with
  | |- sync _ _ (if _ then _ else _) _ =>
      refine (_ : sync _ eq _ _); unfold sync; sync_walk
  | |- sync _ _ (match _ with _ => _ end) _ =>
      refine (_ : sync _ eq _ _); unfold sync; sync_walk
  | |- sync _ _ (_ ≫= _) _ =>
      refine (_ : sync _ eq _ _); unfold sync; sync_walk
  | |- sync _ _ get_self _ => apply sync_get_self
  | |- sync _ _ get_world _ => apply sync_get_world
  | |- sync _ _ get_parse_candidate _ => apply sync_get_parse_candidate
  | |- sync _ _ (deepcopy _) _ => apply sync_deepcopy
  | |- _ => solve [refine (_ : sync _ eq _ _); sync_prim]
  end.

Lemma parse_fields_rel d1 c1 d2 c2 n n' :
  rel (agree d1 c1 d2 c2)
      (parse_fields (d1, n) (c1, n')) (parse_fields (d2, n) (c2, n'))
      (fun r1 r2 s1 s2 =>
         agree d1 c1 d2 c2 s1 s2 /\ r1.1 = r2.1
         /\ match r1.2, r2.2 with
            | Some t1, Some t2 => t1.1 = d1 /\ t2.1 = d2 /\ t1.2 = t2.2
            | None, None => True
            | _, _ => False
            end)
      (agree d1 c1 d2 c2).
Proof.
  unfold parse_fields.
  sync_walk.
  apply rel_ret. intros s1 s2 H. cbn.
  split; [exact H|]. split; [reflexivity|].
  match goal with |- context [_ <$> ?x] => destruct x end; cbn; auto.
Qed.

Lemma parse_post_cleanup_rel d1 c1 d2 c2 n :
  rel (agree d1 c1 d2 c2)
      (parse_post_cleanup (d1, n)) (parse_post_cleanup (d2, n))
      (fun r1 r2 s1 s2 =>
         agree d1 c1 d2 c2 s1 s2 /\ r1.1 = d1 /\ r2.1 = d2 /\ r1.2 = r2.2)
      (agree d1 c1 d2 c2).
Proof.
  unfold parse_post_cleanup.
  sync_walk.
Qed.

Lemma parse_output_rel d1 c1 d2 c2 n output_formatter :
  rel (agree d1 c1 d2 c2)
      (parse_output output_formatter (d1, n))
      (parse_output output_formatter (d2, n))
      (fun _ _ s1 s2 => agree d1 c1 d2 c2 s1 s2)
      (agree d1 c1 d2 c2).
Proof.
  unfold parse_output.
  sync_walk.
Qed.
Lemma agree_same_input d1 c1 d2 c2 (s1 s2 : State) :
  agree d1 c1 d2 c2 s1 s2 -> same_input s1 s2.
Proof. unfold agree, same_input. tauto. Qed.

Lemma rel_pure {A} (phi : Prop) (P : State -> State -> Prop) (m1 m2 : M A) Q E :
  (phi -> rel P m1 m2 Q E) ->
  rel (fun s1 s2 => phi /\ P s1 s2) m1 m2 Q E.
Proof. intros H s1 s2 [Hphi HP]. apply H; assumption. Qed.

Lemma parse_to_score_rel :
  rel same_input parse_to_score parse_to_score scored_alike same_input.
Proof.
  unfold parse_to_score.
  apply rel_bind with
    (R := fun d1 d2 s1 s2 =>
            same_input s1 s2
            /\ match d1, d2 with
               | Some r1, Some r2 =>
                   r1.2 = r2.2
                   /\ cell (documents (world s1)) r1.1
                      = cell (documents (world s2)) r2.1
                   /\ r1.1 < next (documents (world s1))
                   /\ r2.1 < next (documents (world s2))
               | None, None => True
               | _, _ => False
               end).
  { intros s1 s2 H.
    unfold parser_fromstring, mbind, M_bind, get_self, self_config, lift,
      new_document.
    cbn. destruct H as (Hh & He & Hm & Ht & Ha & Hc & Hl).
    rewrite Hh, Hc.
    destruct (fromstring _ _) as [[[arena root]|]|e]; cbn;
      rewrite ?Nat.eqb_refl; unfold same_input; cbn; repeat split; auto. }
  intros [r1|] [r2|];
    [ | intros s1 s2 [_ []] | intros s1 s2 [_ []] | ].
  - apply rel_bind with
      (R := fun _ _ s1 s2 =>
              same_input s1 s2
              /\ r1.2 = r2.2
              /\ cell (documents (world s1)) r1.1
                 = cell (documents (world s2)) r2.1
              /\ r1.1 < next (documents (world s1))
              /\ r2.1 < next (documents (world s2))).
    { intros s1 s2 H. exact H. }
    intros _ _.
    apply rel_bind with
      (R := fun k1 k2 s1 s2 =>
              (k1.2 = k2.2 /\ r1.2 = r2.2)
              /\ agree r1.1 k1.1 r2.1 k2.1 s1 s2).
    { intros s1 s2 (H & Hn & Hcell & Hlt1 & Hlt2). unfold deepcopy. cbn.
      rewrite Hcell, Hn.
      destruct (clone_subtree _ _) as [arena n]. cbn.
      destruct H as (Hh & He & Hm & Ht & Ha & Hc & Hl).
      assert (E1 : (r1.1 =? next (documents (world s1)))%nat = false)
        by (apply Nat.eqb_neq; lia).
      assert (E2 : (r2.1 =? next (documents (world s2)))%nat = false)
        by (apply Nat.eqb_neq; lia).
      assert (E3 : (next (documents (world s1)) =? r1.1)%nat = false)
        by (apply Nat.eqb_neq; lia).
      assert (E4 : (next (documents (world s2)) =? r2.1)%nat = false)
        by (apply Nat.eqb_neq; lia).
      unfold agree. cbn. rewrite !Nat.eqb_refl, E1, E2.
      repeat split; auto; lia. }
    intros k1 k2. apply rel_pure. intros [Hk Hr].
    destruct r1 as [d1 n1], r2 as [d2 n2], k1 as [c1 m1], k2 as [c2 m2].
    cbn in Hk, Hr. subst. cbn [fst snd].
    apply rel_weaken with
      (P := agree d1 c1 d2 c2) (Q := scored_alike) (E := agree d1 c1 d2 c2);
      [auto | auto | apply agree_same_input |].
    eapply sync_bind;
      [ refine (_ : sync _ eq _ _); sync_prim | intros _ _ _ ].
    eapply rel_bind; [apply parse_fields_rel|].
    intros [f1 t1] [f2 t2]. apply rel_ret.
    intros s1 s2 (Hag & Hf & Ht). cbn in *. subst.
    split; [reflexivity|]. exists d1, c1, d2, c2. split; [exact Hag|].
    destruct t1, t2; auto.
  - intros s1 s2 [H _]. exact H.
Qed.

(** [parse], statement by statement of its last part. *)
Lemma parse_eq (s : State) :
  parse s
  = match parse_to_score s with
    | (s', Ok None) => (s', Ok tt)
    | (s', Ok (Some (f, None))) =>
        (assign (with_is_parsed true) ≫= fun _ => release_resources) s'
    | (s', Ok (Some (f, Some top))) =>
        match parse_post_cleanup top s' with
        | (s'', Ok tn) =>
            match parse_output f tn s'' with
            | (s3, Ok _) =>
                (assign (with_is_parsed true) ≫= fun _ => release_resources) s3
            | (s3, Raise e) => (s3, Raise e)
            end
        | (s'', Raise e) => (s'', Raise e)
        end
    | (s', Raise e) => (s', Raise e)
    end.
Proof.
  unfold parse, mbind, M_bind.
  destruct (parse_to_score s) as [s' [[[f [top|]]|]|e]]; cbn; try reflexivity.
  destruct (parse_post_cleanup top s') as [s'' [tn|e]]; cbn; try reflexivity.
Qed.

(** With [link_hash] set, the end of [parse] ends as making sure of
    the resource directory does, and leaves the text and the HTML of
    the article as they are. *)
Lemma parse_tail (s : State) :
  is_Some (link_hash (self s)) ->
  let r := (assign (with_is_parsed true) ≫= fun _ => release_resources) s in
  r.2 = match resource_directory_error (world s) with
        | Some error => Raise error
        | None => Ok tt
        end
  /\ text (self r.1) = text (self s)
  /\ article_html (self r.1) = article_html (self s).
Proof.
  intros Hlink. unfold mbind, M_bind, assign. cbn.
  set (s0 := with_self (with_is_parsed true (self s)) s).
  pose proof (release_resources_outcome s0 Hlink) as Hret.
  pose proof (release_resources_self (self s0) s0 eq_refl) as Hself.
  destruct (release_resources s0) as [s' r]. cbn in *. subst r.
  rewrite Hself. auto.
Qed.

Lemma parse_post_cleanup_linked (e : option exn) (top : Ref) :
  keeps (fun s => is_Some (link_hash (self s))
                  /\ resource_directory_error (world s) = e)
        (parse_post_cleanup top).
Proof. unfold parse_post_cleanup. keeps_walk. Qed.

Lemma parse_output_linked (e : option exn) (output_formatter : Formatter)
  (tn : Ref) :
  keeps (fun s => is_Some (link_hash (self s))
                  /\ resource_directory_error (world s) = e)
        (parse_output output_formatter tn).
Proof. unfold parse_output. keeps_walk. Qed.

(** Two runs of [parse] on the same input end alike: with the same
    text and the same HTML of the article, and in the same way unless
    the resource directory can be made sure of in one world and not in
    the other. *)
Lemma parse_alike (s1 s2 : State) :
  same_input s1 s2 ->
  text (self (parse s1).1) = text (self (parse s2).1)
  /\ article_html (self (parse s1).1) = article_html (self (parse s2).1)
  /\ (resource_directory_error (world s1)
      = resource_directory_error (world s2) ->
      (parse s1).2 = (parse s2).2).
Proof.
  intros H.
  pose proof (parse_to_score_rel s1 s2 H) as Hrel.
  pose proof (parse_to_score_post s1 Logic.I) as Hp1.
  pose proof (parse_to_score_post s2 Logic.I) as Hp2.
  pose proof (parse_to_score_files _ s1 eq_refl) as Hf1.
  pose proof (parse_to_score_files _ s2 eq_refl) as Hf2.
  rewrite !parse_eq.
  destruct (parse_to_score s1) as [s1' [r1|e1]],
           (parse_to_score s2) as [s2' [r2|e2]];
    cbn in Hrel, Hp1, Hp2, Hf1, Hf2; try contradiction.
  2: { destruct Hrel as (-> & _ & _ & _ & Ht & Ha & _). cbn. auto. }
  destruct r1 as [[f1 t1]|], r2 as [[f2 t2]|]; cbn in Hrel; try contradiction.
  2: { destruct Hrel as (_ & _ & _ & Ht & Ha & _). cbn. auto. }
  destruct Hrel as (-> & d1 & c1 & d2 & c2 & Hag & Htop).
  destruct Hp1 as (_ & Hl1 & _), Hp2 as (_ & Hl2 & _).
  destruct t1 as [[l1 n1]|], t2 as [[l2 n2]|]; try contradiction.
  - cbn in Htop. destruct Htop as (-> & -> & ->).
    pose proof (parse_post_cleanup_rel d1 c1 d2 c2 n2 s1' s2' Hag) as Hppc.
    pose proof (parse_post_cleanup_linked _ (d1, n2) s1' (conj Hl1 Hf1))
      as Hl1'.
    pose proof (parse_post_cleanup_linked _ (d2, n2) s2' (conj Hl2 Hf2))
      as Hl2'.
    destruct (parse_post_cleanup (d1, n2) s1') as [s1'' [[l1 m1]|e1]],
             (parse_post_cleanup (d2, n2) s2') as [s2'' [[l2 m2]|e2]];
      cbn in Hppc, Hl1', Hl2'; try contradiction.
    2: { destruct Hppc as (-> & _ & _ & _ & Ht & Ha & _). cbn. auto. }
    destruct Hppc as (Hag' & -> & -> & ->).
    pose proof (parse_output_rel d1 c1 d2 c2 m2 f2 s1'' s2'' Hag') as Hpo.
    pose proof (parse_output_linked _ f2 (d1, m2) s1'' Hl1') as Hl1''.
    pose proof (parse_output_linked _ f2 (d2, m2) s2'' Hl2') as Hl2''.
    destruct (parse_output f2 (d1, m2) s1'') as [s13 [[]|e1]],
             (parse_output f2 (d2, m2) s2'') as [s23 [[]|e2]];
      cbn in Hpo, Hl1'', Hl2''; try contradiction.
    2: { destruct Hpo as (-> & _ & _ & _ & Ht & Ha & _). cbn. auto. }
    destruct Hpo as (_ & _ & _ & Ht & Ha & _).
    destruct Hl1'' as [Hl1'' Hd1], Hl2'' as [Hl2'' Hd2].
    destruct (parse_tail s13 Hl1'') as (-> & -> & ->).
    destruct (parse_tail s23 Hl2'') as (-> & -> & ->).
    rewrite Hd1, Hd2. repeat split; auto. intros ->. reflexivity.
  - destruct Hag as (_ & _ & _ & Ht & Ha & _).
    destruct (parse_tail s1' Hl1) as (-> & -> & ->).
    destruct (parse_tail s2' Hl2) as (-> & -> & ->).
    rewrite Hf1, Hf2. repeat split; auto. intros ->. reflexivity.
Qed.

(** C5, as the code has it — determinism.  Two Articles built from the
    same HTML, whose configurations have the same attributes when
    they are built and when they are parsed, with the same listing of
    the stop word directory: [parse] leaves the same [text] and the
    same [article_html] on both; and it ends in the same way on
    both, returning or raising the same exception, when making sure
    of the resource directory ends in the same way in the two worlds.
    Neither the clock, nor the documents and files already there, nor
    the title and source_url given, take part.  The imported classes
    are what the development is parameterised over: functions of the
    objects, the configuration and the document they are handed. *)
Theorem parse_deterministic (raw_html : Html)
  (title1 source_url1 title2 source_url2 : InitArg)
  (config1 config2 : option nat)
  (kwargs1 kwargs2 : list (string * PyVal))
  (w1 w1' w2 w2' wa wb : World) (a1 a2 : Article) :
  __init__ raw_html title1 source_url1 config1 kwargs1 w1 = (w1', Ok a1) ->
  __init__ raw_html title2 source_url2 config2 kwargs2 w2 = (w2', Ok a2) ->
  cell (configs w1') (config a1) = cell (configs w2') (config a2) ->
  cell (configs wa) (config a1) = cell (configs wb) (config a2) ->
  stopword_files wa = stopword_files wb ->
  let r1 := parse (mkState a1 wa) in
  let r2 := parse (mkState a2 wb) in
  text (self r1.1) = text (self r2.1)
  /\ article_html (self r1.1) = article_html (self r2.1)
  /\ (resource_directory_error wa = resource_directory_error wb ->
      r1.2 = r2.2).
Proof.
  intros Hi1 Hi2 Hbuilt Hparsed Hfiles.
  apply init_fields in Hi1 as (_ & Ht1 & Ha1 & _ & _ & _ & Hh1 & Hm1 & _ & He1).
  apply init_fields in Hi2 as (_ & Ht2 & Ha2 & _ & _ & _ & Hh2 & Hm2 & _ & He2).
  apply (parse_alike (mkState a1 wa) (mkState a2 wb)).
  unfold same_input. cbn.
  rewrite Hh1, Hh2, He1, He2, Hm1, Hm2, Ht1, Ht2, Ha1, Ha2, Hbuilt.
  repeat split; assumption.
Qed.

End Determinism.

(** ** utils.py: more on extend_config and get_available_languages *)

Lemma split_nonempty (sep : ascii) (s : string) : Py.split sep s <> [].
Proof.
  destruct s as [|c r]; simpl; [discriminate|].
  destruct (Ascii.eqb c sep); [discriminate|].
  destruct (Py.split sep r); discriminate.
Qed.

(** The pieces of a split are one more than the separators. *)
Lemma length_split (sep : ascii) (s : string) :
  length (Py.split sep s)
  = S (length (filter (fun c => c = sep) (list_ascii_of_string s))).
Proof.
  induction s as [|c r IH]; simpl; [reflexivity|].
  destruct (Ascii.eqb_spec c sep) as [->|Hne].
  - rewrite filter_cons_True by reflexivity. simpl. rewrite IH. reflexivity.
  - rewrite filter_cons_False by assumption.
    destruct (Py.split sep r) as [|hd tl]; simpl in *; [discriminate|].
    exact IH.
Qed.

Lemma split_without_sep (sep : ascii) (s : string) :
  ~ In sep (list_ascii_of_string s) -> Py.split sep s = [s].
Proof.
  induction s as [|c r IH]; simpl; intros Hnot; [reflexivity|].
  destruct (Ascii.eqb_spec c sep) as [->|Hne]; [tauto|].
  rewrite IH by tauto. reflexivity.
Qed.

Lemma split_with_sep (sep : ascii) (s : string) :
  In sep (list_ascii_of_string s) ->
  exists first second rest, Py.split sep s = first :: second :: rest.
Proof.
  induction s as [|c r IH]; simpl; intros Hin; [tauto|].
  destruct (Ascii.eqb_spec c sep) as [->|Hne].
  - destruct (Py.split sep r) as [|hd tl] eqn:Hr;
      [exfalso; exact (split_nonempty _ _ Hr)|]. eauto.
  - destruct Hin as [Heq|Hin]; [congruence|].
    destruct (IH Hin) as (first & second & rest & ->). eauto.
Qed.

Lemma split_app_sep (sep : ascii) (pre r : string) :
  ~ In sep (list_ascii_of_string pre) ->
  Py.split sep (pre +:+ String sep r) = pre :: Py.split sep r.
Proof.
  induction pre as [|c pre IH]; simpl; intros Hnot.
  - rewrite Ascii.eqb_refl. reflexivity.
  - destruct (Ascii.eqb_spec c sep) as [->|Hne]; [tauto|].
    rewrite IH by tauto. reflexivity.
Qed.

Lemma split_app_head (sep : ascii) (pre r : string) :
  ~ In sep (list_ascii_of_string pre) ->
  exists h tl, Py.split sep r = h :: tl
               /\ Py.split sep (pre +:+ r) = (pre +:+ h) :: tl.
Proof.
  induction pre as [|c pre IH]; simpl; intros Hnot.
  - destruct (Py.split sep r) as [|h tl] eqn:Hr;
      [exfalso; exact (split_nonempty _ _ Hr)|]. eauto.
  - destruct (Ascii.eqb_spec c sep) as [->|Hne]; [tauto|].
    destruct IH as (h & tl & Hr & ->); [tauto|]. eauto.
Qed.

(** [mapM] in the monad of results: every item returned, or the first
    exception. *)
Lemma mapM_Res_Ok {A B} (f : A -> Res B) (l : list A) (k : list B) :
  mapM f l = Ok k -> Forall2 (fun x y => f x = Ok y) l k.
Proof.
  revert k. induction l as [|x l IH]; simpl; intros k.
  - intros [= <-]. constructor.
  - unfold mbind, Res_bind, mret, Res_ret.
    destruct (f x) as [y|e] eqn:Hx; [|discriminate].
    destruct (mapM f l) as [k'|e]; [|discriminate].
    intros [= <-]. constructor; auto.
Qed.

Lemma mapM_Res_Raise {A B} (f : A -> Res B) (l : list A) (e : exn) :
  mapM f l = Raise e -> Exists (fun x => f x = Raise e) l.
Proof.
  induction l as [|x l IH]; simpl; [discriminate|].
  unfold mbind, Res_bind, mret, Res_ret.
  destruct (f x) as [y|e'] eqn:Hx.
  - destruct (mapM f l) as [k'|e']; [discriminate|].
    intros [= <-]. right. auto.
  - intros [= <-]. left. exact Hx.
Qed.

#[local] Instance str_le_total : Total Py.str_le.
Proof.
  intros a b. unfold Py.str_le.
  destruct (String.leb_total a b) as [H|H]; rewrite H; [left|right]; exact Logic.I.
Qed.

(** The codes that are returned have two characters. *)
Lemma languages_two_chars (listing : Res (list string))
  (codes : list string) :
  get_available_languages listing = Ok codes ->
  Forall (fun code => String.length code = 2) codes.
Proof.
  unfold get_available_languages, mbind, Res_bind.
  destruct listing as [stopword_files|e]; [|discriminate].
  destruct (mapM _ stopword_files) as [raw|e]; [|discriminate].
  destruct (forallb _ raw) eqn:Hlen; [|discriminate].
  intros [= <-].
  assert (Hperm : Py.sort raw ≡ₚ raw) by apply merge_sort_Permutation.
  rewrite Hperm. apply Forall_forall. intros c Hc.
  rewrite forallb_forall in Hlen. apply Nat.eqb_eq, Hlen.
  apply list_elem_of_In, Hc.
Qed.

(** X2 — how [get_available_languages] ends: it returns only when the
    directory was listed and every file name has a '-'; an exception
    of the listing is the exception of the call; otherwise it raises
    IndexError exactly when some file name has no '-', whatever the
    other names are, and the only other exception is the
    AssertionError of a code that has not two characters. *)
Theorem get_available_languages_outcome (listing : Res (list string)) :
  match get_available_languages listing with
  | Ok codes =>
      exists stopword_files,
        listing = Ok stopword_files
        /\ Forall (fun f => In "-"%char (list_ascii_of_string f))
                  stopword_files
  | Raise e =>
      listing = Raise e
      \/ exists stopword_files,
           listing = Ok stopword_files
           /\ ((e = IndexError
                /\ Exists (fun f => ~ In "-"%char (list_ascii_of_string f))
                          stopword_files)
               \/ (e = AssertionError
                   /\ Forall (fun f => In "-"%char (list_ascii_of_string f))
                             stopword_files))
  end.
Proof.
  destruct listing as [stopword_files|e0]; [|left; reflexivity].
  unfold get_available_languages, mbind, Res_bind.
  match goal with |- context [mapM ?f _] => set (code := f) end.
  assert (Hcode : forall f,
            match code f with
            | Ok _ => In "-"%char (list_ascii_of_string f)
            | Raise e => e = IndexError
                         /\ ~ In "-"%char (list_ascii_of_string f)
            end).
  { intros f. unfold code.
    destruct (in_dec ascii_dec "-"%char (list_ascii_of_string f)) as [Hin|Hnot].
    - destruct (split_with_sep _ _ Hin) as (a & b & tl & ->).
      destruct (Py.split "." b) as [|c tl'] eqn:Hb;
        [exfalso; exact (split_nonempty _ _ Hb)|]. exact Hin.
    - rewrite split_without_sep by assumption. auto. }
  destruct (mapM code stopword_files) as [codes|e] eqn:Hm.
  - apply mapM_Res_Ok in Hm.
    assert (Forall (fun f => In "-"%char (list_ascii_of_string f))
                   stopword_files) as Hall.
    { clear -Hm Hcode. induction Hm as [|f c l k Hf _ IH]; constructor; auto.
      specialize (Hcode f). rewrite Hf in Hcode. exact Hcode. }
    destruct (forallb _ codes); [eauto|]. right. eauto.
  - apply mapM_Res_Raise in Hm.
    assert (e = IndexError) as ->.
    { apply Exists_exists in Hm as (f & _ & Hf).
      specialize (Hcode f). rewrite Hf in Hcode. tauto. }
    right. exists stopword_files. split; [reflexivity|]. left.
    split; [reflexivity|].
    eapply Exists_impl; [exact Hm|]. intros f Hf.
    specialize (Hcode f). rewrite Hf in Hcode. tauto.
Qed.

(** X3 — what [get_available_languages] returns: as many codes as
    there are files, each of two characters, in sorted order; every
    code is, for one of the files, the part of its name between the
    first '-' and the '.' that follows. *)
Theorem get_available_languages_shape (stopword_files codes : list string) :
  get_available_languages (Ok stopword_files) = Ok codes ->
  length codes = length stopword_files
  /\ Forall (fun code => String.length code = 2) codes
  /\ Sorted Py.str_le codes
  /\ forall code, code ∈ codes ->
       exists f first second rest after,
         f ∈ stopword_files
         /\ Py.split "-" f = first :: second :: rest
         /\ Py.split "." second = code :: after.
Proof.
  intros Hget. pose proof (languages_two_chars _ _ Hget) as Htwo.
  revert Hget. unfold get_available_languages, mbind, Res_bind.
  match goal with |- context [mapM ?f _] => set (code_of := f) end.
  destruct (mapM code_of stopword_files) as [raw|e] eqn:Hm; [|discriminate].
  destruct (forallb _ raw) eqn:Hlen; [|discriminate].
  intros [= <-]. apply mapM_Res_Ok in Hm.
  assert (Hperm : Py.sort raw ≡ₚ raw) by apply merge_sort_Permutation.
  split; [rewrite Hperm; symmetry; eapply Forall2_length, Hm|].
  split; [exact Htwo|].
  split; [apply Sorted_merge_sort, _|].
  intros c Hc. rewrite Hperm in Hc.
  clear -Hm Hc. induction Hm as [|f c' l k Hf _ IH].
  - inversion Hc.
  - apply elem_of_cons in Hc as [->|Hc].
    + unfold code_of in Hf.
      destruct (Py.split "-" f) as [|a [|b tl]] eqn:Hs; try discriminate.
      destruct (Py.split "." b) as [|c'' tl'] eqn:Hb; [discriminate|].
      injection Hf as ->.
      exists f, a, b, tl, tl'. split; [left|auto].
    + destruct (IH Hc) as (f' & a & b & tl & tl' & Hin & H).
      exists f', a, b, tl, tl'. split; [right; exact Hin | exact H].
Qed.

(** X4 — a file named [<pre>-<code>.<rest>] gives [code]: when the
    call returns, the code is in the list (and so has two
    characters). *)
Theorem get_available_languages_code (stopword_files codes : list string)
  (pre code rest : string) :
  get_available_languages (Ok stopword_files) = Ok codes ->
  (pre +:+ String "-" (code +:+ String "." rest)) ∈ stopword_files ->
  ~ In "-"%char (list_ascii_of_string pre) ->
  ~ In "-"%char (list_ascii_of_string code) ->
  ~ In "."%char (list_ascii_of_string code) ->
  code ∈ codes /\ String.length code = 2.
Proof.
  intros Hget Hin Hpre Hcode1 Hcode2.
  assert (Hmem : code ∈ codes).
  { revert Hget. unfold get_available_languages, mbind, Res_bind.
    match goal with |- context [mapM ?f _] => set (code_of := f) end.
    destruct (mapM code_of stopword_files) as [raw|e] eqn:Hm; [|discriminate].
    destruct (forallb _ raw); [|discriminate].
    intros [= <-]. apply mapM_Res_Ok in Hm.
    unfold Py.sort. rewrite merge_sort_Permutation.
    assert (Hthis : code_of (pre +:+ String "-" (code +:+ String "." rest))
                    = Ok code).
    { unfold code_of. rewrite split_app_sep by assumption.
      destruct (split_app_head "-" code (String "." rest) Hcode1)
        as (h & tl & Hh & ->).
      simpl in Hh.
      destruct (Py.split "-" rest) as [|h' tl'] eqn:Hr;
        [exfalso; exact (split_nonempty _ _ Hr)|].
      injection Hh as <- <-.
      rewrite split_app_sep by assumption. reflexivity. }
    clear -Hm Hin Hthis. induction Hm as [|f c l k Hf _ IH].
    - inversion Hin.
    - apply elem_of_cons in Hin as [<-|Hin].
      + rewrite Hthis in Hf. injection Hf as <-. left.
      + right. auto. }
  split; [exact Hmem|].
  pose proof (languages_two_chars _ _ Hget) as Hall.
  rewrite Forall_forall in Hall. auto.
Qed.

(** X1 — [extend_config] is idempotent on plain attributes: applying
    a second time the same items, whose names the class of the object
    leaves to the instance, changes no attribute of any configuration
    object. *)
Theorem extend_config_idempotent
  {configuration_class : ConfigurationClass} (config : nat)
  (config_items : list (string * PyVal)) (configs : Store ConfigObj) :
  Forall plain config_items.*1 ->
  let once := (extend_config config config_items configs).1 in
  let twice := (extend_config config config_items once).1 in
  (forall l, cell twice l = cell once l) /\ next twice = next once.
Proof.
  intros Hplain. cbv zeta.
  set (once := (extend_config config config_items configs).1).
  destruct (extend_config_store config config_items configs)
    as (Hcell1 & _ & _ & _).
  destruct (extend_config_store config config_items once)
    as (Hcell2 & Hother2 & Hnext2 & _).
  fold once in Hcell1.
  split; [|exact Hnext2]. intros l.
  destruct (decide (l = config)) as [->|Hne]; [|apply Hother2, Hne].
  rewrite Hcell2, Hcell1. apply map_eq. intros key.
  destruct (extend_attrs_plain (cell configs config) config_items Hplain)
    as [_ Hlook1].
  destruct (extend_attrs_plain
              (extend_attrs (cell configs config) config_items).1
              config_items Hplain) as [_ Hlook2].
  rewrite Hlook2, Hlook1.
  destruct (cell configs config !! key) as [old|]; [|reflexivity].
  destruct (last_binding key config_items); reflexivity.
Qed.

(** ** utils.py: StringReplacement and ReplaceSequence *)

Lemma replace_sequence_step (rps : ReplaceSequence.t)
  (rp : StringReplacement.t) (a_string : option string) :
  ReplaceSequence.replaceAll (rps ++ [rp])%list a_string
  = (m ← ReplaceSequence.replaceAll rps a_string;
     StringReplacement.replaceAll rp (Some m)).
Proof.
  destruct a_string as [[|c s]|]; cbn; try reflexivity.
  rewrite foldl_app. reflexivity.
Qed.

(** Once the string is empty it stays empty. *)
Lemma replace_sequence_from_empty (rps : ReplaceSequence.t) :
  foldl (fun (mutatedString : Res string) rp =>
           m ← mutatedString; StringReplacement.replaceAll rp (Some m))
        (Ok "") rps
  = Ok "".
Proof. induction rps as [|rp rps IH]; cbn; [reflexivity | exact IH]. Qed.

Lemma replace_sequence_raised (rps : ReplaceSequence.t) (e : exn) :
  foldl (fun (mutatedString : Res string) rp =>
           m ← mutatedString; StringReplacement.replaceAll rp (Some m))
        (Raise e) rps
  = Raise e.
Proof. induction rps as [|rp rps IH]; cbn; [reflexivity | exact IH]. Qed.

Lemma replace_sequence_app (rps1 rps2 : ReplaceSequence.t)
  (a_string : option string) :
  ReplaceSequence.replaceAll (rps1 ++ rps2)%list a_string
  = (m ← ReplaceSequence.replaceAll rps1 a_string;
     ReplaceSequence.replaceAll rps2 (Some m)).
Proof.
  destruct a_string as [[|c s]|]; cbn; try reflexivity.
  rewrite foldl_app.
  destruct (foldl _ (Ok (String c s)) rps1) as [[|c' m]|e]; cbn.
  - apply replace_sequence_from_empty.
  - reflexivity.
  - apply replace_sequence_raised.
Qed.

(** X5 — [create] adds one replacement at the end, with '' for a
    missing [replaceWith]: the sequence then does what it did before
    and hands the result to the new replacement; [append] is
    [create]. *)
Theorem replace_sequence_create (self : ReplaceSequence.t)
  (pattern : string) (replaceWith a_string : option string) :
  ReplaceSequence.replaceAll
    (ReplaceSequence.create self pattern replaceWith) a_string
  = (m ← ReplaceSequence.replaceAll self a_string;
     StringReplacement.replaceAll
       (StringReplacement.mk pattern (Some (default "" replaceWith)))
       (Some m))
  /\ ReplaceSequence.append self pattern replaceWith
     = ReplaceSequence.create self pattern replaceWith.
Proof.
  split; [apply replace_sequence_step | reflexivity].
Qed.

(** X6 — once the replacements have emptied the string, the result
    is '': the replacements that follow are not applied, not even one
    with an empty pattern, which [str.replace] would expand. *)
Theorem replace_sequence_emptied (first rest : ReplaceSequence.t)
  (a_string : option string) :
  ReplaceSequence.replaceAll first a_string = Ok "" ->
  ReplaceSequence.replaceAll (first ++ rest)%list a_string = Ok "".
Proof.
  intros H. rewrite replace_sequence_app, H. reflexivity.
Qed.

(** X7 — a sequence that was filled by [create] alone never raises:
    [replaceAll] returns a str for every argument, None included. *)
Theorem replace_sequence_returns (steps : list (string * option string))
  (a_string : option string) :
  let self :=
    foldl (fun self step => ReplaceSequence.create self step.1 step.2)
          ReplaceSequence.empty steps in
  exists mutatedString, ReplaceSequence.replaceAll self a_string
                        = Ok mutatedString.
Proof.
  cbv zeta.
  induction steps as [|[pattern replaceWith] steps IH] using rev_ind.
  - destruct a_string as [[|c s]|]; cbn; eauto.
  - rewrite foldl_app. cbn. unfold ReplaceSequence.create at 1.
    rewrite replace_sequence_step.
    destruct IH as [m ->]. cbn. destruct m; eauto.
Qed.

Lemma replace_skip_char (c : ascii) (s : string) :
  Py.replace_skip (String c "") "" 0 s
  = string_of_list_ascii
      (filter (fun x => x <> c) (list_ascii_of_string s)).
Proof.
  induction s as [|c' r IH]; [reflexivity|].
  cbn [Py.replace_skip String.prefix String.length Nat.sub list_ascii_of_string].
  destruct (ascii_dec c c') as [->|Hne].
  - rewrite filter_cons_False by tauto. destruct r; exact IH.
  - rewrite filter_cons_True by congruence. cbn. f_equal. exact IH.
Qed.

(** X8 — a sequence made of [create(c)] for a character [c], with no
    [replaceWith], deletes every [c] and keeps the other characters in
    order. *)
Theorem replace_sequence_deletes (c : ascii) (s : string) :
  ReplaceSequence.replaceAll
    (ReplaceSequence.create ReplaceSequence.empty (String c "") None) (Some s)
  = Ok (string_of_list_ascii
          (filter (fun x => x <> c) (list_ascii_of_string s))).
Proof.
  destruct s as [|c' r]; [reflexivity|].
  cbn [ReplaceSequence.replaceAll ReplaceSequence.create ReplaceSequence.empty
       app foldl mbind Res_bind StringReplacement.replaceAll
       StringReplacement.replaceWith StringReplacement.pattern default].
  unfold Py.replace. rewrite replace_skip_char. reflexivity.
Qed.

(** ** article.py: the caps, for every call *)

Section CapsOfCalls.
Context {hashlib : Hashlib} {configuration_class : ConfigurationClass}
  {lxml : Lxml} {lib : Collaborators}.

Lemma cap_of_slice_str (cfg : ConfigObj) name v n (t : string) :
  getattr cfg name = Ok v -> cap_of cfg name n ->
  exists t', Py.str_slice_to t v = Ok t' /\ (Py.len t' <= n)%Z.
Proof.
  intros Hv (v' & Hv' & Hidx & Hn). rewrite Hv in Hv'. injection Hv' as <-.
  unfold Py.str_slice_to. rewrite Hidx. eexists. split; [reflexivity|].
  apply len_slice, Hn.
Qed.

Lemma cap_of_slice_list {A} (cfg : ConfigObj) name v n (l : list A) :
  getattr cfg name = Ok v -> cap_of cfg name n ->
  exists l', Py.list_slice_to l v = Ok l' /\ (Z.of_nat (length l') <= n)%Z.
Proof.
  intros Hv (v' & Hv' & Hidx & Hn). rewrite Hv in Hv'. injection Hv' as <-.
  unfold Py.list_slice_to. rewrite Hidx. eexists. split; [reflexivity|].
  rewrite slice_stop_nonneg, length_take by lia. lia.
Qed.

Lemma set_title_keeps_caps (cfg : ConfigObj) (t : option string) :
  keeps (fun s => cell (configs (world s)) (config (self s)) = cfg
                  /\ within_caps cfg (self s)) (set_title t).
Proof.
  intros s [Hcfg Hcaps]. unfold set_title.
  destruct t as [t|]; [|auto]. destruct (Py.truthy t); [|auto].
  unfold config_attr, mbind, M_bind, self_config, lift. cbn. rewrite Hcfg.
  destruct (getattr cfg "MAX_TITLE") as [v|e] eqn:Hv; cbn; [|auto].
  destruct (Py.str_slice_to t v) as [t'|e] eqn:Ht; cbn; [|auto].
  split; [exact Hcfg|]. destruct Hcaps as (H1 & H2). split; [|exact H2].
  intros n Hn. cbn.
  destruct (cap_of_slice_str cfg _ v n t Hv Hn) as (t'' & Ht'' & Hlen).
  congruence.
Qed.

Lemma set_text_keeps_caps (cfg : ConfigObj) (t : string) :
  keeps (fun s => cell (configs (world s)) (config (self s)) = cfg
                  /\ within_caps cfg (self s)) (set_text t).
Proof.
  intros s [Hcfg Hcaps]. unfold set_text.
  unfold config_attr, mbind, M_bind, self_config, lift. cbn. rewrite Hcfg.
  destruct (getattr cfg "MAX_TEXT") as [v|e] eqn:Hv; cbn; [|auto].
  destruct (Py.str_slice_to t v) as [t'|e] eqn:Ht; cbn; [|auto].
  destruct (Py.truthy t'); cbn; [|auto].
  split; [exact Hcfg|]. destruct Hcaps as (H1 & H2 & H3).
  split; [exact H1|]. split; [|exact H3].
  intros n Hn. cbn.
  destruct (cap_of_slice_str cfg _ v n t Hv Hn) as (t'' & Ht'' & Hlen).
  congruence.
Qed.

Lemma set_summary_keeps_caps (cfg : ConfigObj) (t : string) :
  keeps (fun s => cell (configs (world s)) (config (self s)) = cfg
                  /\ within_caps cfg (self s)) (set_summary t).
Proof.
  intros s [Hcfg Hcaps]. unfold set_summary.
  unfold config_attr, mbind, M_bind, self_config, lift. cbn. rewrite Hcfg.
  destruct (getattr cfg "MAX_SUMMARY") as [v|e] eqn:Hv; cbn; [|auto].
  destruct (Py.str_slice_to t v) as [t'|e] eqn:Ht; cbn; [|auto].
  split; [exact Hcfg|]. destruct Hcaps as (H1 & H2 & H3 & H4).
  split; [exact H1|]. split; [exact H2|]. split; [|exact H4].
  intros n Hn. cbn.
  destruct (cap_of_slice_str cfg _ v n t Hv Hn) as (t'' & Ht'' & Hlen).
  congruence.
Qed.

Lemma set_keywords_keeps_caps (cfg : ConfigObj) (l : ListArg) :
  keeps (fun s => cell (configs (world s)) (config (self s)) = cfg
                  /\ within_caps cfg (self s)) (set_keywords l).
Proof.
  intros s [Hcfg Hcaps]. unfold set_keywords.
  destruct l as [[|k l]|]; [auto| |auto].
  unfold config_attr, mbind, M_bind, self_config, lift. cbn. rewrite Hcfg.
  destruct (getattr cfg "MAX_KEYWORDS") as [v|e] eqn:Hv; cbn; [|auto].
  destruct (Py.list_slice_to (k :: l) v) as [l'|e] eqn:Hl; cbn; [|auto].
  split; [exact Hcfg|]. destruct Hcaps as (H1 & H2 & H3 & H4 & H5).
  split; [exact H1|]. split; [exact H2|]. split; [exact H3|].
  split; [|exact H5].
  intros n Hn. cbn.
  destruct (cap_of_slice_list cfg _ v n (k :: l) Hv Hn) as (l'' & Hl'' & Hlen).
  congruence.
Qed.

Lemma set_authors_keeps_caps (cfg : ConfigObj) (l : ListArg) :
  keeps (fun s => cell (configs (world s)) (config (self s)) = cfg
                  /\ within_caps cfg (self s)) (set_authors l).
Proof.
  intros s [Hcfg Hcaps]. unfold set_authors.
  destruct l as [[|k l]|]; [auto| |auto].
  unfold config_attr, mbind, M_bind, self_config, lift. cbn. rewrite Hcfg.
  destruct (getattr cfg "MAX_AUTHORS") as [v|e] eqn:Hv; cbn; [|auto].
  destruct (Py.list_slice_to (k :: l) v) as [l'|e] eqn:Hl; cbn; [|auto].
  split; [exact Hcfg|]. destruct Hcaps as (H1 & H2 & H3 & H4 & H5).
  split; [exact H1|]. split; [exact H2|]. split; [exact H3|].
  split; [exact H4|].
  intros n Hn. cbn.
  destruct (cap_of_slice_list cfg _ v n (k :: l) Hv Hn) as (l'' & Hl'' & Hlen).
  congruence.
Qed.

(** Every call keeps the Article within the caps. *)
Lemma run_keeps_caps (c : Call) (cfg : ConfigObj) :
  keeps (fun s => cell (configs (world s)) (config (self s)) = cfg
                  /\ within_caps cfg (self s)) (run c).
Proof.
  destruct c;
    unfold run, build, parse, is_valid_body, parse_to_score,
      parse_post_cleanup, parse_output;
    keeps_walk_with ltac:(first
      [ apply set_title_keeps_caps | apply set_text_keeps_caps
      | apply set_summary_keeps_caps | apply set_keywords_keeps_caps
      | apply set_authors_keeps_caps ]).
Qed.
End CapsOfCalls.

(** ** article.py: what every call keeps *)

Section Invariants.
Context {hashlib : Hashlib} {configuration_class : ConfigurationClass}
  {lxml : Lxml} {lib : Collaborators}.

Ltac unfold_calls :=
  unfold run, build, parse, is_valid_body, parse_to_score,
    parse_post_cleanup, parse_output.

(** The state after a sequence of calls, exceptions caught. *)
Lemma keeps_calls (I : State -> Prop) (calls : list Call) (s : State) :
  (forall c, keeps I (run c)) -> I s ->
  I (foldl (fun s c => (run c s).1) s calls).
Proof.
  intros Hrun. revert s.
  induction calls as [|c calls IH]; simpl; intros s Hs; [exact Hs|].
  apply IH, Hrun, Hs.
Qed.

Lemma run_keeps_config (c : Call) (cs : Store ConfigObj) (r : nat)
  (files : Res (list string)) :
  keeps (fun s => configs (world s) = cs /\ config (self s) = r
                  /\ stopword_files (world s) = files) (run c).
Proof. destruct c; unfold_calls; keeps_walk. Qed.

Lemma run_keeps_html (c : Call) (h : Html) :
  match c with
  | call_set_html _ => True
  | _ => keeps (fun s => html (self s) = h) (run c)
  end.
Proof. destruct c; try exact Logic.I; unfold_calls; keeps_walk. Qed.

Lemma set_text_keeps_nonempty (t : string) :
  keeps (fun s => Py.truthy (text (self s)) = true) (set_text t).
Proof.
  intros s H. unfold set_text, config_attr, mbind, M_bind, self_config, lift.
  cbn. destruct (getattr _ _); cbn; [|exact H].
  destruct (Py.str_slice_to _ _) as [t'|]; cbn; [|exact H].
  destruct (Py.truthy t') eqn:Ht; cbn; [exact Ht | exact H].
Qed.

Lemma set_article_html_keeps_nonempty (t : string) :
  keeps (fun s => Py.truthy (article_html (self s)) = true)
        (set_article_html t).
Proof.
  intros s H. unfold set_article_html.
  destruct (Py.truthy t) eqn:Ht; cbn; [exact Ht | exact H].
Qed.

Lemma run_keeps_text_nonempty (c : Call) :
  keeps (fun s => Py.truthy (text (self s)) = true) (run c).
Proof.
  destruct c; unfold_calls;
    keeps_walk_with ltac:(apply set_text_keeps_nonempty).
Qed.

Lemma run_keeps_article_html_nonempty (c : Call) :
  keeps (fun s => Py.truthy (article_html (self s)) = true) (run c).
Proof.
  destruct c; unfold_calls;
    keeps_walk_with ltac:(apply set_article_html_keeps_nonempty).
Qed.

(** What [set_meta_language] stores has two characters. *)
Lemma set_meta_language_stores (lang : string) (s : State) :
  meta_lang (self (set_meta_language lang s).1) = meta_lang (self s)
  \/ String.length (meta_lang (self (set_meta_language lang s).1)) = 2.
Proof.
  unfold set_meta_language.
  destruct (_ && _); [|left; reflexivity].
  unfold mbind, M_bind, get_world, lift. cbv beta iota.
  destruct (get_available_languages _) as [langs|e] eqn:Hl;
    [|left; reflexivity].
  case_bool_decide as Hin; [|left; reflexivity].
  pose proof (languages_two_chars _ _ Hl) as Htwo.
  rewrite Forall_forall in Htwo. specialize (Htwo _ Hin).
  rewrite (str_take_all 2 lang) by lia.
  right. exact Htwo.
Qed.

Lemma set_meta_language_keeps_code (lang : string) :
  keeps (fun s => meta_lang (self s) = ""
                  \/ String.length (meta_lang (self s)) = 2)
        (set_meta_language lang).
Proof.
  intros s H.
  destruct (set_meta_language_stores lang s) as [->|Hlen];
    [exact H | right; exact Hlen].
Qed.

Lemma run_keeps_meta_lang (c : Call) :
  keeps (fun s => meta_lang (self s) = ""
                  \/ String.length (meta_lang (self s)) = 2) (run c).
Proof.
  destruct c; unfold_calls;
    keeps_walk_with ltac:(apply set_meta_language_keeps_code).
Qed.

End Invariants.

Section Reach.
Context {hashlib : Hashlib} {configuration_class : ConfigurationClass}
  {lxml : Lxml} {lib : Collaborators}.

(** A new Article is within the caps when its title is. *)
Lemma init_within_caps (raw_html : Html)
  (given_title source_url : InitArg) (given_config : option nat)
  (kwargs : list (string * PyVal)) (w w' : World) (a : Article) :
  __init__ raw_html given_title source_url given_config kwargs w = (w', Ok a) ->
  (forall t n, given_title = AStr t ->
               cap_of (cell (configs w') (config a)) "MAX_TITLE" n ->
               (Py.len t <= n)%Z) ->
  within_caps (cell (configs w') (config a)) a.
Proof.
  unfold __init__.
  destruct (is_Configuration given_title || is_Configuration source_url);
    [discriminate|].
  destruct given_config as [c|]; cbn;
    match goal with
    | |- context [extend_config ?c ?k ?cs] =>
        destruct (extend_config c k cs) as [cs' [c'|e]]
    end; cbn; intros [= <- <-]; cbn; intros Htitle;
    (split; [|repeat split; intros n (v & _ & _ & Hn); exact Hn]);
    intros n Hn; destruct given_title as [|t|]; try exact Logic.I;
    apply Htitle; auto.
Qed.

(** X9 — an Article built with a title within MAX_TITLE stays within
    every cap of its configuration (MAX_TITLE, MAX_TEXT, MAX_SUMMARY,
    MAX_KEYWORDS, MAX_AUTHORS, each where it is a number that is not
    negative), whatever is called on it and however the calls end. *)
Theorem article_stays_within_caps (raw_html : Html)
  (given_title source_url : InitArg) (given_config : option nat)
  (kwargs : list (string * PyVal)) (w w' : World) (a : Article)
  (calls : list Call) :
  __init__ raw_html given_title source_url given_config kwargs w = (w', Ok a) ->
  (forall t n, given_title = AStr t ->
               cap_of (cell (configs w') (config a)) "MAX_TITLE" n ->
               (Py.len t <= n)%Z) ->
  let s := foldl (fun s c => (run c s).1) (mkState a w') calls in
  within_caps (cell (configs (world s)) (config (self s))) (self s).
Proof.
  intros Hinit Htitle s.
  pose proof (init_within_caps _ _ _ _ _ _ _ _ Hinit Htitle) as Hnew.
  set (cfg := cell (configs w') (config a)) in *.
  assert (H : cell (configs (world s)) (config (self s)) = cfg
              /\ within_caps cfg (self s)).
  { apply (keeps_calls (fun s => cell (configs (world s)) (config (self s)) = cfg
                                 /\ within_caps cfg (self s))).
    - intros c. apply run_keeps_caps.
    - split; [reflexivity | exact Hnew]. }
  destruct H as [-> H]. exact H.
Qed.

(** X10 — the language of an Article is '' or a code of two
    characters, whatever is called on it. *)
Theorem meta_lang_is_code (raw_html : Html)
  (given_title source_url : InitArg) (given_config : option nat)
  (kwargs : list (string * PyVal)) (w w' : World) (a : Article)
  (calls : list Call) :
  __init__ raw_html given_title source_url given_config kwargs w = (w', Ok a) ->
  let s := foldl (fun s c => (run c s).1) (mkState a w') calls in
  meta_lang (self s) = "" \/ String.length (meta_lang (self s)) = 2.
Proof.
  intros Hinit s.
  apply init_fields in Hinit as (_ & _ & _ & _ & _ & _ & _ & Hl & _).
  apply (keeps_calls (fun s => meta_lang (self s) = ""
                               \/ String.length (meta_lang (self s)) = 2)).
  - intros c. apply run_keeps_meta_lang.
  - left. exact Hl.
Qed.

(** X11 — [set_meta_language] changes nothing, or it stores its
    argument as it is: the argument then has two characters and is one
    of the available languages, so the slice [meta_lang[:2]] never
    cuts. *)
Theorem set_meta_language_outcome (lang : string) (s : State) :
  (set_meta_language lang s).1 = s
  \/ ((set_meta_language lang s).1
      = with_self (with_meta_lang lang (self s)) s
      /\ String.length lang = 2
      /\ exists langs,
           get_available_languages (stopword_files (world s)) = Ok langs
           /\ lang ∈ langs).
Proof.
  unfold set_meta_language.
  destruct (_ && _); [|left; reflexivity].
  unfold mbind, M_bind, get_world, lift. cbv beta iota.
  destruct (get_available_languages _) as [langs|e] eqn:Hl;
    [|left; reflexivity].
  case_bool_decide as Hin; [|left; reflexivity].
  pose proof (languages_two_chars _ _ Hl) as Htwo.
  rewrite Forall_forall in Htwo. specialize (Htwo _ Hin).
  rewrite (str_take_all 2 lang) by lia.
  right. cbn. eauto.
Qed.

(** X12 — no call on an Article writes a configuration object,
    rebinds [self.config] or changes the stop word listing, and only
    [set_html] changes the raw HTML. *)
Theorem run_frame (c : Call) (s : State) :
  configs (world (run c s).1) = configs (world s)
  /\ config (self (run c s).1) = config (self s)
  /\ stopword_files (world (run c s).1) = stopword_files (world s)
  /\ (html (self (run c s).1) = html (self s)
      \/ exists h, c = call_set_html h).
Proof.
  destruct (run_keeps_config c _ _ _ s (conj eq_refl (conj eq_refl eq_refl)))
    as (H1 & H2 & H3).
  split; [exact H1|]. split; [exact H2|]. split; [exact H3|].
  pose proof (run_keeps_html c (html (self s))) as H.
  destruct c; try (left; exact (H s eq_refl)); right; eauto.
Qed.

(** X13 — no call empties the text or the article HTML: once one of
    them is not empty, it is not empty after every call. *)
Theorem outputs_stay_nonempty (c : Call) (s : State) :
  (Py.truthy (text (self s)) = true ->
   Py.truthy (text (self (run c s).1)) = true)
  /\ (Py.truthy (article_html (self s)) = true ->
      Py.truthy (article_html (self (run c s).1)) = true).
Proof.
  split; [apply run_keeps_text_nonempty | apply run_keeps_article_html_nonempty].
Qed.

End Reach.

(** ** article.py: the edges of parse *)

Section ParseEdges.
Context {hashlib : Hashlib} {configuration_class : ConfigurationClass}
  {lxml : Lxml} {lib : Collaborators}.

Lemma bind_raise {A B} (m : M A) (f : A -> M B) (s : State) (e : exn) :
  (m s).2 = Raise e -> (m ≫= f) s = ((m s).1, Raise e).
Proof.
  unfold mbind, M_bind. destruct (m s) as [s' [a|e']]; cbn; congruence.
Qed.

(** X14 — when the parser gives no document, [parse] returns at line
    147: [doc] and [clean_doc] are None and nothing else is written,
    [is_parsed] included; when the parser raises, nothing is written
    at all. *)
Theorem parse_without_document (s : State) :
  let cfg := cell (configs (world s)) (config (self s)) in
  (fromstring cfg (html (self s)) = Ok None ->
   parse s
   = (with_self (with_clean_doc None (with_doc None (self s))) s, Ok tt))
  /\ (forall e, fromstring cfg (html (self s)) = Raise e ->
                parse s = (s, Raise e)).
Proof.
  cbv zeta. split; [intros H | intros e H];
    unfold parse, parse_to_score, parser_fromstring, mbind, M_bind, get_self,
      self_config, lift; cbn; rewrite H; reflexivity.
Qed.

(** Without HTML there is no parse candidate: [hashlib.md5] is handed
    a str or None. *)
Lemma get_parse_candidate_empty (s : State) :
  Py.html_truthy (html (self s)) = false ->
  (get_parse_candidate s).2 = Raise TypeError.
Proof.
  intros H. unfold get_parse_candidate, mbind, M_bind, get_self, time_time.
  cbn. rewrite H. destruct (html (self s)); reflexivity.
Qed.

Lemma parse_fields_empty (d c : Ref) (s : State) :
  Py.html_truthy (html (self s)) = false ->
  (parse_fields d c s).2 = Raise TypeError.
Proof.
  intros H. unfold parse_fields.
  rewrite (bind_raise _ _ s TypeError); [reflexivity|].
  apply get_parse_candidate_empty, H.
Qed.

Lemma parse_to_score_empty (s : State) :
  Py.html_truthy (html (self s)) = false ->
  match (parse_to_score s).2 with
  | Ok (Some _) => False
  | Ok None =>
      doc (self (parse_to_score s).1) = None
      /\ forall d,
           fromstring (cell (configs (world s)) (config (self s)))
             (html (self s)) <> Ok (Some d)
  | Raise e =>
      forall d,
        fromstring (cell (configs (world s)) (config (self s))) (html (self s))
        = Ok (Some d) -> e = TypeError
  end.
Proof.
  intros H.
  unfold parse_to_score, parser_fromstring, new_document, deepcopy, assign,
    get_self, self_config, lift, mbind, M_bind, mret, M_ret, alloc.
  cbv beta iota zeta.
  destruct (fromstring _ _) as [[[arena root]|]|e] eqn:Hfs; cbv beta iota zeta.
  - destruct (clone_subtree _ _) as [arena' n']. cbv beta iota zeta.
    lazymatch goal with
    | |- context [parse_fields ?d ?c ?s2] =>
        pose proof (parse_fields_empty d c s2 H) as Hpf;
        destruct (parse_fields d c s2) as [s3 r]
    end.
    cbn in Hpf. subst r. cbn. intros d _. reflexivity.
  - cbn. split; [reflexivity | discriminate].
  - cbn. intros d Hd. discriminate.
Qed.

(** X15 — an Article without HTML ('' or None, or empty bytes) is never
    parsed by [parse]: when the parser gives a document, the call ends
    with the TypeError of [get_parse_candidate]; it can only return by
    the early return of line 147; and either way [is_parsed] and the
    text are what they were. *)
Theorem parse_empty_html (s : State) :
  Py.html_truthy (html (self s)) = false ->
  is_parsed (self (parse s).1) = is_parsed (self s)
  /\ text (self (parse s).1) = text (self s)
  /\ ((parse s).2 = Ok tt -> doc (self (parse s).1) = None)
  /\ (forall d,
        fromstring (cell (configs (world s)) (config (self s))) (html (self s))
        = Ok (Some d) ->
        (parse s).2 = Raise TypeError).
Proof.
  intros H.
  pose proof (parse_to_score_empty s H) as Hscore.
  pose proof (parse_to_score_frame (text (self s)) (article_html (self s))
                (clean_top_node (self s)) (is_parsed (self s)) s) as Hframe.
  unfold parse, mbind, M_bind.
  destruct (parse_to_score s) as [s1 [[x|]|e]]; cbn in *.
  - contradiction.
  - destruct Hframe as (Ht & _ & _ & Hp); [auto|].
    destruct Hscore as [Hdoc Hnone].
    repeat split; auto. intros d Hd. destruct (Hnone d Hd).
  - destruct Hframe as (Ht & _ & _ & Hp); [auto|].
    repeat split; auto; [discriminate|].
    intros d Hd. rewrite (Hscore d Hd). reflexivity.
Qed.

(** Up to the scorer, [parse] leaves what an earlier run has put out. *)
Lemma parse_to_score_outputs (t h : string) (c : option Ref)
  (m : list string) :
  keeps (fun s => text (self s) = t /\ article_html (self s) = h
                  /\ clean_top_node (self s) = c /\ movies (self s) = m)
        parse_to_score.
Proof. unfold parse_to_score. keeps_walk. Qed.

(** X16 — a run of [parse] in which the scorer finds no node sets
    [is_parsed], leaves no top node, and leaves the text, the article
    HTML, the snapshot and the movies as they were: after a second
    [parse], on other HTML, they are still those of the first.  The
    run ends as making sure of the resource directory does. *)
Theorem parse_keeps_stale_outputs (s s1 : State)
  (output_formatter : Formatter) :
  parse_to_score s = (s1, Ok (Some (output_formatter, None))) ->
  exists s2,
    parse s = (s2, match resource_directory_error (world s) with
                   | Some error => Raise error
                   | None => Ok tt
                   end)
    /\ is_parsed (self s2) = true
    /\ top_node (self s2) = None
    /\ text (self s2) = text (self s)
    /\ article_html (self s2) = article_html (self s)
    /\ clean_top_node (self s2) = clean_top_node (self s)
    /\ movies (self s2) = movies (self s).
Proof.
  intros Hscore.
  pose proof (parse_to_score_post s Logic.I) as Hpost.
  pose proof (parse_to_score_outputs (text (self s)) (article_html (self s))
                (clean_top_node (self s)) (movies (self s)) s) as Hframe.
  pose proof (parse_to_score_files _ s eq_refl) as Hfiles.
  rewrite Hscore in Hpost, Hframe, Hfiles. cbn in Hpost, Hframe, Hfiles.
  destruct Hpost as (Htop & Hlink & _).
  destruct Hframe as (Ht1 & Hh1 & Hc1 & Hm1); [cbn; auto|].
  set (s1' := with_self (with_is_parsed true (self s1)) s1).
  assert (Hrel := release_resources_outcome s1' Hlink).
  assert (Hself := release_resources_self (self s1') s1' eq_refl).
  exists (release_resources s1').1.
  split.
  - unfold parse, mbind, M_bind. rewrite Hscore. cbn. fold s1'.
    destruct (release_resources s1') as [s2 r]. cbn in *. subst r.
    rewrite Hfiles. reflexivity.
  - rewrite Hself. cbn. repeat split; assumption.
Qed.

End ParseEdges.

(** ** article.py: the resource directory and the files *)

Section Resources.
Context {hashlib : Hashlib} {configuration_class : ConfigurationClass}
  {lxml : Lxml} {lib : Collaborators}.

(** X17 — [get_resource_path] leaves the Article alone and touches no
    path but the resource directory.  Making sure of the directory
    comes before [link_hash] is read: when [os.mkdir] refuses, the
    call raises that exception and the files are as they were, also
    for an Article that has no [link_hash]; otherwise the directory is
    there afterwards, as it was or newly made, and the call returns
    the path of the Article, or raises AttributeError for want of a
    [link_hash]. *)
Theorem get_resource_path_effect (s : State) :
  let s' := (get_resource_path s).1 in
  self s' = self s
  /\ (forall p, p <> resource_directory ->
                fs (world s') !! p = fs (world s) !! p)
  /\ match resource_directory_error (world s) with
     | Some error =>
         (get_resource_path s).2 = Raise error
         /\ fs (world s') = fs (world s)
     | None =>
         os.path_exists resource_directory (fs (world s')) = true
         /\ fs (world s') !! resource_directory
            = Some (default Dir (fs (world s) !! resource_directory))
         /\ (get_resource_path s).2
            = match link_hash (self s) with
              | Some h => Ok (Py.path_join resource_directory (h +:+ "_"))
              | None => Raise AttributeError
              end
     end.
Proof.
  cbv zeta. rewrite get_resource_path_run. unfold resource_directory_error.
  cbv zeta. generalize resource_directory. intros dir.
  destruct (os.path_exists dir (fs (world s))) eqn:Hex.
  - cbn. repeat split; [exact Hex|].
    unfold os.path_exists in Hex. apply andb_prop in Hex as [_ Hex].
    apply bool_decide_eq_true_1 in Hex as [x ->]. reflexivity.
  - unfold os.mkdir, os.path_exists in *.
    destruct (os.has_nul dir); cbn in *; [auto|].
    apply bool_decide_eq_false_1 in Hex.
    destruct (fs (world s) !! dir) as [x|] eqn:Hdir;
      [exfalso; apply Hex; eauto|].
    destruct (mkdir_error _ _ _); cbn; [auto|].
    rewrite lookup_insert_eq.
    split; [reflexivity|]. split; [|auto].
    intros p Hp. apply lookup_insert_ne. congruence.
Qed.

(** What the loop of [release_resources] does to the files: an entry
    that changes was a file and is gone. *)
Lemma for_each_remove_effect (l : list string) (s : State) :
  let s' := (for_each l (fun fname =>
                           except_OSError (os_remove fname)
                             (fun _ => mret tt)) s).1 in
  self s' = self s
  /\ forall q,
       fs (world s') !! q = fs (world s) !! q
       \/ (q ∈ l /\ fs (world s') !! q = None
           /\ exists c, fs (world s) !! q = Some (File c)).
Proof.
  revert s. induction l as [|f l IH]; intros s; cbv zeta.
  - cbn. auto.
  - cbn [for_each].
    lazymatch goal with
    | |- context [(?m ≫= ?k) s] =>
        change ((m ≫= k) s)
          with (let '(s1, r) := m s in
                match r with Ok a => k a s1 | Raise e => (s1, Raise e) end)
    end.
    assert (Hstep :
              let r := except_OSError (os_remove f) (fun _ => mret tt) s in
              self r.1 = self s
              /\ forall q,
                   fs (world r.1) !! q = fs (world s) !! q
                   \/ (q = f /\ fs (world r.1) !! q = None
                       /\ exists c, fs (world s) !! q = Some (File c))).
    { unfold except_OSError, os_remove, os.remove. cbv zeta.
      destruct (os.has_nul f); [cbn; auto|].
      destruct (fs (world s) !! f) as [[c|]|] eqn:Hf; cbn; auto.
      destruct (remove_error _ _ _); cbn; auto.
      split; [reflexivity|]. intros q. destruct (decide (q = f)) as [->|Hne].
      - right. rewrite lookup_delete_eq. eauto.
      - left. apply lookup_delete_ne. congruence. }
    cbv zeta in Hstep.
    destruct (except_OSError (os_remove f) (fun _ => mret tt) s)
      as [s1 r]. cbn in Hstep. destruct Hstep as (Hself & Hfs).
    destruct r as [[]|e]; cbv beta iota.
    + destruct (IH s1) as [Hself' Hfs']. split; [congruence|].
      intros q. destruct (Hfs q) as [Heq|(Hq & Hnone & c & Hc)],
                         (Hfs' q) as [Heq'|(Hin & Hnone' & c' & Hc')].
      * left. congruence.
      * right. split; [right; exact Hin|]. split; [exact Hnone'|].
        exists c'. congruence.
      * right. split; [rewrite Hq; left|]. split; [congruence | eauto].
      * congruence.
    + split; [exact Hself|]. intros q.
      destruct (Hfs q) as [Heq|(Hq & Hnone & c & Hc)]; [left; exact Heq|].
      right. split; [rewrite Hq; left|]. eauto.
Qed.

(** What the glob of a path without pattern characters gives. *)
Lemma glob_plain (fnmatch : string -> string -> bool) (p q : string)
  (files : gmap string FsEntry) :
  os.has_magic p = false -> q ∈ os.glob fnmatch p files -> q = p.
Proof.
  intros Hmagic. unfold os.glob. rewrite Hmagic.
  destruct (os.path_exists p files); [|inversion 1].
  intros H. apply list_elem_of_singleton in H. exact H.
Qed.

(** What [get_resource_path] does to the files. *)
Lemma get_resource_path_files (s : State) :
  let s' := (get_resource_path s).1 in
  self s' = self s
  /\ forall q,
       fs (world s') !! q = fs (world s) !! q
       \/ (q = resource_directory /\ fs (world s) !! q = None
           /\ fs (world s') !! q = Some Dir).
Proof.
  cbv zeta. rewrite get_resource_path_run. cbv zeta.
  generalize resource_directory. intros dir.
  destruct (os.path_exists dir (fs (world s))); [cbn; auto|].
  unfold os.mkdir. destruct (os.has_nul dir); [cbn; auto|].
  destruct (fs (world s) !! dir) as [x|] eqn:Hdir; [cbn; auto|].
  destruct (mkdir_error _ _ _); cbn; [auto|].
  split; [reflexivity|]. intros q. destruct (decide (q = dir)) as [->|Hne].
  - right. rewrite lookup_insert_eq. auto.
  - left. apply lookup_insert_ne. congruence.
Qed.

(** When [get_resource_path] returns, it returns the path of the
    Article and the resource directory is there. *)
Lemma get_resource_path_effect_dir (s : State) :
  forall x, (get_resource_path s).2 = Ok x ->
    (forall h, link_hash (self s) = Some h ->
               x = Py.path_join resource_directory (h +:+ "_"))
    /\ os.path_exists resource_directory (fs (world (get_resource_path s).1))
       = true.
Proof.
  intros x. rewrite get_resource_path_run. cbv zeta.
  generalize resource_directory. intros dir.
  destruct (os.path_exists dir (fs (world s))) eqn:Hex; cbn.
  - intros Hx. split; [|exact Hex]. intros h Hh. rewrite Hh in Hx. congruence.
  - unfold os.mkdir, os.path_exists. destruct (os.has_nul dir); [discriminate|].
    destruct (fs (world s) !! dir); [discriminate|].
    destruct (mkdir_error _ _ _); [discriminate|]. cbn.
    intros Hx. split.
    + intros h Hh. rewrite Hh in Hx. congruence.
    + rewrite lookup_insert_eq. apply bool_decide_eq_true_2. eauto.
Qed.

(** What [release_resources] does to the files. *)
Lemma release_resources_files (s : State) :
  let s' := (release_resources s).1 in
  self s' = self s
  /\ forall q,
       fs (world s') !! q = fs (world s) !! q
       \/ (q = resource_directory /\ fs (world s) !! q = None
           /\ fs (world s') !! q = Some Dir)
       \/ (fs (world s') !! q = None
           /\ exists c, fs (world s) !! q = Some (File c)).
Proof.
  cbv zeta. unfold release_resources.
  lazymatch goal with
  | |- context [(?m ≫= ?k) s] =>
      change ((m ≫= k) s)
        with (let '(s1, r) := m s in
              match r with Ok a => k a s1 | Raise e => (s1, Raise e) end)
  end.
  pose proof (get_resource_path_files s) as Hget. cbv zeta in Hget.
  revert Hget. generalize resource_directory. intros dir.
  destruct (get_resource_path s) as [s1 [x|e]]; cbn; intros [Hself Hfs].
  - unfold mbind, M_bind, glob_glob.
    destruct (for_each_remove_effect
                (os.glob (fnmatch (world s1)) x (fs (world s1))) s1)
      as [Hself' Hfs'].
    split; [congruence|]. intros q.
    destruct (Hfs' q) as [Heq|(Hin & Hnone & c & Hc)].
    + rewrite Heq. destruct (Hfs q) as [H|H]; auto.
    + destruct (Hfs q) as [H|(_ & _ & H)]; [|congruence].
      right. right. split; [exact Hnone|]. exists c. congruence.
  - split; [exact Hself|]. intros q. destruct (Hfs q) as [H|H]; auto.
Qed.

(** X18 — [release_resources], once [link_hash] is set, ends as making
    sure of the resource directory does: an OSError of [os.remove] is
    passed over, the exception of [os.mkdir] is not.  It leaves the
    Article alone; it makes nothing but the resource directory, and
    removes nothing but files: an entry that changes is the new
    resource directory, or was a file and is gone; and when the path
    of the Article holds no pattern character, no file but the one at
    that path is removed. *)
Theorem release_resources_effect (s : State) (h : string) :
  link_hash (self s) = Some h ->
  let p := Py.path_join resource_directory (h +:+ "_") in
  let s' := (release_resources s).1 in
  (release_resources s).2
  = match resource_directory_error (world s) with
    | Some error => Raise error
    | None => Ok tt
    end
  /\ self s' = self s
  /\ (forall q,
        fs (world s') !! q = fs (world s) !! q
        \/ (q = resource_directory /\ fs (world s) !! q = None
            /\ fs (world s') !! q = Some Dir)
        \/ (fs (world s') !! q = None
            /\ exists c, fs (world s) !! q = Some (File c)
                         /\ (os.has_magic p = false -> q = p))).
Proof.
  intros Hh. cbv zeta.
  split; [apply release_resources_outcome; rewrite Hh; eauto|].
  unfold release_resources.
  lazymatch goal with
  | |- context [(?m ≫= ?k) s] =>
      change ((m ≫= k) s)
        with (let '(s1, r) := m s in
              match r with Ok a => k a s1 | Raise e => (s1, Raise e) end)
  end.
  pose proof (get_resource_path_files s) as Hget. cbv zeta in Hget.
  assert (Hpath : forall x, (get_resource_path s).2 = Ok x ->
                            x = Py.path_join resource_directory (h +:+ "_")).
  { rewrite get_resource_path_run, Hh. cbv zeta. intros x.
    destruct (os.path_exists _ _); [cbn; congruence|].
    destruct (os.mkdir _ _ _) as [files [[]|e]]; cbn; congruence. }
  revert Hget Hpath. generalize resource_directory. intros dir.
  destruct (get_resource_path s) as [s1 [x|e]]; cbn; intros [Hself Hfs] Hpath.
  - rewrite <- (Hpath x eq_refl). clear Hpath.
    unfold mbind, M_bind, glob_glob.
    destruct (for_each_remove_effect
                (os.glob (fnmatch (world s1)) x (fs (world s1))) s1)
      as [Hself' Hfs'].
    split; [congruence|]. intros q.
    destruct (Hfs' q) as [Heq|(Hin & Hnone & c & Hc)].
    + rewrite Heq. destruct (Hfs q) as [H|H]; auto.
    + destruct (Hfs q) as [H|(_ & _ & H)]; [|congruence].
      right. right. split; [exact Hnone|]. exists c.
      split; [congruence|]. intros Hmagic.
      eapply glob_plain; eassumption.
  - split; [exact Hself|]. intros q. destruct (Hfs q) as [H|H]; auto.
Qed.

(** [build_resource_path], when it returns: the resource directory
    and the directory of the Article are there, the second as it was,
    whatever it was, or newly made. *)
Lemma build_resource_path_returns (s : State) (h : string) :
  link_hash (self s) = Some h ->
  (build_resource_path s).2 = Ok tt ->
  let p := Py.path_join resource_directory (h +:+ "_") in
  let s1 := (build_resource_path s).1 in
  self s1 = self s
  /\ resource_directory_error (world s1) = None
  /\ os.path_exists p (fs (world s1)) = true
  /\ fs (world s1) !! p = Some (default Dir (fs (world s) !! p)).
Proof.
  intros Hh. unfold build_resource_path, resource_directory_error.
  lazymatch goal with
  | |- context [(?m ≫= ?k) s] =>
      change ((m ≫= k) s)
        with (let '(s1, r) := m s in
              match r with Ok a => k a s1 | Raise e => (s1, Raise e) end)
  end.
  pose proof (get_resource_path_files s) as Hfiles.
  assert (Hdir : forall x, (get_resource_path s).2 = Ok x ->
            x = Py.path_join resource_directory (h +:+ "_")
            /\ os.path_exists resource_directory
                 (fs (world (get_resource_path s).1)) = true).
  { intros x Hx. destruct (get_resource_path_effect_dir s x Hx) as [H1 H2].
    split; [apply H1, Hh | exact H2]. }
  cbv zeta in *. revert Hfiles Hdir.
  generalize resource_directory. intros dir.
  set (p := Py.path_join dir (h +:+ "_")). clearbody p.
  destruct (get_resource_path s) as [s1 [x|e]];
    cbn; intros [Hself Hfs] Hdir; [|discriminate].
  specialize (Hdir x eq_refl) as [-> Hdir].
  unfold mbind, M_bind, os_path_exists. cbn.
  assert (Hp : os.path_exists p (fs (world s1)) = true ->
               fs (world s1) !! p = Some (default Dir (fs (world s) !! p))).
  { unfold os.path_exists. intros H. apply andb_prop in H as [_ H].
    apply bool_decide_eq_true_1 in H as [y Hy].
    destruct (Hfs p) as [Heq|(_ & -> & ->)]; [|reflexivity].
    rewrite <- Heq, Hy. reflexivity. }
  destruct (os.path_exists p (fs (world s1))) eqn:Hex; cbn.
  - intros _. rewrite Hdir. auto.
  - unfold os_mkdir, os.mkdir. cbv zeta.
    unfold os.path_exists in Hex |- *.
    destruct (os.has_nul p) eqn:Hnul; [discriminate|]. cbn in Hex.
    apply bool_decide_eq_false_1 in Hex.
    destruct (fs (world s1) !! p) as [y|] eqn:Hy; [exfalso; apply Hex; eauto|].
    destruct (mkdir_error _ _ _); [discriminate|]. cbn. intros _.
    split; [exact Hself|].
    assert (Hdir' : os.path_exists dir (<[p:=Dir]> (fs (world s1))) = true).
    { unfold os.path_exists in Hdir |- *.
      apply andb_prop in Hdir as [Hn Hd]. rewrite Hn. cbn.
      apply bool_decide_eq_true_1 in Hd as [z Hz].
      apply bool_decide_eq_true_2.
      destruct (decide (dir = p)) as [->|Hne].
      - rewrite lookup_insert_eq. eauto.
      - rewrite lookup_insert_ne by congruence. eauto. }
    unfold os.path_exists in Hdir'. rewrite Hdir'.
    split; [reflexivity|]. rewrite lookup_insert_eq.
    split; [apply bool_decide_eq_true_2; eauto|].
    destruct (Hfs p) as [Heq|(_ & _ & Hsome)]; [|congruence].
    rewrite <- Heq, Hy. reflexivity.
Qed.

(** X19 — [build_resource_path] and then [release_resources]: when the
    first returns, so does the second, and an entry at the path of the
    Article that is no file (a directory, as it was or newly made) is
    still there afterwards; a file at that path is gone, or is still
    there when the loop did not come to it or [os.remove] refused. *)
Theorem build_release_resources (s : State) (h : string) :
  link_hash (self s) = Some h ->
  (build_resource_path s).2 = Ok tt ->
  let p := Py.path_join resource_directory (h +:+ "_") in
  let r := (build_resource_path ≫= fun _ => release_resources) s in
  r.2 = Ok tt
  /\ self r.1 = self s
  /\ match fs (world s) !! p with
     | Some (File content) =>
         fs (world r.1) !! p = None
         \/ fs (world r.1) !! p = Some (File content)
     | _ => fs (world r.1) !! p = Some Dir
     end.
Proof.
  intros Hh Hbuild.
  destruct (build_resource_path_returns s h Hh Hbuild)
    as (Hself & Herr & _ & Hp).
  cbv zeta.
  lazymatch goal with
  | |- context [(?m ≫= ?k) s] =>
      change ((m ≫= k) s)
        with (let '(s1, r) := m s in
              match r with Ok a => k a s1 | Raise e => (s1, Raise e) end)
  end.
  revert Hp. generalize (Py.path_join resource_directory (h +:+ "_")).
  intros p Hp.
  destruct (build_resource_path s) as [s1 r]. cbn in *. subst r.
  assert (Hh1 : link_hash (self s1) = Some h) by congruence.
  pose proof (release_resources_outcome s1 (ex_intro _ h Hh1)) as Hout.
  rewrite Herr in Hout.
  pose proof (release_resources_files s1) as [Hself' Hfs].
  split; [exact Hout|]. split; [congruence|].
  destruct (Hfs p) as [Heq|[(_ & Hnone & _)|(Hnone & c & Hc)]].
  - rewrite Heq, Hp. destruct (fs (world s) !! p) as [[c|]|]; cbn; auto.
  - congruence.
  - rewrite Hnone. rewrite Hp in Hc.
    destruct (fs (world s) !! p) as [[c'|]|]; cbn in Hc; [auto|discriminate..].
Qed.

(** X20 — [_parse_scheme_file] returns the content of a file that can
    be read as text, and changes nothing; when the read ends with an
    OSError (no such file, a directory, no permission), it returns
    None and leaves the message of the error in
    [download_exception_msg]; any other exception of the read leaves
    the method: the ValueError of a path that holds a NUL character,
    the UnicodeDecodeError of bytes that are no text. *)
Theorem parse_scheme_file_outcome (path : string) (s : State) :
  let failed strerror :=
    (with_self (with_download_exception_msg (Some strerror) (self s)) s,
     Ok None) in
  _parse_scheme_file path s
  = if os.has_nul path then (s, Raise ValueError)
    else
      match fs (world s) !! path with
      | Some (File (Ok content)) => (s, Ok (Some content))
      | Some (File (Raise (OSError strerror))) => failed strerror
      | Some (File (Raise e)) => (s, Raise e)
      | Some Dir => failed "Is a directory"
      | None => failed "No such file or directory"
      end.
Proof.
  unfold _parse_scheme_file, except_OSError, open_read, os.read, mbind, M_bind.
  cbn. destruct (os.has_nul path); [reflexivity|].
  destruct (fs (world s) !! path) as [[[c|[]]|]|]; reflexivity.
Qed.

End Resources.

(** ** Python primitives: strip *)

Lemma lstrip_head (s : string) :
  match Py.lstrip s with
  | EmptyString => True
  | String c _ => Py.is_space c = false
  end.
Proof.
  induction s as [|c r IH]; simpl; [exact Logic.I|].
  destruct (Py.is_space c) eqn:Hc; [exact IH | exact Hc].
Qed.

Lemma rstrip_head (c : ascii) (r : string) :
  Py.is_space c = false -> exists r', Py.rstrip (String c r) = String c r'.
Proof.
  intros Hc. simpl. destruct (Py.rstrip r); [rewrite Hc|]; eauto.
Qed.

Lemma rstrip_idemp (s : string) : Py.rstrip (Py.rstrip s) = Py.rstrip s.
Proof.
  induction s as [|c r IH]; simpl; [reflexivity|].
  destruct (Py.rstrip r) as [|c' r'] eqn:Hr.
  - destruct (Py.is_space c) eqn:Hc; simpl; [reflexivity|].
    rewrite Hc. reflexivity.
  - change (Py.rstrip (String c (String c' r'))) with
      (match Py.rstrip (String c' r') with
       | EmptyString =>
           if Py.is_space c then EmptyString else String c EmptyString
       | r'' => String c r''
       end).
    rewrite IH. reflexivity.
Qed.

(** A stripped str is unchanged by [strip]. *)
Lemma strip_idemp (s : string) : Py.strip (Py.strip s) = Py.strip s.
Proof.
  unfold Py.strip.
  assert (H : Py.lstrip (Py.rstrip (Py.lstrip s)) = Py.rstrip (Py.lstrip s)).
  { pose proof (lstrip_head s) as Hh.
    destruct (Py.lstrip s) as [|c r]; [reflexivity|].
    destruct (rstrip_head c r Hh) as [r' ->]. simpl. rewrite Hh. reflexivity. }
  rewrite H. apply rstrip_idemp.
Qed.

Lemma In_lstrip (c : ascii) (s : string) :
  In c (list_ascii_of_string (Py.lstrip s)) -> In c (list_ascii_of_string s).
Proof.
  induction s as [|c' r IH]; simpl; [auto|].
  destruct (Py.is_space c'); simpl; auto.
Qed.

Lemma In_rstrip (c : ascii) (s : string) :
  In c (list_ascii_of_string (Py.rstrip s)) -> In c (list_ascii_of_string s).
Proof.
  induction s as [|c' r IH]; simpl; [auto|].
  destruct (Py.rstrip r) as [|c'' r'].
  - destruct (Py.is_space c'); simpl; tauto.
  - simpl in *. tauto.
Qed.

(** No piece of a split holds the separator. *)
Lemma split_pieces (sep : ascii) (s : string) :
  Forall (fun piece => ~ In sep (list_ascii_of_string piece)) (Py.split sep s).
Proof.
  induction s as [|c r IH]; simpl.
  - constructor; [simpl; tauto | constructor].
  - destruct (Ascii.eqb_spec c sep) as [->|Hne].
    + constructor; [simpl; tauto | exact IH].
    + destruct (Py.split sep r) as [|hd tl]; [constructor; [|constructor]|].
      * simpl. intros [H|[]]. congruence.
      * inversion IH as [|? ? Hhd Htl]; subst.
        constructor; [|exact Htl]. simpl. intros [H|H]; [congruence | tauto].
Qed.

Lemma length_omap_le {A B} (f : A -> option B) (l : list A) :
  length (omap f l) <= length l.
Proof.
  induction l as [|x l IH]; csimpl; [lia|].
  destruct (f x); csimpl; lia.
Qed.

(** ** article.py: setters and construction *)

Section Setters.
Context {hashlib : Hashlib} {configuration_class : ConfigurationClass}
  {lxml : Lxml} {lib : Collaborators}.

(** X22 — [set_meta_keywords] stores one keyword more than there are
    commas, never the empty list; each keyword is stripped and holds
    no comma. *)
Theorem set_meta_keywords_shape (meta_keywords_in : string) (s : State) :
  let ks := meta_keywords (self (set_meta_keywords meta_keywords_in s).1) in
  length ks
  = S (length (filter (fun c => c = ","%char)
                      (list_ascii_of_string meta_keywords_in)))
  /\ Forall (fun k => Py.strip k = k
                      /\ ~ In ","%char (list_ascii_of_string k)) ks.
Proof.
  cbn. split.
  - rewrite length_fmap. apply length_split.
  - apply Forall_fmap. eapply Forall_impl; [apply split_pieces|].
    intros piece Hp. cbn. split; [apply strip_idemp|].
    intros Hin. apply Hp. unfold Py.strip in Hin.
    apply In_lstrip, In_rstrip, Hin.
Qed.

(** X23 — [set_movies] stores exactly the non-empty [src] of the
    objects, and no more urls than there are objects. *)
Theorem set_movies_srcs (movie_objects : list (option Video)) (s : State) :
  let ms := movies (self (set_movies movie_objects s).1) in
  (forall u, u ∈ ms
             <-> Py.truthy u = true /\ Some (mkVideo (Some u)) ∈ movie_objects)
  /\ length ms <= length movie_objects.
Proof.
  cbn. split; [|apply length_omap_le].
  intros u. unfold movie_urls. rewrite list_elem_of_omap. split.
  - intros ([[[u'|]]|] & Hin & Hf); cbn in Hf; try discriminate.
    destruct (Py.truthy u') eqn:Ht; [|discriminate].
    injection Hf as ->. auto.
  - intros [Ht Hin]. exists (Some (mkVideo (Some u))). split; [exact Hin|].
    cbn. rewrite Ht. reflexivity.
Qed.

(** What [__init__] leaves in the configuration object of the new
    Article: what the loop of [extend_config] made of it. *)
Lemma init_config_object (raw_html : Html) (given_title source_url : InitArg)
  (given_config : option nat) (kwargs : list (string * PyVal))
  (w w' : World) (a : Article) :
  __init__ raw_html given_title source_url given_config kwargs w = (w', Ok a) ->
  config a = default (next (configs w)) given_config
  /\ cell (configs w') (config a)
     = (extend_attrs match given_config with
                     | Some c => cell (configs w) c
                     | None => Configuration
                     end kwargs).1
  /\ (forall other, other <> config a ->
                    cell (configs w') other = cell (configs w) other)
  /\ next (configs w')
     = match given_config with
       | Some _ => next (configs w)
       | None => S (next (configs w))
       end.
Proof.
  unfold __init__.
  destruct (is_Configuration given_title || is_Configuration source_url);
    [discriminate|].
  destruct given_config as [c|]; cbn;
    match goal with
    | |- context [extend_config ?c ?k ?cs] =>
        pose proof (extend_config_store c k cs) as Hstore;
        destruct (extend_config c k cs) as [cs' [c'|e]]
    end; cbn in Hstore |- *; intros [= <- <-];
    rewrite ?Nat.eqb_refl in Hstore;
    destruct Hstore as (Hcell & Hother & Hnext & Hret);
    destruct (extend_attrs _ _) as [attrs [[]|e]]; cbn in *;
    try discriminate; injection Hret as ->; cbn.
  - rewrite Hcell, Hnext. auto.
  - rewrite Hcell, Hnext. repeat split; try reflexivity.
    intros other Hne. rewrite (Hother other Hne).
    apply Nat.eqb_neq in Hne. rewrite Hne. reflexivity.
Qed.

(** X24 — Articles built on the same configuration object share it:
    what the keyword arguments of the second make of the object is
    what the first has afterwards; on names that the class leaves to
    the instance, an attribute named once by the second holds the
    value given for it. *)
Theorem init_shared_config (html1 html2 : Html)
  (title1 url1 title2 url2 : InitArg) (kwargs1 kwargs2 : list (string * PyVal))
  (c : nat) (w w1 w2 : World) (a1 a2 : Article) :
  __init__ html1 title1 url1 (Some c) kwargs1 w = (w1, Ok a1) ->
  __init__ html2 title2 url2 (Some c) kwargs2 w1 = (w2, Ok a2) ->
  config a1 = config a2
  /\ cell (configs w2) (config a1)
     = (extend_attrs (cell (configs w1) (config a1)) kwargs2).1
  /\ (Forall plain kwargs2.*1 ->
      forall key val,
        NoDup kwargs2.*1 -> (key, val) ∈ kwargs2 ->
        is_Some (cell (configs w1) (config a1) !! key) ->
        cell (configs w2) (config a1) !! key = Some val).
Proof.
  intros H1 H2.
  apply init_config_object in H1 as (Hc1 & _).
  apply init_config_object in H2 as (Hc2 & Hcell & _).
  cbn in Hc1, Hc2. rewrite Hc2 in Hcell. rewrite Hc1.
  split; [congruence|]. split; [exact Hcell|].
  intros Hplain key val Hnd Hin [old Hold]. rewrite Hcell.
  destruct (extend_attrs_plain (cell (configs w1) c) kwargs2 Hplain)
    as [_ Hlook].
  rewrite Hlook, Hold. rewrite (last_binding_NoDup key val) by assumption.
  reflexivity.
Qed.

(** X25 — Articles built without a configuration each have an object
    of their own, a [Configuration()] that the keyword arguments have
    gone over: building the second changes nothing for the first, and
    building one changes no object that was there; on names that the
    class leaves to the instance, the object has the attributes of
    [Configuration()], no more and no fewer. *)
Theorem init_fresh_config (html1 html2 : Html)
  (title1 url1 title2 url2 : InitArg) (kwargs1 kwargs2 : list (string * PyVal))
  (w w1 w2 : World) (a1 a2 : Article) :
  __init__ html1 title1 url1 None kwargs1 w = (w1, Ok a1) ->
  __init__ html2 title2 url2 None kwargs2 w1 = (w2, Ok a2) ->
  config a1 <> config a2
  /\ cell (configs w2) (config a1) = cell (configs w1) (config a1)
  /\ (forall other, other <> config a1 ->
                    cell (configs w1) other = cell (configs w) other)
  /\ cell (configs w1) (config a1) = (extend_attrs Configuration kwargs1).1
  /\ (Forall plain kwargs1.*1 ->
      forall key, is_Some (cell (configs w1) (config a1) !! key)
                  <-> is_Some (Configuration !! key)).
Proof.
  intros H1 H2.
  apply init_config_object in H1 as (Hc1 & Hcell1 & Hother1 & Hnext1).
  apply init_config_object in H2 as (Hc2 & _ & Hother2 & _).
  cbn in Hc1, Hc2.
  assert (Hne : config a1 <> config a2) by (rewrite Hc1, Hc2, Hnext1; lia).
  split; [exact Hne|]. split; [apply Hother2; exact Hne|].
  split; [exact Hother1|]. split; [exact Hcell1|].
  intros Hplain key. rewrite Hcell1.
  destruct (extend_attrs_plain Configuration kwargs1 Hplain) as [_ Hlook].
  rewrite Hlook.
  destruct (Configuration !! key); split; intros [x Hx]; eauto; discriminate.
Qed.

End Setters.

(** ** article.py: the validity check, in full *)

Section Validity.
Context {hashlib : Hashlib} {configuration_class : ConfigurationClass}
  {lxml : Lxml} {lib : Collaborators}.

Lemma extractor_get_meta_type_reads (t : string) (ti : option string)
  (h : Html) (cfg : ConfigObj) :
  keeps (fun s => text (self s) = t /\ title (self s) = ti
                  /\ html (self s) = h
                  /\ cell (configs (world s)) (config (self s)) = cfg)
        extractor_get_meta_type.
Proof. keeps_walk. Qed.

(** X21 — on a parsed Article whose limits are integers,
    [is_valid_body] returns True exactly when the meta type is
    'article' and the words are more than MIN_WORD_COUNT, or the title
    has two words, the words and the sentences are not fewer than
    their limits and the HTML is neither None nor ''. *)
Theorem is_valid_body_decides (s : State) (meta_type : string)
  (min_words min_sents : Z) :
  is_parsed (self s) = true ->
  (extractor_get_meta_type s).2 = Ok meta_type ->
  getattr (cell (configs (world s)) (config (self s))) "MIN_WORD_COUNT"
  = Ok (VInt min_words) ->
  getattr (cell (configs (world s)) (config (self s))) "MIN_SENT_COUNT"
  = Ok (VInt min_sents) ->
  let words := Z.of_nat (length (Py.split " " (text (self s)))) in
  let sents := Z.of_nat (length (Py.split "." (text (self s)))) in
  (is_valid_body s).2
  = Ok ((String.eqb meta_type "article" && (min_words <? words)%Z)
        || (match title (self s) with
            | Some t => (2 <=? length (Py.split " " t))%nat
            | None => false
            end
            && (min_words <=? words)%Z
            && (min_sents <=? sents)%Z
            && match html (self s) with
               | HNone | HStr EmptyString => false
               | _ => true
               end)).
Proof.
  intros Hparsed Hmeta Hwords Hsents. cbv zeta.
  pose proof (extractor_get_meta_type_reads (text (self s)) (title (self s))
                (html (self s))
                (cell (configs (world s)) (config (self s))) s) as Hframe.
  rewrite !Z.leb_antisym.
  assert (Htwo : forall n, (2 <=? n)%nat = negb (n <=? 1)%nat)
    by (intros [|[|n]]; reflexivity).
  match goal with |- _ = ?rhs => set (expected := rhs) end.
  unfold is_valid_body, mbind, M_bind, get_self. cbn. rewrite Hparsed. cbn.
  destruct (extractor_get_meta_type s) as [s1 r]. cbn in *. subst r.
  destruct Hframe as (Htext & Htitle & Hhtml & Hcfg); [auto|].
  rewrite Htext, Htitle, Hhtml.
  unfold config_attr, mbind, M_bind, self_config, lift, Py.int_gt, Py.int_lt.
  subst expected.
  destruct (String.eqb meta_type "article"); cbn;
    rewrite ?Hcfg, ?Hwords; cbn;
    try (destruct (min_words <? _)%Z; cbn; [reflexivity|]);
    (destruct (title (self s)) as [t|]; cbn; [|reflexivity]);
    rewrite Htwo;
    (destruct (length (Py.split " " t) <=? 1)%nat; cbn; [reflexivity|]);
    rewrite ?Hcfg, ?Hwords; cbn;
    (destruct (_ <? min_words)%Z; cbn; [reflexivity|]);
    rewrite ?Hcfg, ?Hsents; cbn;
    (destruct (_ <? min_sents)%Z; cbn; [reflexivity|]);
    destruct (html (self s)) as [|[|c h]|b]; reflexivity.
Qed.

End Validity.
(** ** The model at work on the small instance *)

#[local] Existing Instance Toy.hashlib.
#[local] Existing Instance Toy.configuration_class.
#[local] Existing Instance Toy.lxml.
#[local] Existing Instance Toy.lib.

(** A pair is known by its first component and the value of its second. *)
Lemma pair_of_snd {A B} (p : A * B) (b : B) : p.2 = b -> p = (p.1, b).
Proof. destruct p. simpl. intros ->. reflexivity. Qed.

(** The state [Toy.article_in] is the one [__init__] builds, when it
    builds one. *)
Lemma built_article (w : World) (html title : string)
  (kwargs : list (string * PyVal)) :
  (exists a, (Toy.built_in w html title kwargs).2 = Ok a) ->
  Toy.built_in w html title kwargs
  = (world (Toy.article_in w html title kwargs),
     Ok (self (Toy.article_in w html title kwargs))).
Proof.
  unfold Toy.article_in. intros [a Ha].
  destruct (Toy.built_in w html title kwargs) as [w' r]. cbn in *.
  rewrite Ha. reflexivity.
Qed.

(** Keyword arguments that name no attribute of the class are plain
    for it, and with them the Article is built. *)
Lemma built_plain (w : World) (html title : string)
  (kwargs : list (string * PyVal)) :
  Forall plain kwargs.*1 ->
  exists a, (Toy.built_in w html title kwargs).2 = Ok a.
Proof.
  intros Hplain. unfold Toy.built_in.
  pose proof (init_outcome (HStr html) (AStr title) ANone None kwargs w
                eq_refl) as H.
  destruct (alloc Configuration (configs w)) as [c cs].
  rewrite (extend_config_plain c kwargs cs Hplain) in H.
  destruct H as [a Ha]. exists a. rewrite Ha. reflexivity.
Qed.

(** The names in a list of keyword arguments are plain. *)
Ltac plain_names :=
  cbn; repeat (constructor; [split; reflexivity|]); constructor.

Lemma no_names : Forall plain ([] : list (string * PyVal)).*1.
Proof. constructor. Qed.

Lemma is_valid_body_unparsed_witness :
  let s := Toy.article "<p>Some text.</p>" "A headline" [] in
  is_parsed (self s) = false
  /\ is_valid_body s = (s, Raise ArticleException).
Proof.
  intros s. split; [reflexivity|].
  apply is_valid_body_unparsed. reflexivity.
Defined.

Lemma parse_no_candidate_witness :
  let s := Toy.article "<html></html>" "Nothing here" [] in
  exists s2,
    parse s
    = (s2, match resource_directory_error (world s) with
           | Some error => Raise error
           | None => Ok tt
           end)
    /\ top_node (self s2) = None
    /\ clean_top_node (self s2) = None
    /\ text (self s2) = ""
    /\ article_html (self s2) = ""
    /\ is_parsed (self s2) = true.
Proof.
  intros s.
  apply (parse_no_candidate
           (HStr "<html></html>") (AStr "Nothing here") ANone None []
           Toy.world0 (world s) (world s) (self s)
           (parse_to_score s).1 ""
           (built_article _ _ _ _ (built_plain _ _ _ _ no_names))).
  apply pair_of_snd. vm_compute. reflexivity.
Defined.

(** C1, as it is worded, fails: in a world where the top directory has
    not been made, the scorer returns no node for the document, the
    attributes are as the claim says, [is_parsed] is True, and [parse]
    raises the OSError of [os.mkdir], which line 203 calls through
    [release_resources] and [get_resource_path] outside any [try]. *)
Lemma parse_raises_without_candidate :
  let s := Toy.article_in Toy.world_bare "<html></html>" "Nothing here" [] in
  (parse_to_score s).2 = Ok (Some ("", None))
  /\ (parse s).2 = Raise (OSError "No such file or directory")
  /\ top_node (self (parse s).1) = None
  /\ text (self (parse s).1) = ""
  /\ is_parsed (self (parse s).1) = true.
Proof. intros s. repeat split; vm_compute; reflexivity. Qed.

Lemma text_within_cap_witness :
  let s := Toy.article "hello world" "Greeting" [("MAX_TEXT", VInt 3)] in
  (Py.len (text (self (parse s).1)) <= 3)%Z
  /\ text (self (parse s).1) = Py.str_take 3 "hello world"
  /\ Py.len (text (self (parse s).1)) = 3%Z.
Proof.
  intros s.
  assert (Hplain : Forall plain [("MAX_TEXT", VInt 3)].*1) by plain_names.
  assert (Hscore : (parse_to_score s).2
                   = Ok (Some ("", Some ((0, tt) : @Ref Toy.lxml))))
    by (vm_compute; reflexivity).
  destruct (text_within_cap
              (HStr "hello world") (AStr "Greeting") ANone None
              [("MAX_TEXT", VInt 3)] Toy.world0 (world s) (world s) (self s)
              (VInt 3) 3
              (built_article _ _ _ _ (built_plain _ _ _ _ Hplain)))
    as [Hlen Hcut].
  - vm_compute. reflexivity.
  - reflexivity.
  - lia.
  - split; [exact Hlen|].
    destruct (Hcut (parse_to_score s).1 "" "" (0, tt) "hello world"
                "hello world" "" [] tt tt "hello world"
                "<div>hello world</div>"
                (pair_of_snd (parse_to_score s) _ Hscore))
      as (Htext & _ & Hfull).
    + vm_compute. reflexivity.
    + vm_compute. reflexivity.
    + vm_compute. reflexivity.
    + split; [exact Htext|]. apply Hfull. vm_compute. reflexivity.
Defined.

(** C2, as it is worded, fails: with MAX_TEXT at 3 and a formatter that
    returns 'hello world', [parse] returns and leaves the text 'hel'.
    The cut is at character 3 of the formatted text, which is inside
    the word 'hello' and is not a paragraph boundary. *)
Lemma parse_cuts_inside_word :
  let s := Toy.article "hello world" "Greeting" [("MAX_TEXT", VInt 3)] in
  (config_attr "MAX_TEXT" s).2 = Ok (VInt 3)
  /\ (parse s).2 = Ok tt
  /\ article_html (self (parse s).1) = "<div>hello world</div>"
  /\ text (self (parse s).1) = "hel"
  /\ Py.str_take 3 "hello world" = "hel"
  /\ (3 < String.length "hello world")%nat
  /\ inside_word "hello world" 3 = true
  /\ paragraph_boundary "hello world" 3 = false.
Proof.
  intros s. repeat split; try (vm_compute; reflexivity).
  simpl. lia.
Qed.

Lemma is_valid_body_few_words_witness :
  let s := (parse (Toy.article "hello world" "A short note" [])).1 in
  (is_valid_body s).2 = Ok false.
Proof.
  intros s.
  apply (is_valid_body_few_words s "" (VInt 300)).
  - vm_compute. reflexivity.
  - vm_compute. reflexivity.
  - discriminate.
  - vm_compute. reflexivity.
  - vm_compute. reflexivity.
Defined.

(** C3, as it is worded, fails: a parsed Article whose body is
    'Hello  world.', two words, under a MIN_WORD_COUNT of 3 and with no
    article-type meta tag, is valid for [is_valid_body]: the method
    counts the three pieces that [split(' ')] makes of the text, the
    empty one between the two spaces included. *)
Lemma is_valid_body_counts_pieces :
  let s := (parse (Toy.article "Hello  world." "A title"
                     [("MIN_WORD_COUNT", VInt 3);
                      ("MIN_SENT_COUNT", VInt 1)])).1 in
  is_parsed (self s) = true
  /\ text (self s) = "Hello  world."
  /\ spec_word_count (text (self s)) = 2
  /\ getattr (cell (configs (world s)) (config (self s))) "MIN_WORD_COUNT"
     = Ok (VInt 3)
  /\ (extractor_get_meta_type s).2 = Ok ""
  /\ Py.split " " (text (self s)) = ["Hello"; ""; "world."]
  /\ (is_valid_body s).2 = Ok true.
Proof. intros s. repeat split; vm_compute; reflexivity. Qed.

Lemma clean_top_node_snapshot_witness :
  let s := Toy.article " hello world " "Greeting" [] in
  top_node (self (parse s).1) = Some (0, tt)
  /\ (exists snap : Ref,
        clean_top_node (self (parse s).1) = Some snap
        /\ snap.1 <> 0
        /\ (cell (documents (world (parse s).1)) snap.1, snap.2)
           = clone_subtree "hello world" tt)
  /\ cell (documents (world (parse s).1)) 0 = "".
Proof.
  intros s.
  assert (Hscore : (parse_to_score s).2
                   = Ok (Some ("", Some ((0, tt) : @Ref Toy.lxml))))
    by (vm_compute; reflexivity).
  destruct (clean_top_node_snapshot s (parse_to_score s).1 "" (0, tt)
              " hello world " "hello world" [] tt tt
              (pair_of_snd (parse_to_score s) _ Hscore))
    as (Htop & Hsnap & Hfmt).
  - vm_compute. reflexivity.
  - vm_compute. reflexivity.
  - split; [exact Htop|]. split; [exact Hsnap|].
    apply (Hfmt "" "" (Ok ("hello world", "<div>hello world</div>"))).
    vm_compute. reflexivity.
Defined.

Lemma parse_deterministic_witness :
  let s1 := Toy.article "hello world" "First" [] in
  let s2 := Toy.article_in (world (parse s1).1) "hello world" "Second" [] in
  config (self s1) <> config (self s2)
  /\ ticks (world s1) <> ticks (world s2)
  /\ fs (world s1) <> fs (world s2)
  /\ text (self (parse s1).1) = text (self (parse s2).1)
  /\ article_html (self (parse s1).1) = article_html (self (parse s2).1)
  /\ (parse s1).2 = (parse s2).2.
Proof.
  intros s1 s2.
  split; [vm_compute; discriminate|].
  split; [vm_compute; discriminate|].
  split; [vm_compute; discriminate|].
  destruct (parse_deterministic
              (HStr "hello world") (AStr "First") ANone (AStr "Second") ANone
              None None [] []
              Toy.world0 (world s1) (world (parse s1).1) (world s2)
              (world s1) (world s2) (self s1) (self s2)
              (built_article _ _ _ _ (built_plain _ _ _ _ no_names))
              (built_article _ _ _ _ (built_plain _ _ _ _ no_names)))
    as (Htext & Hhtml & Hout).
  - vm_compute. reflexivity.
  - vm_compute. reflexivity.
  - vm_compute. reflexivity.
  - split; [exact Htext|]. split; [exact Hhtml|].
    apply Hout. vm_compute. reflexivity.
Defined.

(** C5, as it is worded, fails: two Articles built from the same HTML
    with the same configuration, in two worlds that differ only by
    the stop word files that are installed.  The document declares
    French; where there is a French stop word file, [parse] keeps the
    language and tells it to the formatter, where there is none,
    [set_meta_language] drops it; the two runs return, and the
    article HTML differs. *)
Lemma parse_reads_stopword_directory :
  let html := "<html lang=fr>Bonjour tout le monde" in
  let s1 := Toy.article_in
              (Toy.world_with Toy.top_directory_made
                 (Ok ["stopwords-en.txt"; "stopwords-fr.txt"]))
              html "Salut" [] in
  let s2 := Toy.article_in
              (Toy.world_with Toy.top_directory_made (Ok ["stopwords-en.txt"]))
              html "Salut" [] in
  self s1 = self s2
  /\ cell (configs (world s1)) (config (self s1))
     = cell (configs (world s2)) (config (self s2))
  /\ (parse s1).2 = Ok tt
  /\ (parse s2).2 = Ok tt
  /\ meta_lang (self (parse s1).1) = "fr"
  /\ meta_lang (self (parse s2).1) = ""
  /\ article_html (self (parse s1).1)
     = "<div lang=fr><html lang=fr>Bonjour tout le monde</div>"
  /\ article_html (self (parse s2).1)
     = "<div><html lang=fr>Bonjour tout le monde</div>"
  /\ article_html (self (parse s1).1) <> article_html (self (parse s2).1).
Proof.
  intros html s1 s2. repeat split; try (vm_compute; reflexivity).
  vm_compute. discriminate.
Qed.



Lemma extend_config_frame_witness :
  let configs := mkStore (fun _ => Toy.defaults) 1 in
  let items := [("MAX_TEXT", VInt 3); ("no_such_option", VBool true)] in
  let after := cell (extend_config 0 items configs).1 0 in
  (extend_config 0 items configs).2 = Ok 0
  /\ after !! "MAX_TEXT" = Some (VInt 3)
  /\ after !! "no_such_option" = None
  /\ after !! "MAX_TITLE" = Some (VInt 200).
Proof.
  intros configs items after.
  assert (Hplain : Forall plain items.*1) by plain_names.
  destruct (extend_config_frame 0 items configs Hplain)
    as (Href & _ & Hnone & Hset & Hother & _).
  split; [exact Href|]. split; [|split].
  - apply (Hset "MAX_TEXT" (VInt 3)); [| |reflexivity].
    + apply NoDup_cons. split; [|apply NoDup_singleton].
      intros H. apply list_elem_of_singleton in H. discriminate.
    + apply list_elem_of_here.
  - apply (Hnone "no_such_option" (VBool true)); [|reflexivity].
    apply list_elem_of_further, list_elem_of_here.
  - unfold after. rewrite Hother; [reflexivity|].
    intros H. cbn in H.
    apply elem_of_cons in H as [H|H]; [discriminate|].
    apply list_elem_of_singleton in H. discriminate.
Defined.

(** C10, as it is worded, fails on names for which the class of the
    object answers.  [hasattr] is True for [__class__] on every
    object, and [setattr] raises TypeError for a value that is no
    class: [extend_config] raises, and returns no object.  And
    [language] is a property of the class: its setter stores the code
    in [_language] and switches [use_meta_language] off, an attribute
    the items do not name. *)
Lemma extend_config_class_decides :
  let configs := mkStore (fun _ => Toy.defaults) 1 in
  let after := cell (extend_config 0 [("language", VStr "fr")] configs).1 0 in
  (hasattr (cell configs 0) "__class__" = Ok true
   /\ (extend_config 0 [("__class__", VInt 5)] configs).2 = Raise TypeError)
  /\ (hasattr (cell configs 0) "language" = Ok true
      /\ (extend_config 0 [("language", VStr "fr")] configs).2 = Ok 0
      /\ cell configs 0 !! "use_meta_language" = Some (VBool true)
      /\ after !! "use_meta_language" = Some (VBool false)).
Proof. intros configs after. repeat split; vm_compute; reflexivity. Qed.
(** ** The further properties at work on the small instance *)

Lemma extend_config_idempotent_witness :
  let configs := mkStore (fun _ => Toy.defaults) 1 in
  let items := [("MAX_TEXT", VInt 3); ("MAX_TEXT", VInt 4);
                ("no_such_option", VBool true)] in
  let once := (extend_config 0 items configs).1 in
  let twice := (extend_config 0 items once).1 in
  cell once 0 !! "MAX_TEXT" = Some (VInt 4)
  /\ (forall l, cell twice l = cell once l) /\ next twice = next once.
Proof.
  intros configs items once twice.
  split; [vm_compute; reflexivity|].
  apply (extend_config_idempotent 0 items configs). plain_names.
Defined.

Lemma get_available_languages_shape_witness :
  Sorted Py.str_le ["en"; "fr"]
  /\ Forall (fun code => String.length code = 2) ["en"; "fr"].
Proof.
  assert (H : get_available_languages
                (Ok ["stopwords-fr.txt"; "stopwords-en.txt"])
              = Ok ["en"; "fr"]) by (vm_compute; reflexivity).
  destruct (get_available_languages_shape _ _ H) as (_ & Htwo & Hsorted & _).
  split; [exact Hsorted | exact Htwo].
Defined.

Lemma get_available_languages_code_witness :
  "en" ∈ ["en"; "fr"] /\ String.length "en" = 2.
Proof.
  apply (get_available_languages_code
           ["stopwords-fr.txt"; "stopwords-en.txt"] ["en"; "fr"]
           "stopwords" "en" "txt").
  - vm_compute. reflexivity.
  - right. left.
  - simpl. intuition discriminate.
  - simpl. intuition discriminate.
  - simpl. intuition discriminate.
Defined.

Lemma replace_sequence_emptied_witness :
  let first := ReplaceSequence.create ReplaceSequence.empty "a" None in
  let rest := ReplaceSequence.create ReplaceSequence.empty "" (Some "x") in
  ReplaceSequence.replaceAll (first ++ rest)%list (Some "a") = Ok "".
Proof.
  intros first rest.
  apply (replace_sequence_emptied first rest (Some "a")).
  reflexivity.
Defined.

Lemma article_stays_within_caps_witness :
  let s0 := Toy.article "hello world" "Greeting" [("MAX_TEXT", VInt 3)] in
  let s := foldl (fun s c => (run c s).1) (mkState (self s0) (world s0))
             [call_parse; call_set_summary "A greeting to the world"] in
  within_caps (cell (configs (world s)) (config (self s))) (self s).
Proof.
  intros s0.
  assert (Hplain : Forall plain [("MAX_TEXT", VInt 3)].*1) by plain_names.
  refine (article_stays_within_caps
            (HStr "hello world") (AStr "Greeting") ANone None
            [("MAX_TEXT", VInt 3)] Toy.world0 (world s0) (self s0)
            [call_parse; call_set_summary "A greeting to the world"]
            (built_article _ _ _ _ (built_plain _ _ _ _ Hplain)) _).
  intros t n [= <-] (v & Hv & Hi & _).
  vm_compute in Hv. injection Hv as <-. injection Hi as <-.
  unfold Py.len. simpl. lia.
Defined.

Lemma meta_lang_is_code_witness :
  let s0 := Toy.article "hello world" "Greeting" [] in
  let s := foldl (fun s c => (run c s).1) (mkState (self s0) (world s0))
             [call_set_meta_language "fr"; call_set_meta_language "english"] in
  meta_lang (self s) = "" \/ String.length (meta_lang (self s)) = 2.
Proof.
  intros s0.
  exact (meta_lang_is_code
           (HStr "hello world") (AStr "Greeting") ANone None
           [] Toy.world0 (world s0) (self s0)
           [call_set_meta_language "fr"; call_set_meta_language "english"]
           (built_article _ _ _ _ (built_plain _ _ _ _ no_names))).
Defined.

Lemma outputs_stay_nonempty_witness :
  let s := (parse (Toy.article "hello world" "Greeting" [])).1 in
  Py.truthy (text (self (run (call_set_text "") s).1)) = true.
Proof.
  intros s.
  apply (proj1 (outputs_stay_nonempty (call_set_text "") s)).
  vm_compute. reflexivity.
Defined.

Lemma parse_without_document_witness :
  let s := Toy.article "" "Empty" [] in
  parse s
  = (with_self (with_clean_doc None (with_doc None (self s))) s, Ok tt).
Proof.
  intros s.
  apply (proj1 (parse_without_document s)).
  vm_compute. reflexivity.
Defined.

Lemma parse_empty_html_witness :
  let s := Toy.article "" "Empty" [] in
  is_parsed (self (parse s).1) = is_parsed (self s)
  /\ text (self (parse s).1) = text (self s).
Proof.
  intros s.
  assert (H : Py.html_truthy (html (self s)) = false) by reflexivity.
  destruct (parse_empty_html s H) as (H1 & H2 & _).
  split; [exact H1 | exact H2].
Defined.

Lemma parse_keeps_stale_outputs_witness :
  let s := (set_html (HStr "<html></html>")
              (parse (Toy.article "hello world" "Greeting" [])).1).1 in
  text (self s) = "hello world"
  /\ exists s2,
       parse s = (s2, match resource_directory_error (world s) with
                      | Some error => Raise error
                      | None => Ok tt
                      end)
       /\ is_parsed (self s2) = true
       /\ top_node (self s2) = None
       /\ text (self s2) = text (self s)
       /\ article_html (self s2) = article_html (self s)
       /\ clean_top_node (self s2) = clean_top_node (self s)
       /\ movies (self s2) = movies (self s).
Proof.
  intros s. split; [vm_compute; reflexivity|].
  apply (parse_keeps_stale_outputs s (parse_to_score s).1
           ("" : @Formatter Toy.lxml Toy.lib)).
  apply pair_of_snd. vm_compute. reflexivity.
Defined.

Lemma release_resources_effect_witness :
  let s := (parse (Toy.article "hello world" "Greeting" [])).1 in
  (release_resources s).2 = Ok tt
  /\ self (release_resources s).1 = self s.
Proof.
  intros s.
  assert (H : link_hash (self s)
              = Some "0cc175b9c0f1b6a831c399e269772661.1700000000.0")
    by (vm_compute; reflexivity).
  destruct (release_resources_effect s _ H) as (H1 & H2 & _).
  split; [exact (eq_trans H1 eq_refl) | exact H2].
Defined.

Lemma build_release_resources_witness :
  let s := (parse (Toy.article "hello world" "Greeting" [])).1 in
  let p := "/tmp/.newspaper_scraper/article_resources/0cc175b9c0f1b6a831c399e269772661.1700000000.0_" in
  let r := (build_resource_path ≫= fun _ => release_resources) s in
  fs (world s) !! p = None
  /\ r.2 = Ok tt /\ self r.1 = self s /\ fs (world r.1) !! p = Some Dir.
Proof.
  intros s p r.
  assert (H : link_hash (self s)
              = Some "0cc175b9c0f1b6a831c399e269772661.1700000000.0")
    by (vm_compute; reflexivity).
  assert (Hb : (build_resource_path s).2 = Ok tt) by (vm_compute; reflexivity).
  assert (Hp : fs (world s) !! p = None) by (vm_compute; reflexivity).
  destruct (build_release_resources s _ H Hb) as (H1 & H2 & H3).
  split; [exact Hp|]. split; [exact H1|]. split; [exact H2|].
  change (Py.path_join resource_directory
            ("0cc175b9c0f1b6a831c399e269772661.1700000000.0" +:+ "_"))
    with p in H3.
  rewrite Hp in H3. exact H3.
Defined.

Lemma is_valid_body_decides_witness :
  let s := (parse (Toy.article "hello world" "A short note" [])).1 in
  (is_valid_body s).2 = Ok false.
Proof.
  intros s.
  refine (eq_trans (is_valid_body_decides s "" 300 7 _ _ _ _) _);
    vm_compute; reflexivity.
Defined.

Lemma init_shared_config_witness :
  let w := with_configs (mkStore (fun _ => Toy.defaults) 1) Toy.world0 in
  let r1 := __init__ (HStr "a") (AStr "First") ANone (Some 0) [] w in
  let a1 := match r1.2 with Ok a => a | Raise _ => Toy.blank end in
  let r2 := __init__ (HStr "b") (AStr "Second") ANone (Some 0)
              [("MAX_TEXT", VInt 3)] r1.1 in
  let a2 := match r2.2 with Ok a => a | Raise _ => Toy.blank end in
  cell (configs r1.1) (config a1) !! "MAX_TEXT" = Some (VInt 100000)
  /\ config a1 = config a2
  /\ cell (configs r2.1) (config a1) !! "MAX_TEXT" = Some (VInt 3).
Proof.
  intros w r1 a1 r2 a2. split; [vm_compute; reflexivity|].
  assert (H1 : r1 = (r1.1, Ok a1)) by (apply pair_of_snd; reflexivity).
  assert (H2 : r2 = (r2.1, Ok a2)) by (apply pair_of_snd; reflexivity).
  destruct (init_shared_config _ _ _ _ _ _ _ _ _ _ _ _ _ _ H1 H2)
    as (Hsame & _ & Hval).
  split; [exact Hsame|].
  apply (Hval ltac:(plain_names) "MAX_TEXT" (VInt 3)).
  - apply NoDup_singleton.
  - apply list_elem_of_here.
  - vm_compute. eauto.
Defined.

Lemma init_fresh_config_witness :
  let s1 := Toy.article "a" "First" [] in
  let s2 := Toy.article_in (world s1) "b" "Second" [("MAX_TEXT", VInt 3)] in
  config (self s1) <> config (self s2)
  /\ cell (configs (world s2)) (config (self s1))
     = cell (configs (world s1)) (config (self s1))
  /\ (is_Some (cell (configs (world s1)) (config (self s1)) !! "MAX_TEXT")
      <-> is_Some (Configuration !! "MAX_TEXT")).
Proof.
  intros s1 s2.
  assert (Hplain : Forall plain [("MAX_TEXT", VInt 3)].*1) by plain_names.
  destruct (init_fresh_config _ _ _ _ _ _ _ _ _ _ _ _ _
              (built_article Toy.world0 "a" "First" []
                 (built_plain _ _ _ _ no_names))
              (built_article (world s1) "b" "Second" [("MAX_TEXT", VInt 3)]
                 (built_plain _ _ _ _ Hplain)))
    as (H1 & H2 & _ & _ & H3).
  split; [exact H1|]. split; [exact H2|].
  apply (H3 no_names "MAX_TEXT").
Defined.
